(** * NiruGuard: record linkage, red-flag features and risk labels

    A shallow embedding of the three feature pipelines of the repository
    ([src/features/build_features.py], [build_features_v2.py] and
    [build_features_v3.py]) together with the properties their
    specification states about them.

    Conventions of the embedding:
    - a pandas cell is a Python [int], a Python [float] (IEEE binary64,
      [NaN] being the missing value) or a [str]; a [str] is held as the
      bytes of its UTF-8 encoding, and white space, decimal digits and upper
      case are those of CPython 3.11 (Unicode 14.0);
    - a Series is a list, a DataFrame with a fixed set of columns is either a
      list of row records (the linked tables) or a record of Series (the
      feature table, which the code builds column by column);
    - a column has a dtype, int64, float64 or object, which [read_csv]
      infers from its cells; [drop_duplicates] and [merge] compare keys as
      pandas 2 does for the dtypes of their columns: integers that meet
      floats are converted to floats, the two zeros are one key, [NaN] equals
      [NaN], and a column of strings is not joined with a column of numbers;
    - Python exceptions are explicit: a computation that may raise lives in
      the [result] monad, [try]/[except] is [try_except];
    - files are a finite map from path to parsed CSV content: the header
      and the records, each field as pandas parses it (an integer, a float,
      a text, [NaN] for a missing field); [read_csv] gives each column its
      dtype, the integers of a column that also holds floats or missing
      fields becoming floats.

    What belongs to pandas or to the platform is kept out of the embedding:
    - [pd.to_datetime(..., errors='coerce')] is a parameter (the class
      [DatetimeParser]); the instants it returns are compared as integers;
    - integers are not bounded, and columns of booleans or dates are not
      among the dtypes;
    - a join returns its rows in the order of the left frame;
    - writing the output file succeeds. *)

From Stdlib Require Import ZArith QArith Ascii String List Bool Lia.
From Stdlib Require Import SpecFloat.
From stdpp Require Import base option list gmap strings countable pretty.

Open Scope string_scope.
Open Scope list_scope.
Open Scope Z_scope.

(* ================================================================== *)
(** ** Python floats: IEEE 754 binary64 *)
(* ================================================================== *)

Module Float.

Definition prec : Z := 53.
Definition emax : Z := 1024.

(** A Python [float]; every value built below is in canonical form. *)
Definition float : Type := spec_float.

Definition nan : float := S754_nan.

(** [float(z)] for a Python int, and the value [m * 2^e]. *)
Definition of_Z (z : Z) : float := binary_normalize prec emax z 0 false.
Definition of_bin (m e : Z) : float := binary_normalize prec emax m e false.

Definition add : float -> float -> float := SFadd prec emax.
Definition mul : float -> float -> float := SFmul prec emax.
Definition ltb : float -> float -> bool := SFltb.
Definition leb : float -> float -> bool := SFleb.
Definition eqb : float -> float -> bool := SFeqb.

Definition is_nan (f : float) : bool :=
  match f with S754_nan => true | _ => false end.

(** The correctly rounded value of the decimal [(-1)^s * m * 10^e], as
    [strtod] computes it: one rounding to nearest, ties to even. *)
Definition of_decimal (s : bool) (m : Z) (e : Z) : float :=
  match m with
  | Zpos p =>
      match e with
      | Zneg k =>
          SFdiv prec emax (S754_finite s p 0) (S754_finite false (10 ^ k)%positive 0)
      | _ => binary_normalize prec emax (cond_Zopp s (m * 10 ^ e)) 0 false
      end
  | _ => S754_zero s
  end.

(** The exact value of a finite float, as a rational. *)
Definition to_Q (f : float) : option Q :=
  match f with
  | S754_zero _ => Some 0%Q
  | S754_finite s m e => Some (inject_Z (cond_Zopp s (Zpos m)) * Qpower 2 e)%Q
  | _ => None
  end.

(** Python's [x % y] on floats ([float_rem] of CPython): the C [fmod],
    which is exact, then the sign adjustment towards the divisor.
    [None] is [ZeroDivisionError]. *)
Definition rem (x y : float) : option float :=
  match y with
  | S754_zero _ => None
  | S754_nan => Some nan
  | S754_infinity sy =>
      match x with
      | S754_nan | S754_infinity _ => Some nan
      | S754_zero _ => Some (S754_zero sy)
      | S754_finite sx _ _ => Some (if xorb sx sy then y else x)
      end
  | S754_finite sy my ey =>
      match x with
      | S754_nan | S754_infinity _ => Some nan
      | S754_zero _ => Some (S754_zero sy)
      | S754_finite sx mx ex =>
          let e0 := Z.min ex ey in
          let X := Zpos mx * 2 ^ (ex - e0) in
          let Y := Zpos my * 2 ^ (ey - e0) in
          let r := X mod Y in
          if r =? 0 then Some (S754_zero sy)
          else
            let fm := binary_normalize prec emax (cond_Zopp sx r) e0 false in
            Some (if xorb sx sy then add fm y else fm)
      end
  end.

End Float.

Abbreviation float := Float.float.

(* ================================================================== *)
(** ** Cells, exceptions *)
(* ================================================================== *)

(** A Python number: [int] or [float]. *)
Inductive num : Type :=
  | PyInt (z : Z)
  | PyFloat (f : float).

(** What [read_csv] puts in a cell, and what a merge fills in. *)
Inductive cell : Type :=
  | Num (n : num)
  | Str (s : string).

(** The missing value of pandas. *)
Definition NaN : cell := Num (PyFloat Float.nan).

(** [pd.isna(x)] on a scalar. *)
Definition pd_isna (x : cell) : bool :=
  match x with
  | Num (PyFloat f) => Float.is_nan f
  | _ => false
  end.

Inductive exn : Type :=
  | FileNotFoundError (filename : string)
  | ValueError (msg : string)
  | AttributeError (msg : string).

(** A computation that returns a value or raises. *)
Inductive result (A : Type) : Type :=
  | Ok (a : A)
  | Raise (e : exn).
Arguments Ok {A} a.
Arguments Raise {A} e.

#[global] Instance result_ret : MRet result := fun A a => Ok a.
#[global] Instance result_bind : MBind result := fun A B f m =>
  match m with Ok a => f a | Raise e => Raise e end.

(** [try: body  except: handler] with a bare (catch-all) [except]. *)
Definition try_except {A} (body : result A) (handler : exn -> result A) : result A :=
  match body with Ok a => Ok a | Raise e => handler e end.

Definition returns {A} (m : result A) : Prop := exists a, m = Ok a.

(* ================================================================== *)
(** ** Python strings *)
(* ================================================================== *)

(** A [str] is held as the bytes of its UTF-8 encoding; the functions that
    look at characters decode it first. A byte that is part of no
    well-formed character stands for itself, above the code points. *)
Module Utf8.

Definition byte (c : ascii) : N := N_of_ascii c.

Definition encode_cp (cp : N) : list ascii :=
  (if cp <? 0x80 then [ascii_of_N cp]
   else if cp <? 0x800 then
     [ascii_of_N (0xC0 + cp / 0x40); ascii_of_N (0x80 + cp mod 0x40)]
   else if cp <? 0x10000 then
     [ascii_of_N (0xE0 + cp / 0x1000); ascii_of_N (0x80 + (cp / 0x40) mod 0x40);
      ascii_of_N (0x80 + cp mod 0x40)]
   else if cp <? 0x110000 then
     [ascii_of_N (0xF0 + cp / 0x40000); ascii_of_N (0x80 + (cp / 0x1000) mod 0x40);
      ascii_of_N (0x80 + (cp / 0x40) mod 0x40); ascii_of_N (0x80 + cp mod 0x40)]
   else [ascii_of_N (cp - 0x110000)])%N.

Definition encode (cps : list N) : list ascii := cps ≫= encode_cp.

(** The six bits that a continuation byte carries. *)
Definition low6 (c : ascii) : N := (byte c mod 0x40)%N.

(** [bytes] is the encoding of the character [cp] (the shortest one, and
    no surrogate). *)
Definition encodes (cp : N) (bytes : list ascii) : bool :=
  bool_decide (encode_cp cp = bytes) && negb ((0xD800 <=? cp) && (cp <? 0xE000))%N.

Fixpoint decode (s : list ascii) : list N :=
  match s with
  | [] => []
  | b0 :: s1 =>
      let stray := (0x110000 + byte b0)%N :: decode s1 in
      if (byte b0 <? 0x80)%N then byte b0 :: decode s1
      else
        match s1 with
        | [] => stray
        | b1 :: s2 =>
            let cp2 := ((byte b0 - 0xC0) * 0x40 + low6 b1)%N in
            if encodes cp2 [b0; b1] then cp2 :: decode s2
            else
              match s2 with
              | [] => stray
              | b2 :: s3 =>
                  let cp3 := ((byte b0 - 0xE0) * 0x1000 + low6 b1 * 0x40 + low6 b2)%N in
                  if encodes cp3 [b0; b1; b2] then cp3 :: decode s3
                  else
                    match s3 with
                    | [] => stray
                    | b3 :: s4 =>
                        let cp4 := ((byte b0 - 0xF0) * 0x40000 + low6 b1 * 0x1000
                                    + low6 b2 * 0x40 + low6 b3)%N in
                        if encodes cp4 [b0; b1; b2; b3] then cp4 :: decode s4 else stray
                    end
              end
        end
  end.

(** The code points of a string, and the string of code points. *)
Definition chars (s : string) : list N := decode (list_ascii_of_string s).
Definition text (cps : list N) : string := string_of_list_ascii (encode cps).

End Utf8.

(** What CPython 3.11 knows of Unicode 14.0, as far as the pipelines ask:
    which code points are white space ([str.isspace], [Py_UNICODE_ISSPACE]),
    which are decimal digits ([Py_UNICODE_TODECIMAL]) and the upper case of
    a code point ([str.upper], one to three code points). *)
Module Unicode.

Definition between (lo hi cp : N) : bool := ((lo <=? cp) && (cp <=? hi))%N.

Definition is_space (cp : N) : bool :=
  between 0x9 0xD cp || between 0x1C 0x20 cp || (cp =? 0x85)%N || (cp =? 0xA0)%N
  || (cp =? 0x1680)%N || between 0x2000 0x200A cp || between 0x2028 0x2029 cp
  || (cp =? 0x202F)%N || (cp =? 0x205F)%N || (cp =? 0x3000)%N.

(** The digit zero of every decimal script; the nine code points after it
    are its digits one to nine. *)
Definition zeros : list N :=
  [0x30; 0x660; 0x6F0; 0x7C0; 0x966; 0x9E6; 0xA66; 0xAE6;
   0xB66; 0xBE6; 0xC66; 0xCE6; 0xD66; 0xDE6; 0xE50; 0xED0;
   0xF20; 0x1040; 0x1090; 0x17E0; 0x1810; 0x1946; 0x19D0; 0x1A80;
   0x1A90; 0x1B50; 0x1BB0; 0x1C40; 0x1C50; 0xA620; 0xA8D0; 0xA900;
   0xA9D0; 0xA9F0; 0xAA50; 0xABF0; 0xFF10; 0x104A0; 0x10D30; 0x11066;
   0x110F0; 0x11136; 0x111D0; 0x112F0; 0x11450; 0x114D0; 0x11650; 0x116C0;
   0x11730; 0x118E0; 0x11950; 0x11C50; 0x11D50; 0x11DA0; 0x16A60; 0x16AC0;
   0x16B50; 0x1D7CE; 0x1D7D8; 0x1D7E2; 0x1D7EC; 0x1D7F6; 0x1E140; 0x1E2F0;
   0x1E950; 0x1FBF0]%N.

Definition decimal (cp : N) : option N :=
  (fun z => cp - z)%N <$> head (filter (fun z => between z (z + 9) cp) zeros).

(** The letters whose upper case is one code point, in runs
    [(first, last, step, upper case of first)]: the run holds every
    [step]-th code point from [first] to [last], and the upper cases keep
    the same distance. *)
Definition upper_runs : list (N * N * N * N) :=
  [(0x61, 0x7A, 1, 0x41); (0xB5, 0xB5, 1, 0x39C); (0xE0, 0xF6, 1, 0xC0);
   (0xF8, 0xFE, 1, 0xD8); (0xFF, 0xFF, 1, 0x178); (0x101, 0x12F, 2, 0x100);
   (0x131, 0x131, 1, 0x49); (0x133, 0x137, 2, 0x132); (0x13A, 0x148, 2, 0x139);
   (0x14B, 0x177, 2, 0x14A); (0x17A, 0x17E, 2, 0x179); (0x17F, 0x17F, 1, 0x53);
   (0x180, 0x180, 1, 0x243); (0x183, 0x185, 2, 0x182); (0x188, 0x188, 1, 0x187);
   (0x18C, 0x18C, 1, 0x18B); (0x192, 0x192, 1, 0x191); (0x195, 0x195, 1, 0x1F6);
   (0x199, 0x199, 1, 0x198); (0x19A, 0x19A, 1, 0x23D); (0x19E, 0x19E, 1, 0x220);
   (0x1A1, 0x1A5, 2, 0x1A0); (0x1A8, 0x1A8, 1, 0x1A7); (0x1AD, 0x1AD, 1, 0x1AC);
   (0x1B0, 0x1B0, 1, 0x1AF); (0x1B4, 0x1B6, 2, 0x1B3); (0x1B9, 0x1B9, 1, 0x1B8);
   (0x1BD, 0x1BD, 1, 0x1BC); (0x1BF, 0x1BF, 1, 0x1F7); (0x1C5, 0x1C5, 1, 0x1C4);
   (0x1C6, 0x1C6, 1, 0x1C4); (0x1C8, 0x1C8, 1, 0x1C7); (0x1C9, 0x1C9, 1, 0x1C7);
   (0x1CB, 0x1CB, 1, 0x1CA); (0x1CC, 0x1CC, 1, 0x1CA); (0x1CE, 0x1DC, 2, 0x1CD);
   (0x1DD, 0x1DD, 1, 0x18E); (0x1DF, 0x1EF, 2, 0x1DE); (0x1F2, 0x1F2, 1, 0x1F1);
   (0x1F3, 0x1F3, 1, 0x1F1); (0x1F5, 0x1F5, 1, 0x1F4); (0x1F9, 0x21F, 2, 0x1F8);
   (0x223, 0x233, 2, 0x222); (0x23C, 0x23C, 1, 0x23B); (0x23F, 0x240, 1, 0x2C7E);
   (0x242, 0x242, 1, 0x241); (0x247, 0x24F, 2, 0x246); (0x250, 0x250, 1, 0x2C6F);
   (0x251, 0x251, 1, 0x2C6D); (0x252, 0x252, 1, 0x2C70); (0x253, 0x253, 1, 0x181);
   (0x254, 0x254, 1, 0x186); (0x256, 0x257, 1, 0x189); (0x259, 0x259, 1, 0x18F);
   (0x25B, 0x25B, 1, 0x190); (0x25C, 0x25C, 1, 0xA7AB); (0x260, 0x260, 1, 0x193);
   (0x261, 0x261, 1, 0xA7AC); (0x263, 0x263, 1, 0x194); (0x265, 0x265, 1, 0xA78D);
   (0x266, 0x266, 1, 0xA7AA); (0x268, 0x268, 1, 0x197); (0x269, 0x269, 1, 0x196);
   (0x26A, 0x26A, 1, 0xA7AE); (0x26B, 0x26B, 1, 0x2C62); (0x26C, 0x26C, 1, 0xA7AD);
   (0x26F, 0x26F, 1, 0x19C); (0x271, 0x271, 1, 0x2C6E); (0x272, 0x272, 1, 0x19D);
   (0x275, 0x275, 1, 0x19F); (0x27D, 0x27D, 1, 0x2C64); (0x280, 0x280, 1, 0x1A6);
   (0x282, 0x282, 1, 0xA7C5); (0x283, 0x283, 1, 0x1A9); (0x287, 0x287, 1, 0xA7B1);
   (0x288, 0x288, 1, 0x1AE); (0x289, 0x289, 1, 0x244); (0x28A, 0x28B, 1, 0x1B1);
   (0x28C, 0x28C, 1, 0x245); (0x292, 0x292, 1, 0x1B7); (0x29D, 0x29D, 1, 0xA7B2);
   (0x29E, 0x29E, 1, 0xA7B0); (0x345, 0x345, 1, 0x399); (0x371, 0x373, 2, 0x370);
   (0x377, 0x377, 1, 0x376); (0x37B, 0x37D, 1, 0x3FD); (0x3AC, 0x3AC, 1, 0x386);
   (0x3AD, 0x3AF, 1, 0x388); (0x3B1, 0x3C1, 1, 0x391); (0x3C2, 0x3C2, 1, 0x3A3);
   (0x3C3, 0x3CB, 1, 0x3A3); (0x3CC, 0x3CC, 1, 0x38C); (0x3CD, 0x3CE, 1, 0x38E);
   (0x3D0, 0x3D0, 1, 0x392); (0x3D1, 0x3D1, 1, 0x398); (0x3D5, 0x3D5, 1, 0x3A6);
   (0x3D6, 0x3D6, 1, 0x3A0); (0x3D7, 0x3D7, 1, 0x3CF); (0x3D9, 0x3EF, 2, 0x3D8);
   (0x3F0, 0x3F0, 1, 0x39A); (0x3F1, 0x3F1, 1, 0x3A1); (0x3F2, 0x3F2, 1, 0x3F9);
   (0x3F3, 0x3F3, 1, 0x37F); (0x3F5, 0x3F5, 1, 0x395); (0x3F8, 0x3F8, 1, 0x3F7);
   (0x3FB, 0x3FB, 1, 0x3FA); (0x430, 0x44F, 1, 0x410); (0x450, 0x45F, 1, 0x400);
   (0x461, 0x481, 2, 0x460); (0x48B, 0x4BF, 2, 0x48A); (0x4C2, 0x4CE, 2, 0x4C1);
   (0x4CF, 0x4CF, 1, 0x4C0); (0x4D1, 0x52F, 2, 0x4D0); (0x561, 0x586, 1, 0x531);
   (0x10D0, 0x10FA, 1, 0x1C90); (0x10FD, 0x10FF, 1, 0x1CBD); (0x13F8, 0x13FD, 1, 0x13F0);
   (0x1C80, 0x1C80, 1, 0x412); (0x1C81, 0x1C81, 1, 0x414); (0x1C82, 0x1C82, 1, 0x41E);
   (0x1C83, 0x1C84, 1, 0x421); (0x1C85, 0x1C85, 1, 0x422); (0x1C86, 0x1C86, 1, 0x42A);
   (0x1C87, 0x1C87, 1, 0x462); (0x1C88, 0x1C88, 1, 0xA64A); (0x1D79, 0x1D79, 1, 0xA77D);
   (0x1D7D, 0x1D7D, 1, 0x2C63); (0x1D8E, 0x1D8E, 1, 0xA7C6); (0x1E01, 0x1E95, 2, 0x1E00);
   (0x1E9B, 0x1E9B, 1, 0x1E60); (0x1EA1, 0x1EFF, 2, 0x1EA0); (0x1F00, 0x1F07, 1, 0x1F08);
   (0x1F10, 0x1F15, 1, 0x1F18); (0x1F20, 0x1F27, 1, 0x1F28); (0x1F30, 0x1F37, 1, 0x1F38);
   (0x1F40, 0x1F45, 1, 0x1F48); (0x1F51, 0x1F57, 2, 0x1F59); (0x1F60, 0x1F67, 1, 0x1F68);
   (0x1F70, 0x1F71, 1, 0x1FBA); (0x1F72, 0x1F75, 1, 0x1FC8); (0x1F76, 0x1F77, 1, 0x1FDA);
   (0x1F78, 0x1F79, 1, 0x1FF8); (0x1F7A, 0x1F7B, 1, 0x1FEA); (0x1F7C, 0x1F7D, 1, 0x1FFA);
   (0x1FB0, 0x1FB1, 1, 0x1FB8); (0x1FBE, 0x1FBE, 1, 0x399); (0x1FD0, 0x1FD1, 1, 0x1FD8);
   (0x1FE0, 0x1FE1, 1, 0x1FE8); (0x1FE5, 0x1FE5, 1, 0x1FEC); (0x214E, 0x214E, 1, 0x2132);
   (0x2170, 0x217F, 1, 0x2160); (0x2184, 0x2184, 1, 0x2183); (0x24D0, 0x24E9, 1, 0x24B6);
   (0x2C30, 0x2C5F, 1, 0x2C00); (0x2C61, 0x2C61, 1, 0x2C60); (0x2C65, 0x2C65, 1, 0x23A);
   (0x2C66, 0x2C66, 1, 0x23E); (0x2C68, 0x2C6C, 2, 0x2C67); (0x2C73, 0x2C73, 1, 0x2C72);
   (0x2C76, 0x2C76, 1, 0x2C75); (0x2C81, 0x2CE3, 2, 0x2C80); (0x2CEC, 0x2CEE, 2, 0x2CEB);
   (0x2CF3, 0x2CF3, 1, 0x2CF2); (0x2D00, 0x2D25, 1, 0x10A0); (0x2D27, 0x2D27, 1, 0x10C7);
   (0x2D2D, 0x2D2D, 1, 0x10CD); (0xA641, 0xA66D, 2, 0xA640); (0xA681, 0xA69B, 2, 0xA680);
   (0xA723, 0xA72F, 2, 0xA722); (0xA733, 0xA76F, 2, 0xA732); (0xA77A, 0xA77C, 2, 0xA779);
   (0xA77F, 0xA787, 2, 0xA77E); (0xA78C, 0xA78C, 1, 0xA78B); (0xA791, 0xA793, 2, 0xA790);
   (0xA794, 0xA794, 1, 0xA7C4); (0xA797, 0xA7A9, 2, 0xA796); (0xA7B5, 0xA7C3, 2, 0xA7B4);
   (0xA7C8, 0xA7CA, 2, 0xA7C7); (0xA7D1, 0xA7D1, 1, 0xA7D0); (0xA7D7, 0xA7D9, 2, 0xA7D6);
   (0xA7F6, 0xA7F6, 1, 0xA7F5); (0xAB53, 0xAB53, 1, 0xA7B3); (0xAB70, 0xABBF, 1, 0x13A0);
   (0xFF41, 0xFF5A, 1, 0xFF21); (0x10428, 0x1044F, 1, 0x10400); (0x104D8, 0x104FB, 1, 0x104B0);
   (0x10597, 0x105A1, 1, 0x10570); (0x105A3, 0x105B1, 1, 0x1057C); (0x105B3, 0x105B9, 1, 0x1058C);
   (0x105BB, 0x105BC, 1, 0x10594); (0x10CC0, 0x10CF2, 1, 0x10C80); (0x118C0, 0x118DF, 1, 0x118A0);
   (0x16E60, 0x16E7F, 1, 0x16E40); (0x1E922, 0x1E943, 1, 0x1E900)]%N.

(** The letters whose upper case is two or three code points. *)
Definition upper_special : list (N * list N) :=
  [(0xDF, [0x53; 0x53]); (0x149, [0x2BC; 0x4E]); (0x1F0, [0x4A; 0x30C]);
   (0x390, [0x399; 0x308; 0x301]); (0x3B0, [0x3A5; 0x308; 0x301]); (0x587, [0x535; 0x552]);
   (0x1E96, [0x48; 0x331]); (0x1E97, [0x54; 0x308]); (0x1E98, [0x57; 0x30A]);
   (0x1E99, [0x59; 0x30A]); (0x1E9A, [0x41; 0x2BE]); (0x1F50, [0x3A5; 0x313]);
   (0x1F52, [0x3A5; 0x313; 0x300]); (0x1F54, [0x3A5; 0x313; 0x301]); (0x1F56, [0x3A5; 0x313; 0x342]);
   (0x1F80, [0x1F08; 0x399]); (0x1F81, [0x1F09; 0x399]); (0x1F82, [0x1F0A; 0x399]);
   (0x1F83, [0x1F0B; 0x399]); (0x1F84, [0x1F0C; 0x399]); (0x1F85, [0x1F0D; 0x399]);
   (0x1F86, [0x1F0E; 0x399]); (0x1F87, [0x1F0F; 0x399]); (0x1F88, [0x1F08; 0x399]);
   (0x1F89, [0x1F09; 0x399]); (0x1F8A, [0x1F0A; 0x399]); (0x1F8B, [0x1F0B; 0x399]);
   (0x1F8C, [0x1F0C; 0x399]); (0x1F8D, [0x1F0D; 0x399]); (0x1F8E, [0x1F0E; 0x399]);
   (0x1F8F, [0x1F0F; 0x399]); (0x1F90, [0x1F28; 0x399]); (0x1F91, [0x1F29; 0x399]);
   (0x1F92, [0x1F2A; 0x399]); (0x1F93, [0x1F2B; 0x399]); (0x1F94, [0x1F2C; 0x399]);
   (0x1F95, [0x1F2D; 0x399]); (0x1F96, [0x1F2E; 0x399]); (0x1F97, [0x1F2F; 0x399]);
   (0x1F98, [0x1F28; 0x399]); (0x1F99, [0x1F29; 0x399]); (0x1F9A, [0x1F2A; 0x399]);
   (0x1F9B, [0x1F2B; 0x399]); (0x1F9C, [0x1F2C; 0x399]); (0x1F9D, [0x1F2D; 0x399]);
   (0x1F9E, [0x1F2E; 0x399]); (0x1F9F, [0x1F2F; 0x399]); (0x1FA0, [0x1F68; 0x399]);
   (0x1FA1, [0x1F69; 0x399]); (0x1FA2, [0x1F6A; 0x399]); (0x1FA3, [0x1F6B; 0x399]);
   (0x1FA4, [0x1F6C; 0x399]); (0x1FA5, [0x1F6D; 0x399]); (0x1FA6, [0x1F6E; 0x399]);
   (0x1FA7, [0x1F6F; 0x399]); (0x1FA8, [0x1F68; 0x399]); (0x1FA9, [0x1F69; 0x399]);
   (0x1FAA, [0x1F6A; 0x399]); (0x1FAB, [0x1F6B; 0x399]); (0x1FAC, [0x1F6C; 0x399]);
   (0x1FAD, [0x1F6D; 0x399]); (0x1FAE, [0x1F6E; 0x399]); (0x1FAF, [0x1F6F; 0x399]);
   (0x1FB2, [0x1FBA; 0x399]); (0x1FB3, [0x391; 0x399]); (0x1FB4, [0x386; 0x399]);
   (0x1FB6, [0x391; 0x342]); (0x1FB7, [0x391; 0x342; 0x399]); (0x1FBC, [0x391; 0x399]);
   (0x1FC2, [0x1FCA; 0x399]); (0x1FC3, [0x397; 0x399]); (0x1FC4, [0x389; 0x399]);
   (0x1FC6, [0x397; 0x342]); (0x1FC7, [0x397; 0x342; 0x399]); (0x1FCC, [0x397; 0x399]);
   (0x1FD2, [0x399; 0x308; 0x300]); (0x1FD3, [0x399; 0x308; 0x301]); (0x1FD6, [0x399; 0x342]);
   (0x1FD7, [0x399; 0x308; 0x342]); (0x1FE2, [0x3A5; 0x308; 0x300]); (0x1FE3, [0x3A5; 0x308; 0x301]);
   (0x1FE4, [0x3A1; 0x313]); (0x1FE6, [0x3A5; 0x342]); (0x1FE7, [0x3A5; 0x308; 0x342]);
   (0x1FF2, [0x1FFA; 0x399]); (0x1FF3, [0x3A9; 0x399]); (0x1FF4, [0x38F; 0x399]);
   (0x1FF6, [0x3A9; 0x342]); (0x1FF7, [0x3A9; 0x342; 0x399]); (0x1FFC, [0x3A9; 0x399]);
   (0xFB00, [0x46; 0x46]); (0xFB01, [0x46; 0x49]); (0xFB02, [0x46; 0x4C]);
   (0xFB03, [0x46; 0x46; 0x49]); (0xFB04, [0x46; 0x46; 0x4C]); (0xFB05, [0x53; 0x54]);
   (0xFB06, [0x53; 0x54]); (0xFB13, [0x544; 0x546]); (0xFB14, [0x544; 0x535]);
   (0xFB15, [0x544; 0x53B]); (0xFB16, [0x54E; 0x546]); (0xFB17, [0x544; 0x53D])]%N.

Definition in_run (cp : N) (run : N * N * N * N) : bool :=
  let '(first, last, step, _) := run in
  (between first last cp && ((cp - first) mod step =? 0))%N.

Definition upper (cp : N) : list N :=
  match filter (fun run => in_run cp run) upper_runs with
  | (first, _, _, up) :: _ => [(up + (cp - first))%N]
  | [] =>
      match filter (fun entry => (entry.1 =? cp)%N) upper_special with
      | (_, ups) :: _ => ups
      | [] => [cp]
      end
  end.

End Unicode.

Module Py.

Definition code (c : ascii) : N := N_of_ascii c.

Definition is_digit (c : ascii) : bool := ((48 <=? code c) && (code c <=? 57))%N.

(** [Py_ISSPACE]: the white space of the C locale. *)
Definition is_c_space (c : ascii) : bool :=
  (((9 <=? code c) && (code c <=? 13)) || (code c =? 32))%N.

(** [tolower] of the C locale. *)
Definition lower_char (c : ascii) : ascii :=
  if ((65 <=? code c) && (code c <=? 90))%N then ascii_of_N (code c + 32) else c.

Fixpoint map_chars (f : ascii -> ascii) (s : string) : string :=
  match s with
  | EmptyString => EmptyString
  | String c s' => String (f c) (map_chars f s')
  end.

(** [s.lower()], where it is compared with an ASCII word without the letter
    [k]: the ASCII letters are lowered and the other characters are left
    as they are. In CPython the lower case of a character that is not ASCII
    has a character that is not ASCII, except for the Kelvin sign, which
    becomes [k]; so the comparison comes out the same. *)
Definition lower : string -> string := map_chars lower_char.

Fixpoint drop_while {A} (p : A -> bool) (l : list A) : list A :=
  match l with
  | x :: l' => if p x then drop_while p l' else l
  | [] => []
  end.

(** What is left of a list when the elements that satisfy [p] are taken off
    both ends. *)
Definition trim {A} (p : A -> bool) (l : list A) : list A :=
  rev (drop_while p (rev (drop_while p l))).

(** [s.strip()]: the white space of [str.isspace] is taken off both ends. *)
Definition strip (s : string) : string :=
  Utf8.text (trim Unicode.is_space (Utf8.chars s)).

(** [s.upper()]: every character becomes its upper case. *)
Definition upper (s : string) : string :=
  Utf8.text (Utf8.chars s ≫= Unicode.upper).

(** [s.replace(old, '')] for a non-empty [old]: the occurrences of [old]
    are found from left to right, without overlap, and dropped. [skip]
    counts the characters of the current occurrence still to drop. *)
Fixpoint remove_from (old : string) (skip : nat) (s : string) : string :=
  match s with
  | EmptyString => EmptyString
  | String c s' =>
      match skip with
      | S k => remove_from old k s'
      | O =>
          if String.prefix old s
          then remove_from old (Nat.pred (String.length old)) s'
          else String c (remove_from old 0 s')
      end
  end.

Definition remove (old : string) (s : string) : string := remove_from old 0 s.

(** *** [float(s)] *)

Definition is_ascii (s : list ascii) : bool := forallb (fun c => (code c <? 0x80)%N) s.

(** What [float] makes of a string that is not ASCII before it reads it
    ([_PyUnicode_TransformDecimalAndSpaceToASCII]): a character below 127 is
    kept, white space becomes a space, a decimal digit of any script becomes
    its ASCII digit, and at the first other character the text ends with a
    question mark. *)
Fixpoint to_ascii (cps : list N) : list ascii :=
  match cps with
  | [] => []
  | cp :: rest =>
      if (cp <? 127)%N then ascii_of_N cp :: to_ascii rest
      else if Unicode.is_space cp then " "%char :: to_ascii rest
      else
        match Unicode.decimal cp with
        | Some d => ascii_of_N (48 + d) :: to_ascii rest
        | None => ["?"%char]
        end
  end.

(** The characters that [float] reads: those of an ASCII string as they
    are. *)
Definition float_text (s : string) : list ascii :=
  let bytes := list_ascii_of_string s in
  if is_ascii bytes then bytes else to_ascii (Utf8.decode bytes).

Definition digit_value (c : ascii) : Z := Z.of_N (code c) - 48.

Definition digits_value (ds : list ascii) : Z :=
  fold_left (fun acc c => 10 * acc + digit_value c) ds 0.

Fixpoint span_digits (s : list ascii) : list ascii * list ascii :=
  match s with
  | c :: s' =>
      if is_digit c
      then let '(ds, rest) := span_digits s' in (c :: ds, rest)
      else ([], s)
  | [] => ([], [])
  end.

(** Underscores may only stand between two digits; they are dropped
    before the number is read. [prev] is the previous character. *)
Fixpoint drop_underscores (prev : ascii) (s : list ascii) : option (list ascii) :=
  match s with
  | [] => if Ascii.eqb prev "_" then None else Some []
  | c :: s' =>
      if Ascii.eqb c "_"
      then if is_digit prev then drop_underscores c s' else None
      else if Ascii.eqb prev "_" && negb (is_digit c) then None
      else cons c <$> drop_underscores c s'
  end.

Definition parse_sign (s : list ascii) : bool * list ascii :=
  match s with
  | c :: s' =>
      if Ascii.eqb c "-" then (true, s')
      else if Ascii.eqb c "+" then (false, s')
      else (false, s)
  | [] => (false, [])
  end.

(** The exponent part: [e] or [E], an optional sign, at least one digit,
    and nothing after it. An empty rest is exponent 0. *)
Definition parse_exponent (s : list ascii) : option Z :=
  match s with
  | [] => Some 0
  | c :: s' =>
      if Ascii.eqb (lower_char c) "e" then
        let '(neg, s'') := parse_sign s' in
        match span_digits s'' with
        | (d :: ds, []) => Some (cond_Zopp neg (digits_value (d :: ds)))
        | _ => None
        end
      else None
  end.

(** A decimal number: digits, an optional fraction, an optional exponent;
    at least one digit before the exponent. *)
Definition parse_decimal (neg : bool) (s : list ascii) : option float :=
  let '(ip, rest) := span_digits s in
  let '(fp, rest) :=
    match rest with
    | c :: rest' => if Ascii.eqb c "." then span_digits rest' else ([], rest)
    | [] => ([], [])
    end in
  match ip ++ fp with
  | [] => None
  | ds =>
      e ← parse_exponent rest;
      Some (Float.of_decimal neg (digits_value ds) (e - Z.of_nat (length fp)))
  end.

Definition parse_float (s : string) : option float :=
  let body := trim is_c_space (float_text s) in
  body ← drop_underscores "a" body;
  let '(neg, rest) := parse_sign body in
  let word := lower (string_of_list_ascii rest) in
  if String.eqb word "inf" || String.eqb word "infinity" then Some (S754_infinity neg)
  else if String.eqb word "nan" then Some Float.nan
  else parse_decimal neg rest.

(** [float(s)]: the number a string spells, or [ValueError]. *)
Definition float_of_str (s : string) : result float :=
  match parse_float s with
  | Some f => Ok f
  | None => Raise (ValueError "could not convert string to float")
  end.

End Py.

(* ================================================================== *)
(** ** The value normalizer *)
(* ================================================================== *)

(** [str(x).replace('KES', '').replace(',', '').replace(' ', '')]. *)
Definition clean_str (s : string) : string :=
  Py.remove " " (Py.remove "," (Py.remove "KES" s)).

(** [clean_currency] (the three files define the same function); a [Num]
    is what [isinstance(x, (int, float))] accepts. *)
Definition clean_currency (x : cell) : result num :=
  if pd_isna x then Ok (PyInt 0)
  else
    match x with
    | Num n => Ok n
    | Str s =>
        try_except
          (f ← Py.float_of_str (clean_str s); Ok (PyFloat f))
          (fun _ => Ok (PyInt 0))
    end.

(* ================================================================== *)
(** ** Series and their element-wise operations *)
(* ================================================================== *)

(** [.astype(int)] on a boolean. *)
Definition int_of_bool (b : bool) : Z := if b then 1 else 0.

Definition is_int (n : num) : bool :=
  match n with PyInt _ => true | PyFloat _ => false end.

Definition to_float (n : num) : float :=
  match n with PyInt z => Float.of_Z z | PyFloat f => f end.

(** The Series that [apply] builds from Python numbers: int64 when every
    value is an int, float64 (the ints converted) otherwise. *)
Definition numeric_series (l : list num) : list num :=
  if forallb is_int l then l else (fun n => PyFloat (to_float n)) <$> l.

(** [x > k] and [x % k == 0] for a Python number [x] and an int literal [k]
    (the pipeline's only [k] is 1000, so the division by zero that [Float.rem]
    reports as [None] does not arise). *)
Definition num_gt (x : num) (k : Z) : bool :=
  match x with
  | PyInt z => k <? z
  | PyFloat f => Float.ltb (Float.of_Z k) f
  end.

Definition num_mod_is_zero (x : num) (k : Z) : bool :=
  match x with
  | PyInt z => z mod k =? 0
  | PyFloat f =>
      match Float.rem f (Float.of_Z k) with
      | Some r => Float.eqb r (Float.of_Z 0)
      | None => false
      end
  end.

(** [lambda x: 1 if str(x).lower() == 'direct' else 0]. The [str] of an int
    or a float is a numeral, [inf] or [nan], never the word [direct]. *)
Definition direct_flag (x : cell) : Z :=
  match x with
  | Str s => if String.eqb (Py.lower s) "direct" then 1 else 0
  | Num _ => 0
  end.

(** [lambda x: 1 if x > 1000 and x % 1000 == 0 else 0]. *)
Definition round_flag (x : num) : Z :=
  if num_gt x 1000 && num_mod_is_zero x 1000 then 1 else 0.

(** [pd.to_datetime(series, errors='coerce')] belongs to pandas: a cell
    becomes an instant (nanoseconds since the epoch) or [NaT], here [None].
    The parser is given the whole Series, from which pandas infers the
    format. *)
Class DatetimeParser := parse_datetime : list cell -> cell -> option Z.

Definition to_datetime `{DatetimeParser} (s : list cell) : list (option Z) :=
  parse_datetime s <$> s.

(** [a < b] on two datetimes: false as soon as one is [NaT]. *)
Definition datetime_lt (a b : option Z) : bool :=
  match a, b with
  | Some x, Some y => x <? y
  | _, _ => false
  end.

(** [(start_date < date_signed).astype(int)]. *)
Definition suspicious_timing_of (start_date date_signed : list (option Z)) : list Z :=
  zip_with (fun s d => int_of_bool (datetime_lt s d)) start_date date_signed.

(* ================================================================== *)
(** ** Keys: equality and hashing of cells *)
(* ================================================================== *)

#[global] Instance spec_float_eq_dec : EqDecision spec_float.
Proof. solve_decision. Defined.

#[global] Instance num_eq_dec : EqDecision num.
Proof. solve_decision. Defined.

#[global] Instance cell_eq_dec : EqDecision cell.
Proof. solve_decision. Defined.

#[global] Instance spec_float_countable : Countable spec_float.
Proof.
  refine (inj_countable'
    (fun f => match f with
              | S754_zero s => inl (inl s)
              | S754_infinity s => inl (inr s)
              | S754_nan => inr (inl tt)
              | S754_finite s m e => inr (inr (s, m, e))
              end)
    (fun x => match x with
              | inl (inl s) => S754_zero s
              | inl (inr s) => S754_infinity s
              | inr (inl _) => S754_nan
              | inr (inr (s, m, e)) => S754_finite s m e
              end) _).
  by intros [].
Defined.

#[global] Instance num_countable : Countable num.
Proof.
  refine (inj_countable'
    (fun n => match n with PyInt z => inl z | PyFloat f => inr f end)
    (fun x => match x with inl z => PyInt z | inr f => PyFloat f end) _).
  by intros [].
Defined.

#[global] Instance cell_countable : Countable cell.
Proof.
  refine (inj_countable'
    (fun c => match c with Num n => inl n | Str s => inr s end)
    (fun x => match x with inl n => Num n | inr s => Str s end) _).
  by intros [].
Defined.

(* ================================================================== *)
(** ** Columns and their dtypes *)
(* ================================================================== *)

(** The columns that [read_csv] makes of the files: a column of integers
    (int64), a column of floats (float64, an empty field being [NaN]; a
    column of numbers with an empty field is one) and a column of Python
    objects (object: strings, an empty field being [NaN]). The columns of a
    frame without rows are object columns. *)
Inductive dtype : Type := Int64 | Float64 | Object.

#[global] Instance dtype_eq_dec : EqDecision dtype.
Proof. solve_decision. Defined.

Definition is_str (x : cell) : bool :=
  match x with Str _ => true | Num _ => false end.

Definition is_int_cell (x : cell) : bool :=
  match x with Num (PyInt _) => true | _ => false end.

Definition dtype_of (col : list cell) : dtype :=
  if existsb is_str col then Object
  else
    match col with
    | [] => Object
    | _ => if forallb is_int_cell col then Int64 else Float64
    end.

(** The cell [x] as a column of dtype [d] holds it: the integers of a
    float64 column are floats. *)
Definition as_dtype (d : dtype) (x : cell) : cell :=
  match d, x with
  | Float64, Num n => Num (PyFloat (to_float n))
  | _, _ => x
  end.

(** What the hash tables of pandas make of a key that is compared in dtype
    [d], in [drop_duplicates] and in [merge]: two keys are one when these
    are equal. Floats are compared by value, so that the two zeros are one
    key; [NaN] is a key like another; the integers of an int64 column and
    strings are compared as they are. *)
Definition float_key (f : float) : float :=
  match f with
  | S754_zero _ => S754_zero false
  | _ => f
  end.

(** The integer that a float is, when it is one. *)
Definition int_of_float (f : float) : option Z :=
  match f with
  | S754_zero _ => Some 0
  | S754_finite s m e =>
      let v := if s then Z.neg m else Z.pos m in
      if 0 <=? e then Some (v * 2 ^ e)
      else if v mod 2 ^ (- e) =? 0 then Some (v / 2 ^ (- e)) else None
  | _ => None
  end.

(** The numbers of an object column are Python objects, equal as Python
    has it ([1 == 1.0]): an integer that a float holds exactly has the key
    of that float. *)
Definition py_key (n : num) : num :=
  match n with
  | PyInt z =>
      if bool_decide (int_of_float (Float.of_Z z) = Some z)
      then PyFloat (float_key (Float.of_Z z))
      else PyInt z
  | PyFloat f => PyFloat (float_key f)
  end.

Definition key_of (d : dtype) (x : cell) : cell :=
  match d, x with
  | Float64, Num n => Num (PyFloat (float_key (to_float n)))
  | Object, Num n => Num (py_key n)
  | _, _ => x
  end.

(** The dtype in which [merge] compares the keys of two columns
    ([find_common_type]): the integers of an int64 column that meets a
    float64 column are converted to floats first. *)
Definition common_dtype (dl dr : dtype) : dtype :=
  match dl, dr with
  | Int64, Int64 => Int64
  | Object, _ | _, Object => Object
  | _, _ => Float64
  end.

(** An object column that pandas takes for a column of strings
    ([infer_dtype] says [string] or [mixed]): it holds a string and no
    integer. *)
Definition string_like (col : list cell) : bool :=
  existsb is_str col && negb (existsb is_int_cell col).

(** Whether an object key column is refused as the partner of a numeric
    one: it is when it is string-like; without rows, it is taken for a
    column of integers. *)
Definition keys_refused (object_keys : list cell) (numeric : dtype) : bool :=
  match object_keys with
  | [] => bool_decide (numeric = Float64)
  | _ => string_like object_keys
  end.

(** Whether [merge] accepts the key columns [lk] and [rk], of dtypes [dl]
    and [dr] ([_maybe_coerce_merge_keys] of pandas 2): when just one of
    them is empty it does; otherwise a column of strings and a column of
    numbers are refused with [ValueError]. *)
Definition merge_keys_ok (lk : list cell) (dl : dtype) (rk : list cell) (dr : dtype) : bool :=
  match lk, rk with
  | [], _ :: _ | _ :: _, [] => true
  | _, _ =>
      match dl, dr with
      | Object, Object => true
      | Object, _ => negb (keys_refused lk dr)
      | _, Object => negb (keys_refused rk dl)
      | _, _ => true
      end
  end.

(** A column of integers becomes a column of floats when a left join leaves
    a row without a match (the missing cells are [NaN]). *)
Definition promote_cell (col : list cell) (x : cell) : cell :=
  match dtype_of col, x with
  | Int64, Num n => Num (PyFloat (to_float n))
  | _, _ => x
  end.

(* ================================================================== *)
(** ** The source loader and the linkage engine *)
(* ================================================================== *)

(** [df.drop_duplicates(subset=[key], keep='first')]: a row is dropped when
    its key was seen in an earlier row. *)
Fixpoint drop_duplicates_from {A} (key : A -> cell) (seen : gset cell) (df : list A) : list A :=
  match df with
  | [] => []
  | r :: df' =>
      if decide (key r ∈ seen)
      then drop_duplicates_from key seen df'
      else r :: drop_duplicates_from key ({[key r]} ∪ seen) df'
  end.

Definition drop_duplicates {A} (key : A -> cell) (df : list A) : list A :=
  drop_duplicates_from key ∅ df.

(** [df.drop_duplicates(subset=[key], keep='first')] on a frame as read:
    the keys are compared as the dtype of their column has it. *)
Definition pd_drop_duplicates {A} (key : A -> cell) (df : list A) : list A :=
  drop_duplicates (fun r => key_of (dtype_of (key <$> df)) (key r)) df.

(** The joins, on keys that are already in the form in which they are
    compared. The right rows whose key equals the key of the left row [l]: *)
Definition matches {L R} (left_on : L -> cell) (right_on : R -> cell)
    (l : L) (right : list R) : list R :=
  filter (fun r => right_on r = left_on l) right.

(** the inner join: one output row per matching pair, in the order of the
    left rows; *)
Definition merge_inner {L R O} (left_on : L -> cell) (right_on : R -> cell)
    (join : L -> R -> O) (left : list L) (right : list R) : list O :=
  left ≫= (fun l => join l <$> matches left_on right_on l right).

(** the left join: as above, and a left row without a match is kept once,
    [join l None] filling the right columns with [NaN]. *)
Definition merge_left {L R O} (left_on : L -> cell) (right_on : R -> cell)
    (join : L -> option R -> O) (left : list L) (right : list R) : list O :=
  left ≫= (fun l =>
    match matches left_on right_on l right with
    | [] => [join l None]
    | rs => (fun r => join l (Some r)) <$> rs
    end).

Definition merge_refused : exn :=
  ValueError "You are trying to merge on columns of different kinds".

(** [pd.merge(left, right, left_on=.., right_on=.., how='inner')], the key
    columns being of dtype [dl] and [dr]. *)
Definition inner_join {L R O} (d : dtype) (left_on : L -> cell) (right_on : R -> cell)
    (join : L -> R -> O) (left : list L) (right : list R) : list O :=
  merge_inner (fun l => key_of d (left_on l)) (fun r => key_of d (right_on r)) join left right.

Definition pd_merge_inner {L R O} (dl dr : dtype) (left_on : L -> cell) (right_on : R -> cell)
    (join : L -> R -> O) (left : list L) (right : list R) : result (list O) :=
  if merge_keys_ok (left_on <$> left) dl (right_on <$> right) dr
  then Ok (inner_join (common_dtype dl dr) left_on right_on join left right)
  else Raise merge_refused.

(** [pd.merge(left, right, on=.., how='left')]. When some left row finds no
    match, the columns of the right frame are promoted ([promote]) before
    their cells are copied. *)
Definition left_join {L R O} (d : dtype) (left_on : L -> cell) (right_on : R -> cell)
    (join : L -> option R -> O) (promote : R -> R) (left : list L) (right : list R) : list O :=
  let lk := fun l => key_of d (left_on l) in
  let rk := fun r => key_of d (right_on r) in
  let every_row_matched :=
    forallb (fun l => negb (bool_decide (matches lk rk l right = []))) left in
  merge_left lk rk join left (if every_row_matched then right else promote <$> right).

Definition pd_merge_left {L R O} (dl dr : dtype) (left_on : L -> cell) (right_on : R -> cell)
    (join : L -> option R -> O) (promote : R -> R) (left : list L) (right : list R)
    : result (list O) :=
  if merge_keys_ok (left_on <$> left) dl (right_on <$> right) dr
  then Ok (left_join (common_dtype dl dr) left_on right_on join promote left right)
  else Raise merge_refused.

(** [series.value_counts()]: how often each non-null value occurs. *)
Definition value_counts (s : list cell) : gmap cell Z :=
  foldr (fun x counts =>
           if pd_isna x then counts
           else <[x := default 0 (counts !! x) + 1]> counts) ∅ s.

(** [series.map(counts).fillna(1).astype(int)]. *)
Definition map_counts (counts : gmap cell Z) (s : list cell) : list Z :=
  (fun x => default 1 (counts !! x)) <$> s.

(** The accessor [series.str]: pandas grants it to a Series of strings
    (object dtype: some cell is a string, or there is no cell at all) and
    raises [AttributeError] on a numeric one. A cell that is no string is
    mapped to [NaN]. *)
Definition str_method (f : string -> string) (s : list cell) : result (list cell) :=
  if bool_decide (s = []) || existsb is_str s
  then Ok ((fun x => match x with Str t => Str (f t) | Num _ => NaN end) <$> s)
  else Raise (AttributeError "Can only use .str accessor with string values!").

(** *** Files *)

(** A CSV file as pandas parses it: the header line and the records. *)
Record csv_file : Type := { header : list string; lines : list (list cell) }.

Abbreviation filesystem := (gmap string csv_file).

(** The cell of a record under the column named [c]. *)
Definition field (f : csv_file) (line : list cell) (c : string) : cell :=
  match list_find (fun h => h = c) (header f) with
  | Some (j, _) => default NaN (line !! j)
  | None => NaN
  end.

(** The column named [c]. *)
Definition file_column (f : csv_file) (c : string) : list cell :=
  (fun line => field f line c) <$> lines f.

(** [pd.read_csv(path, usecols=usecols)], the rows built by [row] from the
    columns it asks for, each cell as the dtype of its column has it. *)
Definition read_csv {A} (fs : filesystem) (path : string) (usecols : list string)
    (row : (string -> cell) -> A) : result (list A) :=
  match fs !! path with
  | None => Raise (FileNotFoundError path)
  | Some f =>
      if forallb (fun c => bool_decide (c ∈ header f)) usecols
      then Ok ((fun line =>
                  row (fun c => as_dtype (dtype_of (file_column f c)) (field f line c)))
                 <$> lines f)
      else Raise (ValueError "Usecols do not match columns")
  end.

(** [df.to_csv(path, index=False)] of a frame given by its named columns:
    the header, then one record per index. *)
Definition DataFrame : Type := list (string * list cell).

Definition nrows (df : DataFrame) : nat :=
  match df with
  | [] => 0%nat
  | (_, col) :: _ => length col
  end.

Definition to_csv (df : DataFrame) : csv_file :=
  {| header := fst <$> df;
     lines := (fun i => (fun col => default NaN (snd col !! i)) <$> df) <$> seq 0 (nrows df) |}.

Definition int_cells (s : list Z) : list cell := (fun z => Num (PyInt z)) <$> s.

Definition DATA_DIR : string := "data/raw".
Definition MAIN_FILE : string := DATA_DIR ++ "/main.csv".
Definition AWARDS_FILE : string := DATA_DIR ++ "/awards.csv".
Definition CONTRACTS_FILE : string := DATA_DIR ++ "/contracts.csv".
Definition SUPPLIERS_FILE : string := DATA_DIR ++ "/awards_suppliers.csv".

(** *** The raw tables *)

Module Main.
Record row : Type := { _link : cell; tender_procurementMethod : cell }.
Definition usecols : list string := ["_link"; "tender_procurementMethod"].
Definition of_csv (get : string -> cell) : row :=
  {| _link := get "_link"; tender_procurementMethod := get "tender_procurementMethod" |}.
End Main.

Module Awards.
Record row : Type := { _link_main : cell; value_amount : cell }.
Definition usecols : list string := ["_link_main"; "value_amount"].
Definition of_csv (get : string -> cell) : row :=
  {| _link_main := get "_link_main"; value_amount := get "value_amount" |}.
End Awards.

Module Contracts.
Record row : Type :=
  { _link_main : cell; dateSigned : cell; period_startDate : cell }.
Definition usecols : list string := ["_link_main"; "dateSigned"; "period_startDate"].
Definition of_csv (get : string -> cell) : row :=
  {| _link_main := get "_link_main"; dateSigned := get "dateSigned";
     period_startDate := get "period_startDate" |}.
(** A row of the frame [df] once its date columns are promoted. *)
Definition promote (df : list row) (r : row) : row :=
  {| _link_main := _link_main r;
     dateSigned := promote_cell (dateSigned <$> df) (dateSigned r);
     period_startDate := promote_cell (period_startDate <$> df) (period_startDate r) |}.
End Contracts.

(** *** The linked tables *)

(** Main joined with awards. *)
Module Linked.
Record row : Type :=
  { _link : cell; tender_procurementMethod : cell;
    _link_main : cell; value_amount : cell }.
Definition join (m : Main.row) (a : Awards.row) : row :=
  {| _link := Main._link m;
     tender_procurementMethod := Main.tender_procurementMethod m;
     _link_main := Awards._link_main a;
     value_amount := Awards.value_amount a |}.
(** The cells of a row, column by column. *)
Definition cells (r : row) : list cell :=
  [_link r; tender_procurementMethod r; _link_main r; value_amount r].
End Linked.

(** ... then with the contract dates. *)
Module Timed.
Record row : Type :=
  { linked : Linked.row; dateSigned : cell; period_startDate : cell }.
Definition _link_main (r : row) : cell := Linked._link_main (linked r).
Definition join (l : Linked.row) (c : option Contracts.row) : row :=
  {| linked := l;
     dateSigned := from_option Contracts.dateSigned NaN c;
     period_startDate := from_option Contracts.period_startDate NaN c |}.
End Timed.

(* ================================================================== *)
(** ** The risk scorer *)
(* ================================================================== *)

(** Arithmetic of pandas on int64 and float64 Series: an int operand of a
    float operation is converted to float first. *)
Definition int_times_float (s : list Z) (w : float) : list float :=
  (fun z => Float.mul (Float.of_Z z) w) <$> s.

Definition int_plus_float (a : list Z) (b : list float) : list float :=
  zip_with (fun x y => Float.add (Float.of_Z x) y) a b.

Definition float_plus_int (a : list float) (b : list Z) : list float :=
  zip_with (fun x y => Float.add x (Float.of_Z y)) a b.

Definition float_plus_float (a b : list float) : list float :=
  zip_with Float.add a b.

(** [(series >= threshold).astype(int)]. *)
Definition at_least (s : list float) (threshold : float) : list Z :=
  (fun x => int_of_bool (Float.leb threshold x)) <$> s.

(** The float literals of the scorers. *)
Definition f1_0 : float := Float.of_Z 1.
Definition f1_5 : float := Float.of_bin 3 (-1).
Definition f2_0 : float := Float.of_Z 2.
Definition f2_5 : float := Float.of_bin 5 (-1).

(** [build_features.py], lines 104-106. *)
Definition risk_score_v1 (is_direct_procurement is_round_amount missing_data_count : list Z)
    : list float :=
  float_plus_int
    (int_plus_float
       ((fun d => d * 2) <$> is_direct_procurement)
       (int_times_float is_round_amount f1_5))
    ((fun c => int_of_bool (1 <=? c)) <$> missing_data_count).

(** [build_features_v2.py], lines 115-118, and the same lines of
    [build_features_v3.py]. *)
Definition risk_score_v2
    (is_direct_procurement is_round_amount suspicious_timing new_supplier_direct_deal : list Z)
    : list float :=
  float_plus_float
    (float_plus_float
       (float_plus_float
          (int_times_float is_direct_procurement f1_5)
          (int_times_float is_round_amount f1_0))
       (int_times_float suspicious_timing f2_0))
    (int_times_float new_supplier_direct_deal f2_5).

(** [((supplier_award_count <= 3) & (is_direct_procurement == 1)).astype(int)]. *)
Definition new_supplier_direct_deal_of (supplier_award_count is_direct_procurement : list Z)
    : list Z :=
  zip_with (fun c d => int_of_bool ((c <=? 3) && (d =? 1)))
    supplier_award_count is_direct_procurement.

(* ================================================================== *)
(** ** Version 1: [build_features.py] *)
(* ================================================================== *)

Module V1.

Definition PROCESSED_DATA_PATH : string := "data/processed/training_data.csv".

Definition load_and_merge (fs : filesystem) : option (list Linked.row) :=
  let body :=
    main_df ← read_csv fs MAIN_FILE Main.usecols Main.of_csv;
    awards_df ← read_csv fs AWARDS_FILE Awards.usecols Awards.of_csv;
    let award_keys := dtype_of (Awards._link_main <$> awards_df) in
    let awards_df := pd_drop_duplicates Awards._link_main awards_df in
    merged_df ← pd_merge_inner (dtype_of (Main._link <$> main_df)) award_keys
                  Main._link Awards._link_main Linked.join main_df awards_df;
    Ok merged_df in
  match body with
  | Ok merged_df => Some merged_df
  | Raise (FileNotFoundError _) => None
  | Raise _ => None
  end.

Record model_df : Type :=
  { amount : list num;
    is_direct_procurement : list Z;
    is_round_amount : list Z;
    missing_data_count : list Z;
    risk_label : list Z }.

(** [df.isnull().sum(axis=1)] for one row of the merged frame. *)
Definition isnull_sum (r : Linked.row) : Z :=
  Z.of_nat (length (List.filter pd_isna (Linked.cells r))).

Definition risk_score (m : model_df) : list float :=
  risk_score_v1 (is_direct_procurement m) (is_round_amount m) (missing_data_count m).

Definition engineer_features (df : list Linked.row) : result model_df :=
  amount ← mapM clean_currency (Linked.value_amount <$> df);
  let amount := numeric_series amount in
  let is_direct_procurement := direct_flag <$> (Linked.tender_procurementMethod <$> df) in
  let is_round_amount := round_flag <$> amount in
  let missing_data_count := isnull_sum <$> df in
  let risk_score := risk_score_v1 is_direct_procurement is_round_amount missing_data_count in
  let risk_label := at_least risk_score f1_5 in
  Ok {| amount := amount;
        is_direct_procurement := is_direct_procurement;
        is_round_amount := is_round_amount;
        missing_data_count := missing_data_count;
        risk_label := risk_label |}.

Definition final_features : list string :=
  ["amount"; "is_direct_procurement"; "is_round_amount"; "missing_data_count"; "risk_label"].

(** [model_df[final_features]], as named columns. *)
Definition frame (m : model_df) : DataFrame :=
  zip final_features
    [Num <$> amount m; int_cells (is_direct_procurement m); int_cells (is_round_amount m);
     int_cells (missing_data_count m); int_cells (risk_label m)].

(** [main]: the files after the run, or the exception that ended it. *)
Definition main (fs : filesystem) : result filesystem :=
  match load_and_merge fs with
  | Some merged_df =>
      model_df ← engineer_features merged_df;
      Ok (<[PROCESSED_DATA_PATH := to_csv (frame model_df)]> fs)
  | None => Ok fs
  end.

End V1.

(* ================================================================== *)
(** ** Version 2: [build_features_v2.py] *)
(* ================================================================== *)

Module V2.

Definition PROCESSED_DATA_PATH : string := "data/processed/training_data_v2.csv".

Module Suppliers.
Record row : Type := { _link_main : cell; name : cell }.
Definition usecols : list string := ["_link_main"; "name"].
Definition of_csv (get : string -> cell) : row :=
  {| _link_main := get "_link_main"; name := get "name" |}.
(** [suppliers_df['name'] = names]. *)
Definition set_name (r : row) (n : cell) : row :=
  {| _link_main := _link_main r; name := n |}.
End Suppliers.

(** The merged frame. *)
Module Merged.
Record row : Type := { timed : Timed.row; name : cell }.

Definition join (t : Timed.row) (s : option Suppliers.row) : row :=
  {| timed := t; name := from_option Suppliers.name NaN s |}.

Definition _link (r : row) : cell := Linked._link (Timed.linked (timed r)).
Definition _link_main (r : row) : cell := Timed._link_main (timed r).
Definition tender_procurementMethod (r : row) : cell :=
  Linked.tender_procurementMethod (Timed.linked (timed r)).
Definition value_amount (r : row) : cell := Linked.value_amount (Timed.linked (timed r)).
Definition dateSigned (r : row) : cell := Timed.dateSigned (timed r).
Definition period_startDate (r : row) : cell := Timed.period_startDate (timed r).
End Merged.

Definition load_and_merge_v2 (fs : filesystem) : option (list Merged.row) :=
  let body :=
    main_df ← read_csv fs MAIN_FILE Main.usecols Main.of_csv;
    awards_df ← read_csv fs AWARDS_FILE Awards.usecols Awards.of_csv;
    let award_keys := dtype_of (Awards._link_main <$> awards_df) in
    let awards_df := pd_drop_duplicates Awards._link_main awards_df in
    contracts_df ← read_csv fs CONTRACTS_FILE Contracts.usecols Contracts.of_csv;
    let contract_keys := dtype_of (Contracts._link_main <$> contracts_df) in
    let promote_contracts := Contracts.promote contracts_df in
    let contracts_df := pd_drop_duplicates Contracts._link_main contracts_df in
    suppliers_df ← read_csv fs SUPPLIERS_FILE Suppliers.usecols Suppliers.of_csv;
    let supplier_keys := dtype_of (Suppliers._link_main <$> suppliers_df) in
    stripped ← str_method Py.strip (Suppliers.name <$> suppliers_df);
    names ← str_method Py.upper stripped;
    let suppliers_df := zip_with Suppliers.set_name suppliers_df names in
    let suppliers_df := pd_drop_duplicates Suppliers._link_main suppliers_df in
    merged_df ← pd_merge_inner (dtype_of (Main._link <$> main_df)) award_keys
                  Main._link Awards._link_main Linked.join main_df awards_df;
    merged_df ← pd_merge_left award_keys contract_keys
                  Linked._link_main Contracts._link_main Timed.join
                  promote_contracts merged_df contracts_df;
    (* the names are strings: an object column, which a join leaves as it is *)
    merged_df ← pd_merge_left award_keys supplier_keys
                  Timed._link_main Suppliers._link_main Merged.join id
                  merged_df suppliers_df;
    Ok merged_df in
  match body with
  | Ok merged_df => Some merged_df
  | Raise _ => None
  end.

Record model_df : Type :=
  { amount : list num;
    is_direct_procurement : list Z;
    is_round_amount : list Z;
    suspicious_timing : list Z;
    supplier_award_count : list Z;
    new_supplier_direct_deal : list Z;
    risk_label : list Z }.

Definition risk_score (m : model_df) : list float :=
  risk_score_v2 (is_direct_procurement m) (is_round_amount m)
    (suspicious_timing m) (new_supplier_direct_deal m).

Definition engineer_features_v2 `{DatetimeParser} (df : list Merged.row) : result model_df :=
  amount ← mapM clean_currency (Merged.value_amount <$> df);
  let amount := numeric_series amount in
  let is_direct_procurement := direct_flag <$> (Merged.tender_procurementMethod <$> df) in
  let is_round_amount := round_flag <$> amount in
  let date_signed := to_datetime (Merged.dateSigned <$> df) in
  let start_date := to_datetime (Merged.period_startDate <$> df) in
  let suspicious_timing := suspicious_timing_of start_date date_signed in
  let supplier_counts := value_counts (Merged.name <$> df) in
  let supplier_award_count := map_counts supplier_counts (Merged.name <$> df) in
  let new_supplier_direct_deal :=
    new_supplier_direct_deal_of supplier_award_count is_direct_procurement in
  let risk_score :=
    risk_score_v2 is_direct_procurement is_round_amount suspicious_timing
      new_supplier_direct_deal in
  let risk_label := at_least risk_score f2_0 in
  Ok {| amount := amount;
        is_direct_procurement := is_direct_procurement;
        is_round_amount := is_round_amount;
        suspicious_timing := suspicious_timing;
        supplier_award_count := supplier_award_count;
        new_supplier_direct_deal := new_supplier_direct_deal;
        risk_label := risk_label |}.

Definition final_features : list string :=
  ["amount"; "is_direct_procurement"; "is_round_amount"; "suspicious_timing";
   "supplier_award_count"; "new_supplier_direct_deal"; "risk_label"].

Definition frame (m : model_df) : DataFrame :=
  zip final_features
    [Num <$> amount m; int_cells (is_direct_procurement m); int_cells (is_round_amount m);
     int_cells (suspicious_timing m); int_cells (supplier_award_count m);
     int_cells (new_supplier_direct_deal m); int_cells (risk_label m)].

Definition main `{DatetimeParser} (fs : filesystem) : result filesystem :=
  match load_and_merge_v2 fs with
  | Some merged_df =>
      model_df ← engineer_features_v2 merged_df;
      Ok (<[PROCESSED_DATA_PATH := to_csv (frame model_df)]> fs)
  | None => Ok fs
  end.

End V2.

(* ================================================================== *)
(** ** Version 3: [build_features_v3.py] *)
(* ================================================================== *)

Module V3.

Definition PROCESSED_DATA_PATH : string := "data/processed/training_data_v3.csv".

Module Suppliers.
(** The column [id] of the file, renamed [supplier_id] on loading. *)
Record row : Type := { _link_main : cell; supplier_id : cell; name : cell }.
Definition usecols : list string := ["_link_main"; "id"; "name"].
Definition of_csv (get : string -> cell) : row :=
  {| _link_main := get "_link_main"; supplier_id := get "id"; name := get "name" |}.
(** A row of the frame [df] once its columns are promoted. *)
Definition promote (df : list row) (r : row) : row :=
  {| _link_main := _link_main r;
     supplier_id := promote_cell (supplier_id <$> df) (supplier_id r);
     name := promote_cell (name <$> df) (name r) |}.
End Suppliers.

(** The merged frame. *)
Module Merged.
Record row : Type := { timed : Timed.row; supplier_id : cell; name : cell }.

Definition join (t : Timed.row) (s : option Suppliers.row) : row :=
  {| timed := t;
   supplier_id := from_option Suppliers.supplier_id NaN s;
   name := from_option Suppliers.name NaN s |}.

Definition _link (r : row) : cell := Linked._link (Timed.linked (timed r)).
Definition _link_main (r : row) : cell := Timed._link_main (timed r).
Definition tender_procurementMethod (r : row) : cell :=
  Linked.tender_procurementMethod (Timed.linked (timed r)).
Definition value_amount (r : row) : cell := Linked.value_amount (Timed.linked (timed r)).
Definition dateSigned (r : row) : cell := Timed.dateSigned (timed r).
Definition period_startDate (r : row) : cell := Timed.period_startDate (timed r).
End Merged.

Definition load_and_merge_v3 (fs : filesystem) : option (list Merged.row) :=
  let body :=
    main_df ← read_csv fs MAIN_FILE Main.usecols Main.of_csv;
    awards_df ← read_csv fs AWARDS_FILE Awards.usecols Awards.of_csv;
    let award_keys := dtype_of (Awards._link_main <$> awards_df) in
    let awards_df := pd_drop_duplicates Awards._link_main awards_df in
    contracts_df ← read_csv fs CONTRACTS_FILE Contracts.usecols Contracts.of_csv;
    let contract_keys := dtype_of (Contracts._link_main <$> contracts_df) in
    let promote_contracts := Contracts.promote contracts_df in
    let contracts_df := pd_drop_duplicates Contracts._link_main contracts_df in
    suppliers_df ← read_csv fs SUPPLIERS_FILE Suppliers.usecols Suppliers.of_csv;
    let supplier_keys := dtype_of (Suppliers._link_main <$> suppliers_df) in
    let promote_suppliers := Suppliers.promote suppliers_df in
    let suppliers_df := pd_drop_duplicates Suppliers._link_main suppliers_df in
    merged_df ← pd_merge_inner (dtype_of (Main._link <$> main_df)) award_keys
                  Main._link Awards._link_main Linked.join main_df awards_df;
    merged_df ← pd_merge_left award_keys contract_keys
                  Linked._link_main Contracts._link_main Timed.join
                  promote_contracts merged_df contracts_df;
    merged_df ← pd_merge_left award_keys supplier_keys
                  Timed._link_main Suppliers._link_main Merged.join
                  promote_suppliers merged_df suppliers_df;
    Ok merged_df in
  match body with
  | Ok merged_df => Some merged_df
  | Raise _ => None
  end.

Record model_df : Type :=
  { amount : list num;
    is_direct_procurement : list Z;
    is_round_amount : list Z;
    suspicious_timing : list Z;
    supplier_award_count : list Z;
    new_supplier_direct_deal : list Z;
    risk_label : list Z;
    supplier_id : list cell;
    supplier_name : list cell }.

Definition risk_score (m : model_df) : list float :=
  risk_score_v2 (is_direct_procurement m) (is_round_amount m)
    (suspicious_timing m) (new_supplier_direct_deal m).

Definition engineer_features_v3 `{DatetimeParser} (df : list Merged.row) : result model_df :=
  amount ← mapM clean_currency (Merged.value_amount <$> df);
  let amount := numeric_series amount in
  let is_direct_procurement := direct_flag <$> (Merged.tender_procurementMethod <$> df) in
  let is_round_amount := round_flag <$> amount in
  let date_signed := to_datetime (Merged.dateSigned <$> df) in
  let start_date := to_datetime (Merged.period_startDate <$> df) in
  let suspicious_timing := suspicious_timing_of start_date date_signed in
  let supplier_counts := value_counts (Merged.supplier_id <$> df) in
  let supplier_award_count := map_counts supplier_counts (Merged.supplier_id <$> df) in
  let new_supplier_direct_deal :=
    new_supplier_direct_deal_of supplier_award_count is_direct_procurement in
  let risk_score :=
    risk_score_v2 is_direct_procurement is_round_amount suspicious_timing
      new_supplier_direct_deal in
  let risk_label := at_least risk_score f2_0 in
  Ok {| amount := amount;
        is_direct_procurement := is_direct_procurement;
        is_round_amount := is_round_amount;
        suspicious_timing := suspicious_timing;
        supplier_award_count := supplier_award_count;
        new_supplier_direct_deal := new_supplier_direct_deal;
        risk_label := risk_label;
        supplier_id := Merged.supplier_id <$> df;
        supplier_name := Merged.name <$> df |}.

Definition final_features : list string :=
  ["amount"; "is_direct_procurement"; "is_round_amount"; "suspicious_timing";
   "supplier_award_count"; "new_supplier_direct_deal"; "risk_label"].

(** [model_df[final_features]], then the two columns added for the
    dashboard. *)
Definition frame (m : model_df) : DataFrame :=
  zip final_features
    [Num <$> amount m; int_cells (is_direct_procurement m); int_cells (is_round_amount m);
     int_cells (suspicious_timing m); int_cells (supplier_award_count m);
     int_cells (new_supplier_direct_deal m); int_cells (risk_label m)]
  ++ [("supplier_id", supplier_id m); ("supplier_name", supplier_name m)].

Definition main `{DatetimeParser} (fs : filesystem) : result filesystem :=
  match load_and_merge_v3 fs with
  | Some merged_df =>
      model_df ← engineer_features_v3 merged_df;
      Ok (<[PROCESSED_DATA_PATH := to_csv (frame model_df)]> fs)
  | None => Ok fs
  end.

End V3.


(* ================================================================== *)
(** ** A date parser and a small data set, for the examples *)
(* ================================================================== *)

Module Iso.

(** Days from 1970-01-01 to the day [d] of month [m] of year [y] in the
    proleptic Gregorian calendar. *)
Definition days_from_civil (y m d : Z) : Z :=
  let y' := if m <=? 2 then y - 1 else y in
  let era := y' / 400 in
  let yoe := y' - era * 400 in
  let doy := (153 * ((m + 9) mod 12) + 2) / 5 + d - 1 in
  era * 146097 + (yoe * 365 + yoe / 4 - yoe / 100 + doy) - 719468.

Definition is_leap (y : Z) : bool :=
  (y mod 4 =? 0) && (negb (y mod 100 =? 0) || (y mod 400 =? 0)).

Definition days_in_month (y m : Z) : Z :=
  if m =? 2 then (if is_leap y then 29 else 28)
  else if (m =? 4) || (m =? 6) || (m =? 9) || (m =? 11) then 30
  else 31.

(** A calendar date [YYYY-MM-DD], as nanoseconds since the epoch. *)
Definition parse_date (s : string) : option Z :=
  match list_ascii_of_string s with
  | [y1; y2; y3; y4; h1; m1; m2; h2; d1; d2] =>
      let y := Py.digits_value [y1; y2; y3; y4] in
      let m := Py.digits_value [m1; m2] in
      let d := Py.digits_value [d1; d2] in
      if forallb Py.is_digit [y1; y2; y3; y4; m1; m2; d1; d2]
         && Ascii.eqb h1 "-" && Ascii.eqb h2 "-"
         && (1 <=? m) && (m <=? 12) && (1 <=? d) && (d <=? days_in_month y m)
      then Some (days_from_civil y m d * 86400000000000)
      else None
  | _ => None
  end.

End Iso.

(** A parser that reads calendar dates [YYYY-MM-DD] and nothing else. *)
Definition iso_dates : DatetimeParser :=
  fun _ x => match x with Str s => Iso.parse_date s | Num _ => None end.

Module Sample.

Definition main_csv : csv_file :=
  {| header := ["_link"; "ocid"; "tender_procurementMethod"];
     lines := [ [Str "c1"; Str "ocds-1"; Str "Direct"];
                [Str "c2"; Str "ocds-2"; Str "open"];
                [Str "c3"; Str "ocds-3"; Str "direct"];
                [Str "c4"; Str "ocds-4"; Str "Open"] ] |}.

Definition awards_csv : csv_file :=
  {| header := ["_link_main"; "value_amount"];
     lines := [ [Str "c1"; Str "KES 1,000,000"];
                [Str "c1"; Str "7"];
                [Str "c2"; Str "2,500"];
                [Str "c3"; NaN] ] |}.

Definition contracts_csv : csv_file :=
  {| header := ["_link_main"; "dateSigned"; "period_startDate"];
     lines := [ [Str "c1"; Str "2024-03-01"; Str "2024-02-01"];
                [Str "c2"; Str "2024-03-01"; Str "soon"] ] |}.

Definition suppliers_csv : csv_file :=
  {| header := ["_link_main"; "id"; "name"];
     lines := [ [Str "c1"; Str "S1"; Str " Acme Ltd"];
                [Str "c2"; Str "S1"; Str "ACME LTD "];
                [Str "c3"; Str "S2"; NaN] ] |}.

Definition fs : filesystem :=
  <[MAIN_FILE := main_csv]> (<[AWARDS_FILE := awards_csv]>
  (<[CONTRACTS_FILE := contracts_csv]> (<[SUPPLIERS_FILE := suppliers_csv]> ∅))).

(** The same files without the awards. *)
Definition fs_without_awards : filesystem := delete AWARDS_FILE fs.

(** The same files, the tenders numbered: their keys are integers, those of
    the awards strings. *)
Definition numbered_main_csv : csv_file :=
  {| header := ["_link"; "tender_procurementMethod"];
     lines := [ [Num (PyInt 1); Str "Direct"]; [Num (PyInt 2); Str "open"] ] |}.

Definition fs_numbered : filesystem := <[MAIN_FILE := numbered_main_csv]> fs.

End Sample.

(** Link keys beyond 2^53: the awards and the suppliers carry them as
    floats, the contracts as integers, two of which are one float. *)
Module Rounded.

Definition main_csv : csv_file :=
  {| header := ["_link"; "tender_procurementMethod"];
     lines := [ [Num (PyInt 9007199254740992); Str "Direct"] ] |}.

Definition awards_csv : csv_file :=
  {| header := ["_link_main"; "value_amount"];
     lines := [ [Num (PyFloat (Float.of_Z 9007199254740992)); Num (PyInt 5000)] ] |}.

Definition contracts_csv : csv_file :=
  {| header := ["_link_main"; "dateSigned"; "period_startDate"];
     lines := [ [Num (PyInt 9007199254740992); Str "2024-03-01"; Str "2024-02-01"];
                [Num (PyInt 9007199254740993); Str "2024-05-01"; Str "2024-06-01"] ] |}.

Definition suppliers_csv : csv_file :=
  {| header := ["_link_main"; "id"; "name"];
     lines := [ [Num (PyFloat (Float.of_Z 9007199254740992)); Str "S1"; Str "Acme Ltd"] ] |}.

Definition fs : filesystem :=
  <[MAIN_FILE := main_csv]> (<[AWARDS_FILE := awards_csv]>
  (<[CONTRACTS_FILE := contracts_csv]> (<[SUPPLIERS_FILE := suppliers_csv]> ∅))).

End Rounded.

(** [v < 0] for a Python number. *)
Definition num_negative (v : num) : bool :=
  match v with
  | PyInt z => z <? 0
  | PyFloat f => Float.ltb f (Float.of_Z 0)
  end.

(** A float of sign [s] (the sign bit set is [true]), or [NaN]. *)
Definition has_sign (s : bool) (f : float) : Prop :=
  match f with
  | S754_zero s' | S754_infinity s' | S754_finite s' _ _ => s' = s
  | S754_nan => True
  end.

(** The characters that [float] accepts somewhere in a numeral: digits,
    signs, the point, the underscore, the letters of an exponent and of
    [inf], [infinity] and [nan], and white space. *)
Definition float_char (c : ascii) : bool :=
  Py.is_digit c || Py.is_c_space c
  || existsb (Ascii.eqb c) (list_ascii_of_string "+-._eEiInNfFtTyYaA").

(** [v >= 0] for a Python number. *)
Definition num_nonneg (v : num) : bool :=
  match v with
  | PyInt z => 0 <=? z
  | PyFloat f => Float.leb (Float.of_Z 0) f
  end.

(** The first row of [df] that carries the key [k]. *)
Definition first_by {A} (key : A -> cell) (k : cell) (df : list A) : option A :=
  head (filter (fun r => key r = k) df).

(** [read_csv] finds the file and every column it is asked for. *)
Definition loadable (fs : filesystem) (path : string) (usecols : list string) : Prop :=
  exists f, fs !! path = Some f /\ forall c, c ∈ usecols -> c ∈ header f.

(** *** The frames that the loaders build *)

(** Two keys are one key for a join that compares them in dtype [d]. *)
Definition same_key (d : dtype) (x y : cell) : Prop := key_of d x = key_of d y.

#[global] Instance same_key_dec (d : dtype) (x y : cell) : Decision (same_key d x y).
Proof. unfold same_key. apply _. Defined.

(** A join in which no integer key is rounded: it is not the join of a
    float64 key column with an int64 one on its right. *)
Definition exact_join (dl dr : dtype) : Prop := ~ (dl = Float64 /\ dr = Int64).

(** [y] is the cell [x], as it is or promoted to a float. *)
Definition promoted (x y : cell) : Prop :=
  y = x \/ exists z, x = Num (PyInt z) /\ y = Num (PyFloat (Float.of_Z z)).

(** A column whose cells are as its dtype holds them. *)
Definition held_in_dtype (col : list cell) : Prop := as_dtype (dtype_of col) <$> col = col.

(** The dtype of the link column of a source file. *)
Definition key_dtype (fs : filesystem) (path : string) : dtype :=
  match fs !! path with
  | Some f => dtype_of (file_column f "_link_main")
  | None => Object
  end.

(** The pairs of a row of [left] and a row of [right]. *)
Definition pairs {L R} (left : list L) (right : list R) : list (L * R) :=
  left ≫= (fun l => pair l <$> right).

Definition award_keys (awards : list Awards.row) : dtype :=
  dtype_of (Awards._link_main <$> awards).

Definition link_dtype (main : list Main.row) (awards : list Awards.row) : dtype :=
  common_dtype (dtype_of (Main._link <$> main)) (award_keys awards).

(** The tenders joined with the deduplicated awards. *)
Definition linked_rows (main : list Main.row) (awards : list Awards.row) : list Linked.row :=
  inner_join (link_dtype main awards) Main._link Awards._link_main Linked.join
    main (pd_drop_duplicates Awards._link_main awards).

(** The number of pairs of a tender and a deduplicated award with one key:
    the cardinality of the inner join. *)
Definition join_cardinality (main : list Main.row) (awards : list Awards.row) : nat :=
  length (filter (fun p => same_key (link_dtype main awards)
                             (Awards._link_main p.2) (Main._link p.1))
            (pairs main (pd_drop_duplicates Awards._link_main awards))).

Definition contract_dtype (awards : list Awards.row) (contracts : list Contracts.row) : dtype :=
  common_dtype (award_keys awards) (dtype_of (Contracts._link_main <$> contracts)).

(** ... then with the deduplicated contracts. *)
Definition timed_rows (main : list Main.row) (awards : list Awards.row)
    (contracts : list Contracts.row) : list Timed.row :=
  left_join (contract_dtype awards contracts) Linked._link_main Contracts._link_main
    Timed.join (Contracts.promote contracts) (linked_rows main awards)
    (pd_drop_duplicates Contracts._link_main contracts).

(** A supplier name after [.str.strip().str.upper()]. *)
Definition normalize_name (x : cell) : cell :=
  match x with
  | Str t => Str (Py.upper (Py.strip t))
  | Num _ => NaN
  end.

(** The supplier table of version 2, its names normalized, deduplicated. *)
Definition V2_suppliers (suppliers : list V2.Suppliers.row) : list V2.Suppliers.row :=
  pd_drop_duplicates V2.Suppliers._link_main
    ((fun s => V2.Suppliers.set_name s (normalize_name (V2.Suppliers.name s))) <$> suppliers).

Definition V2_supplier_dtype (awards : list Awards.row) (suppliers : list V2.Suppliers.row)
    : dtype :=
  common_dtype (award_keys awards) (dtype_of (V2.Suppliers._link_main <$> suppliers)).

Definition V2_rows (main : list Main.row) (awards : list Awards.row)
    (contracts : list Contracts.row) (suppliers : list V2.Suppliers.row)
    : list V2.Merged.row :=
  left_join (V2_supplier_dtype awards suppliers) Timed._link_main V2.Suppliers._link_main
    V2.Merged.join id (timed_rows main awards contracts) (V2_suppliers suppliers).

Definition V3_supplier_dtype (awards : list Awards.row) (suppliers : list V3.Suppliers.row)
    : dtype :=
  common_dtype (award_keys awards) (dtype_of (V3.Suppliers._link_main <$> suppliers)).

Definition V3_rows (main : list Main.row) (awards : list Awards.row)
    (contracts : list Contracts.row) (suppliers : list V3.Suppliers.row)
    : list V3.Merged.row :=
  left_join (V3_supplier_dtype awards suppliers) Timed._link_main V3.Suppliers._link_main
    V3.Merged.join (V3.Suppliers.promote suppliers) (timed_rows main awards contracts)
    (pd_drop_duplicates V3.Suppliers._link_main suppliers).

(** Whether pandas accepts the key columns of the three merges. *)
Definition award_keys_accepted (main : list Main.row) (awards : list Awards.row) : bool :=
  merge_keys_ok (Main._link <$> main) (dtype_of (Main._link <$> main))
    (Awards._link_main <$> pd_drop_duplicates Awards._link_main awards) (award_keys awards).

Definition contract_keys_accepted (main : list Main.row) (awards : list Awards.row)
    (contracts : list Contracts.row) : bool :=
  merge_keys_ok (Linked._link_main <$> linked_rows main awards) (award_keys awards)
    (Contracts._link_main <$> pd_drop_duplicates Contracts._link_main contracts)
    (dtype_of (Contracts._link_main <$> contracts)).

(** The key column of a supplier table, read and deduplicated. *)
Definition supplier_keys_accepted (main : list Main.row) (awards : list Awards.row)
    (contracts : list Contracts.row) (supplier_keys : list cell) : bool :=
  merge_keys_ok (Timed._link_main <$> timed_rows main awards contracts) (award_keys awards)
    (pd_drop_duplicates id supplier_keys) (dtype_of supplier_keys).

(** The accessor [.str] is granted on the names. *)
Definition names_are_strings (names : list cell) : bool :=
  bool_decide (names = []) || existsb is_str names.

(** What a loader needs of the tables it has read to return a frame. *)
Definition V2_accepted (main : list Main.row) (awards : list Awards.row)
    (contracts : list Contracts.row) (suppliers : list V2.Suppliers.row) : bool :=
  names_are_strings (V2.Suppliers.name <$> suppliers)
  && award_keys_accepted main awards
  && contract_keys_accepted main awards contracts
  && supplier_keys_accepted main awards contracts (V2.Suppliers._link_main <$> suppliers).

Definition V3_accepted (main : list Main.row) (awards : list Awards.row)
    (contracts : list Contracts.row) (suppliers : list V3.Suppliers.row) : bool :=
  award_keys_accepted main awards
  && contract_keys_accepted main awards contracts
  && supplier_keys_accepted main awards contracts (V3.Suppliers._link_main <$> suppliers).

(** [linked] is the inner join of the tender table with the deduplicated
    award table: its rows are the pairs of a tender and an award of one key,
    so that the key of every row has an award, and it has as many rows as
    there are such pairs. *)
Definition inner_joined (main : list Main.row) (awards : list Awards.row)
    (linked : list Linked.row) : Prop :=
  let d := link_dtype main awards in
  let awards' := pd_drop_duplicates Awards._link_main awards in
  (forall r, r ∈ linked <->
     exists m a, m ∈ main /\ a ∈ awards'
       /\ same_key d (Awards._link_main a) (Main._link m) /\ r = Linked.join m a)
  /\ (forall r, r ∈ linked ->
        exists a, a ∈ awards /\ same_key d (Awards._link_main a) (Linked._link r))
  /\ length linked = join_cardinality main awards.

(** The dates of an output row of key [k], attached by left join: those of
    a row of [contracts] with that key, as they are or promoted to floats,
    and [NaN] when [contracts] has no such row. *)
Definition timing_attached (d : dtype) (contracts : list Contracts.row)
    (k dateSigned period_startDate : cell) : Prop :=
  ((forall c, c ∈ contracts -> ~ same_key d (Contracts._link_main c) k)
   /\ dateSigned = NaN /\ period_startDate = NaN)
  \/ (exists c, c ∈ contracts /\ same_key d (Contracts._link_main c) k
        /\ promoted (Contracts.dateSigned c) dateSigned
        /\ promoted (Contracts.period_startDate c) period_startDate).

(** The supplier name of an output row of version 2, attached by left join:
    the normalized name of a row of [suppliers] with the key [k], and [NaN]
    when there is none. *)
Definition V2_supplier_attached (d : dtype) (suppliers : list V2.Suppliers.row)
    (k name : cell) : Prop :=
  ((forall s, s ∈ suppliers -> ~ same_key d (V2.Suppliers._link_main s) k) /\ name = NaN)
  \/ (exists s, s ∈ suppliers /\ same_key d (V2.Suppliers._link_main s) k
        /\ name = normalize_name (V2.Suppliers.name s)).

(** The supplier reference of an output row of version 3. *)
Definition V3_supplier_attached (d : dtype) (suppliers : list V3.Suppliers.row)
    (k supplier_id name : cell) : Prop :=
  ((forall s, s ∈ suppliers -> ~ same_key d (V3.Suppliers._link_main s) k)
   /\ supplier_id = NaN /\ name = NaN)
  \/ (exists s, s ∈ suppliers /\ same_key d (V3.Suppliers._link_main s) k
        /\ promoted (V3.Suppliers.supplier_id s) supplier_id
        /\ promoted (V3.Suppliers.name s) name).

(** A cell in which [clean_currency] finds no amount: it is missing, or a
    string that [float] does not read once it is cleaned. *)
Definition unparsed_amount (x : cell) : Prop :=
  pd_isna x = true \/ exists s, x = Str s /\ Py.parse_float (clean_str s) = None.

(** The number 0, as an int or as a float. *)
Definition is_zero (n : num) : Prop := n = PyInt 0 \/ n = PyFloat (Float.of_Z 0).

(** A red-flag indicator is 0 or 1. *)
Definition is_flag (z : Z) : Prop := z = 0 \/ z = 1.

(** The score of one row: the Series expressions of the scorers, at one
    index. *)
Definition score_v1 (d r c : Z) : float :=
  Float.add
    (Float.add (Float.of_Z (d * 2)) (Float.mul (Float.of_Z r) f1_5))
    (Float.of_Z (int_of_bool (1 <=? c))).

Definition score_v2 (d r t n : Z) : float :=
  Float.add
    (Float.add
       (Float.add (Float.mul (Float.of_Z d) f1_5) (Float.mul (Float.of_Z r) f1_0))
       (Float.mul (Float.of_Z t) f2_0))
    (Float.mul (Float.of_Z n) f2_5).

(* ================================================================== *)
(** ** The trainers and the prediction forms *)
(* ================================================================== *)

(** [df[columns]] for a list of names: the columns named, in that order;
    [None] is [KeyError]. *)
Definition select_columns (df : csv_file) (columns : list string) : option csv_file :=
  if forallb (fun c => bool_decide (c ∈ header df)) columns
  then Some {| header := columns;
               lines := (fun line => field df line <$> columns) <$> lines df |}
  else None.

(** [df[column]] for one name. *)
Definition select_column (df : csv_file) (column : string) : option (list cell) :=
  if bool_decide (column ∈ header df)
  then Some ((fun line => field df line column) <$> lines df)
  else None.

(** What a trainer has in hand when it calls [train_test_split]: nothing
    (the data file is missing: a message is printed and the function
    returns), a [KeyError] that nothing catches, or the features [X] and the
    target [y]. The split, the forest and the pickle belong to scikit-learn
    and joblib. *)
Inductive training_data : Type :=
  | NoTrainingFile
  | TrainingKeyError
  | Training (X : csv_file) (y : list cell).

Definition training_data_of (path : string) (features : list string) (target : string)
    (fs : filesystem) : training_data :=
  match fs !! path with
  | None => NoTrainingFile
  | Some df =>
      match select_columns df features, select_column df target with
      | Some X, Some y => Training X y
      | _, _ => TrainingKeyError
      end
  end.

(** [train_model.py], [train_model_v2.py] and [train_model_v3.py], lines
    13-31 of each. *)
Module Train.

Definition target : string := "risk_label".

Definition features_v1 : list string :=
  ["amount"; "is_direct_procurement"; "is_round_amount"; "missing_data_count"].

Definition features_v2 : list string :=
  ["amount"; "is_direct_procurement"; "is_round_amount"; "suspicious_timing";
   "supplier_award_count"; "new_supplier_direct_deal"].

Definition train_model : filesystem -> training_data :=
  training_data_of "data/processed/training_data.csv" features_v1 target.

Definition train_model_v2 : filesystem -> training_data :=
  training_data_of "data/processed/training_data_v2.csv" features_v2 target.

(** Version 3 lists the same features as version 2. *)
Definition train_model_v3 : filesystem -> training_data :=
  training_data_of "data/processed/training_data_v3.csv" features_v2 target.

End Train.

(** The one-row frame that a prediction form hands to the model
    ([app.py], lines 74-91; [app_v2.py], lines 94-115; [app_v3.py], lines
    92-108). The amount is the float of [st.number_input], the method one of
    the options of the select box. *)
Module App.

Definition input_data (amount : float) (procurement_method : string) (missing_data : bool)
    : csv_file :=
  let is_direct_procurement := if String.eqb procurement_method "Direct" then 1 else 0 in
  let is_round_amount := round_flag (PyFloat amount) in
  let missing_data_count := if missing_data then 1 else 0 in
  {| header := ["amount"; "is_direct_procurement"; "is_round_amount"; "missing_data_count"];
     lines := [ [Num (PyFloat amount); Num (PyInt is_direct_procurement);
                 Num (PyInt is_round_amount); Num (PyInt missing_data_count)] ] |}.

(** [app_v2.py] and [app_v3.py] build the same frame. *)
Definition input_data_v2 (amount : float) (procurement_method : string)
    (supplier_award_count : Z) (suspicious_timing : bool) : csv_file :=
  let is_direct_procurement := if String.eqb procurement_method "Direct" then 1 else 0 in
  let is_round_amount := round_flag (PyFloat amount) in
  let is_suspicious_timing := if suspicious_timing then 1 else 0 in
  let is_new_supplier_direct_deal :=
    if (supplier_award_count <=? 3) && (is_direct_procurement =? 1) then 1 else 0 in
  {| header := ["amount"; "is_direct_procurement"; "is_round_amount"; "suspicious_timing";
                "supplier_award_count"; "new_supplier_direct_deal"];
     lines := [ [Num (PyFloat amount); Num (PyInt is_direct_procurement);
                 Num (PyInt is_round_amount); Num (PyInt is_suspicious_timing);
                 Num (PyInt supplier_award_count);
                 Num (PyInt is_new_supplier_direct_deal)] ] |}.

End App.

(* ================================================================== *)
(** ** The supplier page: [pages/2_Supplier_360.py] *)
(* ================================================================== *)

(** [str(x)] of a number, which [astype(str)] writes for a numeric cell
    (['nan'] for a missing one), belongs to Python. *)
Class NumberRepr := str_of_num : num -> string.

Definition astype_str `{NumberRepr} (c : cell) : string :=
  match c with
  | Str s => s
  | Num n => str_of_num n
  end.

(** [s.split(sep)] for a non-empty [sep]: the occurrences of [sep] are
    found from left to right, without overlap; [cur] is the piece being
    read and [skip] counts the characters of the current occurrence still
    to pass. *)
Fixpoint split_from (sep : string) (skip : nat) (cur : string) (s : string) : list string :=
  match s with
  | EmptyString => [cur]
  | String c s' =>
      match skip with
      | S k => split_from sep k cur s'
      | O =>
          if String.prefix sep s
          then cur :: split_from sep (Nat.pred (String.length sep)) EmptyString s'
          else split_from sep 0 (cur ++ String c EmptyString) s'
      end
  end.

Definition split (sep : string) (s : string) : list string := split_from sep 0 EmptyString s.

Module Supplier360.

Definition PROCESSED_DATA_PATH : string := "data/processed/training_data_v3.csv".
Definition PARTIES_FILE : string := DATA_DIR ++ "/parties.csv".

(** The address book, its columns [id] and [name] renamed on loading. *)
Module Parties.
Record row : Type := { supplier_id : cell; official_name : cell }.
Definition usecols : list string := ["id"; "name"].
Definition of_csv (get : string -> cell) : row :=
  {| supplier_id := get "id"; official_name := get "name" |}.
End Parties.

(** A row of the page's database: the record of the processed file, its
    [supplier_id] as a string, its [supplier_name], and the
    [official_name] that the join adds. *)
Record row : Type :=
  { contract : list cell;
    supplier_id : string;
    supplier_name : cell;
    official_name : cell }.

(** What the page can die of: a column that is not there, [iloc[0]] on an
    empty frame, an attribute that the value does not have. *)
Inductive error : Type :=
  | KeyError (column : string)
  | IndexError
  | NoAttribute (attr : string).

Inductive outcome (A : Type) : Type :=
  | Returns (a : A)
  | Raises (e : error).
Arguments Returns {A} a.
Arguments Raises {A} e.

(** The values that [load_all_data] can hand to the page. *)
Inductive value : Type :=
  | PyNone
  | Pair (a b : value)
  | Frame (full_db : list row).

(** The left row with the supplier key as a string, and the row of the join
    with [official_name] filled from [supplier_name]. *)
Definition join (supplier_name : cell) (l : list cell * string) (p : option Parties.row)
    : row :=
  let official_name := from_option Parties.official_name NaN p in
  {| contract := l.1;
     supplier_id := l.2;
     supplier_name := supplier_name;
     official_name := if pd_isna official_name then supplier_name else official_name |}.

Definition load_all_data `{NumberRepr} (fs : filesystem) : outcome value :=
  match fs !! PROCESSED_DATA_PATH with
  | None => Returns (Pair PyNone PyNone)
  | Some f =>
      match read_csv fs PARTIES_FILE Parties.usecols Parties.of_csv with
      | Raise _ => Returns (Pair PyNone PyNone)
      | Ok parties_df =>
          let parties_df := drop_duplicates Parties.supplier_id parties_df in
          if bool_decide ("supplier_id" ∈ header f) then
            let df := (fun line => (line, astype_str (field f line "supplier_id")))
                        <$> lines f in
            let parties_df :=
              (fun p => {| Parties.supplier_id := Str (astype_str (Parties.supplier_id p));
                           Parties.official_name := Parties.official_name p |})
                <$> parties_df in
            (* a column [official_name] of the file would come out of the merge
               as [official_name_x] *)
            if bool_decide ("official_name" ∈ header f) then Raises (KeyError "official_name")
            else if bool_decide ("supplier_name" ∈ header f) then
              Returns (Frame
                (merge_left (fun l => Str l.2) Parties.supplier_id
                   (fun l p => join (field f l.1 "supplier_name") l p) df parties_df))
            else Raises (KeyError "supplier_name")
          else Raises (KeyError "supplier_id")
      end
  end.

(** How the page starts (lines 72-80 and 156-157): the message of the
    [else] branch, the supplier search over the database, or a crash. *)
Inductive start : Type :=
  | DatabaseNotLoaded
  | Search (df : list row)
  | Crash (e : error).

Definition page_start `{NumberRepr} (fs : filesystem) : start :=
  match load_all_data fs with
  | Raises e => Crash e
  | Returns df =>
      match df with
      | PyNone => DatabaseNotLoaded
      | Pair _ _ => Crash (NoAttribute "dropna")
      | Frame full_db => Search full_db
      end
  end.

(** An entry of the search box (line 82). *)
Definition display_name (official_name supplier_id : string) : string :=
  official_name ++ " (ID: " ++ supplier_id ++ ")".

(** Line 98. *)
Definition selected_id (selected_supplier_display : string) : string :=
  Py.remove ")" (List.last (split " (ID: " selected_supplier_display) EmptyString).

(** Line 101. *)
Definition supplier_df (df : list row) (selected_id : string) : list row :=
  filter (fun r => supplier_id r = selected_id) df.

(** Line 103: [supplier_df['official_name'].iloc[0]]. *)
Definition supplier_name_of (supplier_df : list row) : outcome cell :=
  match supplier_df with
  | [] => Raises IndexError
  | r :: _ => Returns (official_name r)
  end.

End Supplier360.

(** [str] on the integers and on the missing value, which is all that the
    identifiers of the example need, and a processed table with an address
    book. *)
Module Sample360.

Definition str_of_id : NumberRepr :=
  fun n => match n with
           | PyInt z => pretty z
           | PyFloat _ => "nan"
           end.

Definition processed_csv : csv_file :=
  {| header := ["amount"; "risk_label"; "supplier_id"; "supplier_name"];
     lines := [ [Num (PyFloat (Float.of_Z 1000000)); Num (PyInt 1);
                 Num (PyInt 83297); Str "ACME LTD"];
                [Num (PyFloat (Float.of_Z 2500)); Num (PyInt 0);
                 Num (PyInt 83297); Str "Acme Limited"];
                [Num (PyFloat (Float.of_Z 40)); Num (PyInt 0);
                 Str "KE-17"; Str "Beta Traders"];
                [Num (PyFloat (Float.of_Z 0)); Num (PyInt 1); NaN; NaN] ] |}.

Definition parties_csv : csv_file :=
  {| header := ["id"; "name"; "roles"];
     lines := [ [Str "83297"; Str "Acme (K) Ltd"; Str "supplier"];
                [Str "83297"; Str "Acme"; Str "tenderer"];
                [Str "KE-99"; Str "Gamma"; Str "supplier"] ] |}.

Definition fs : filesystem :=
  <[Supplier360.PROCESSED_DATA_PATH := processed_csv]>
    (<[Supplier360.PARTIES_FILE := parties_csv]> ∅).

End Sample360.

(** [c in s]. *)
Fixpoint has_char (c : ascii) (s : string) : bool :=
  match s with
  | EmptyString => false
  | String x s' => Ascii.eqb x c || has_char c s'
  end.

(** Two file systems hold the same four source files. *)
Definition same_sources (fs fs' : filesystem) : Prop :=
  forall p, p ∈ [MAIN_FILE; AWARDS_FILE; CONTRACTS_FILE; SUPPLIERS_FILE] ->
            fs !! p = fs' !! p.

(** The effect of a run on the files: nothing, or the output table written
    at [path]. *)
Definition write_output (path : string) (out : option csv_file) (fs : filesystem)
    : filesystem :=
  match out with
  | Some t => <[path := t]> fs
  | None => fs
  end.

(* ================================================================== *)
(** * Properties *)
(* ================================================================== *)

(** ** The value normalizer *)

Lemma clean_currency_returns (x : cell) : returns (clean_currency x).
Proof.
  unfold returns, clean_currency.
  destruct (pd_isna x); [by eexists|].
  destruct x as [n|s]; [by eexists|].
  unfold Py.float_of_str.
  destruct (Py.parse_float _); by eexists.
Qed.

Lemma mapM_returns {A B} (f : A -> result B) (l : list A) :
  (forall x, returns (f x)) ->
  exists ys, mapM f l = Ok ys /\ length ys = length l.
Proof.
  intros Hf. induction l as [|x l [ys [IH Hlen]]]; simpl.
  - by exists [].
  - destruct (Hf x) as [y Hy]. exists (y :: ys).
    rewrite Hy. simpl. rewrite IH. simpl. by rewrite Hlen.
Qed.

Example clean_currency_formats :
  clean_currency (Str "KES 1,000,000") = Ok (PyFloat (Float.of_Z 1000000))
  /\ clean_currency (Num (PyFloat (Float.of_Z 1000000))) = Ok (PyFloat (Float.of_Z 1000000))
  /\ clean_currency (Str "12.50") = Ok (PyFloat (Float.of_bin 25 (-1)))
  /\ clean_currency (Str "n/a") = Ok (PyInt 0)
  /\ clean_currency NaN = Ok (PyInt 0).
Proof. repeat split; vm_compute; reflexivity. Qed.

(** What [float] reads in other scripts, and what it does not take for
    white space. *)
Example clean_currency_scripts :
  clean_currency (Str (Utf8.text [0xFF11; 0xFF12; 0xFF13]%N))
  = Ok (PyFloat (Float.of_Z 123))
  /\ clean_currency (Str (Utf8.text [0x2D; 0xFF15]%N)) = Ok (PyFloat (Float.of_Z (-5)))
  /\ clean_currency (Str (Utf8.text [0x1C; 0x38]%N)) = Ok (PyInt 0)
  /\ clean_currency (Str (Utf8.text [0xA0; 0x38; 0xE9]%N)) = Ok (PyInt 0)
  /\ clean_currency (Str (Utf8.text [0xA0; 0x38; 0x2003]%N)) = Ok (PyFloat (Float.of_Z 8)).
Proof. repeat split; vm_compute; reflexivity. Qed.

(** *** Characters *)

Lemma has_char_elem (c : ascii) (s : string) :
  has_char c s = true <-> c ∈ list_ascii_of_string s.
Proof.
  induction s as [|x s IH]; simpl.
  - split; [done|by intros ?%elem_of_nil].
  - rewrite orb_true_iff, IH, elem_of_cons. split.
    + intros [Hx%Ascii.eqb_eq|?]; [by left|by right].
    + intros [->|?]; [left; apply Ascii.eqb_refl|by right].
Qed.

Lemma has_char_remove_from (c : ascii) (old : string) (k : nat) (s : string) :
  has_char c s = false -> has_char c (Py.remove_from old k s) = false.
Proof.
  revert k. induction s as [|x s IH]; intros k; [done|].
  cbn [has_char Py.remove_from].
  intros [Hx Hs]%orb_false_iff. destruct k as [|k]; [|by apply IH].
  destruct (String.prefix old (String x s)); [by apply IH|].
  cbn [has_char]. by rewrite Hx, IH.
Qed.

Lemma has_char_clean_str (c : ascii) (s : string) :
  has_char c s = false -> has_char c (clean_str s) = false.
Proof. intros Hs. unfold clean_str, Py.remove. by do 3 apply has_char_remove_from. Qed.

Lemma elem_drop_while {A} (p : A -> bool) (l : list A) (x : A) :
  x ∈ Py.drop_while p l -> x ∈ l.
Proof.
  induction l as [|y l IH]; [done|]. simpl.
  destruct (p y); [|done]. intros ?%IH. by right.
Qed.

Lemma drop_while_elem {A} (p : A -> bool) (l : list A) (x : A) :
  x ∈ l -> p x = false -> x ∈ Py.drop_while p l.
Proof.
  intros Hx Hp. induction l as [|y l IH]; [done|]. simpl.
  destruct (p y) eqn:Hy; [|done].
  apply elem_of_cons in Hx as [->|Hx]; [congruence|by apply IH].
Qed.

Lemma elem_rev {A} (l : list A) (x : A) : x ∈ rev l <-> x ∈ l.
Proof. rewrite !list_elem_of_In. symmetry. apply in_rev. Qed.

Lemma elem_trim {A} (p : A -> bool) (l : list A) (x : A) : x ∈ Py.trim p l -> x ∈ l.
Proof.
  unfold Py.trim. intros Hx.
  apply (proj1 (elem_rev _ _)), elem_drop_while in Hx.
  apply (proj1 (elem_rev _ _)) in Hx. by apply elem_drop_while in Hx.
Qed.

Lemma trim_elem {A} (p : A -> bool) (l : list A) (x : A) :
  x ∈ l -> p x = false -> x ∈ Py.trim p l.
Proof.
  intros Hx Hp. unfold Py.trim. apply elem_rev.
  apply drop_while_elem; [|done]. apply elem_rev. by apply drop_while_elem.
Qed.

Lemma drop_while_head {A} (p : A -> bool) (l : list A) :
  Forall (fun x => p x = false) l -> Py.drop_while p l = l.
Proof. intros [|x l' Hx _]; [done|]. simpl. by rewrite Hx. Qed.

Lemma trim_none {A} (p : A -> bool) (l : list A) :
  Forall (fun x => p x = false) l -> Py.trim p l = l.
Proof.
  intros Hl. unfold Py.trim. rewrite (drop_while_head p l Hl).
  rewrite drop_while_head by (by apply Forall_rev). apply rev_involutive.
Qed.

Lemma elem_drop_underscores (prev : ascii) (l l' : list ascii) (x : ascii) :
  Py.drop_underscores prev l = Some l' -> x ∈ l' -> x ∈ l.
Proof.
  revert prev l'. induction l as [|c l IH]; intros prev l'; simpl.
  - destruct (Ascii.eqb prev "_"); [done|]. by intros [= <-].
  - destruct (Ascii.eqb c "_").
    + destruct (Py.is_digit prev); [|done]. intros Hl Hx. right. by eapply IH.
    + destruct (Ascii.eqb prev "_" && negb (Py.is_digit c)); [done|].
      destruct (Py.drop_underscores c l) as [k|] eqn:Hk; [|done]. simpl.
      intros [= <-] [->|Hx]%elem_of_cons; [by left|]. right. by eapply IH.
Qed.

Lemma drop_underscores_elem (prev : ascii) (l l' : list ascii) (x : ascii) :
  Py.drop_underscores prev l = Some l' -> x ∈ l -> Ascii.eqb x "_" = false -> x ∈ l'.
Proof.
  intros Hl Hx Hu. revert prev l' Hl. induction l as [|c l IH]; intros prev l'; simpl.
  - by apply elem_of_nil in Hx.
  - destruct (Ascii.eqb c "_") eqn:Hc.
    + destruct (Py.is_digit prev); [|done]. intros Hl.
      apply elem_of_cons in Hx as [->|Hx]; [congruence|by eapply IH].
    + destruct (Ascii.eqb prev "_" && negb (Py.is_digit c)); [done|].
      destruct (Py.drop_underscores c l) as [k|] eqn:Hk; [|done]. simpl.
      intros [= <-]. apply elem_of_cons in Hx as [->|Hx]; [by left|].
      right. by eapply IH.
Qed.

Lemma parse_sign_cases (l : list ascii) :
  (exists rest, l = "-"%char :: rest /\ Py.parse_sign l = (true, rest))
  \/ (exists rest, l = "+"%char :: rest /\ Py.parse_sign l = (false, rest))
  \/ Py.parse_sign l = (false, l).
Proof.
  destruct l as [|c l]; [by right; right|]. simpl.
  destruct (Ascii.eqb_spec c "-") as [->|_]; [left; by eexists|].
  destruct (Ascii.eqb_spec c "+") as [->|_]; [right; left; by eexists|].
  by right; right.
Qed.

Lemma span_digits_spec (s ds rest : list ascii) :
  Py.span_digits s = (ds, rest) ->
  s = ds ++ rest /\ Forall (fun d => Py.is_digit d = true) ds
  /\ (forall c rest', rest = c :: rest' -> Py.is_digit c = false).
Proof.
  revert ds rest. induction s as [|c s IH]; intros ds rest; simpl.
  - intros [= <- <-]. by split_and!.
  - destruct (Py.is_digit c) eqn:Hc.
    + destruct (Py.span_digits s) as [ds' rest'] eqn:Hs. intros [= <- <-].
      destruct (IH ds' rest' eq_refl) as (-> & Hds & Hrest).
      split_and!; [done|by constructor|done].
    + intros [= <- <-]. split_and!; [done|done|]. by intros c' rest' [= <- <-].
Qed.

(** *** Signs *)

Lemma binary_round_aux_sign (sx : bool) (mx ex : Z) (lx : location) :
  has_sign sx (binary_round_aux Float.prec Float.emax sx mx ex lx).
Proof.
  unfold binary_round_aux.
  destruct (shr_fexp _ _ mx ex lx) as [mrs' e'].
  destruct (shr_fexp _ _ _ e' loc_Exact) as [mrs'' e''].
  destruct (shr_m mrs''); [done| |done].
  by destruct (_ <=? _).
Qed.

Lemma binary_normalize_sign (m e : Z) :
  has_sign (m <? 0) (binary_normalize Float.prec Float.emax m e false).
Proof.
  destruct m as [|p|p]; [done|..]; simpl; unfold binary_round;
    destruct (shl_align _ _ _); apply binary_round_aux_sign.
Qed.

Lemma of_decimal_sign (s : bool) (m e : Z) : 0 <= m -> has_sign s (Float.of_decimal s m e).
Proof.
  intros Hm. unfold Float.of_decimal. destruct m as [|p|p]; [done| |lia].
  assert (forall k, 0 <= k -> has_sign s
            (binary_normalize Float.prec Float.emax (cond_Zopp s (Z.pos p * 10 ^ k)) 0 false))
    as Hpos.
  { intros k Hk. pose proof (Z.pow_pos_nonneg 10 k ltac:(lia) Hk) as H10.
    pose proof (binary_normalize_sign (cond_Zopp s (Z.pos p * 10 ^ k)) 0) as Hs.
    assert ((cond_Zopp s (Z.pos p * 10 ^ k) <? 0) = s) as Heq; [|by rewrite Heq in Hs].
    destruct s; simpl; [apply Z.ltb_lt|apply Z.ltb_ge]; nia. }
  destruct e as [|k|k]; [by apply Hpos|by apply Hpos|].
  unfold SFdiv. destruct (SFdiv_core_binary _ _ _ _ _ _) as [[mz ez] lz].
  rewrite <-(xorb_false_r s) at 1. apply binary_round_aux_sign.
Qed.

Lemma has_sign_not_negative (f : float) :
  has_sign false f -> Float.ltb f (Float.of_Z 0) = false.
Proof. destruct f as [s|s| |s m e]; simpl; try (intros ->); done. Qed.

Lemma digit_value_range (d : ascii) :
  Py.is_digit d = true -> 0 <= Py.digit_value d <= 9.
Proof.
  unfold Py.is_digit, Py.digit_value.
  intros [?%N.leb_le ?%N.leb_le]%andb_true_iff. lia.
Qed.

Lemma digits_value_nonneg (ds : list ascii) :
  Forall (fun d => Py.is_digit d = true) ds -> 0 <= Py.digits_value ds.
Proof.
  unfold Py.digits_value. intros Hds.
  assert (forall acc, 0 <= acc ->
            0 <= fold_left (fun a c => 10 * a + Py.digit_value c) ds acc) as Hacc.
  { induction Hds as [|d ds Hd _ IH]; intros acc Hacc; [done|]. simpl. apply IH.
    pose proof (digit_value_range d Hd). lia. }
  by apply Hacc.
Qed.

Lemma parse_decimal_sign (neg : bool) (s : list ascii) (f : float) :
  Py.parse_decimal neg s = Some f -> has_sign neg f.
Proof.
  unfold Py.parse_decimal.
  destruct (Py.span_digits s) as [ip rest] eqn:Hip.
  apply span_digits_spec in Hip as (_ & Hip & _).
  assert (exists fp rest',
            match rest with
            | c :: rest' => if Ascii.eqb c "." then Py.span_digits rest' else ([], rest)
            | [] => ([], [])
            end = (fp, rest') /\ Forall (fun d => Py.is_digit d = true) fp)
    as (fp & rest' & -> & Hfp).
  { destruct rest as [|c rest']; [by exists [], []|].
    destruct (Ascii.eqb c "."); [|by eexists [], _].
    destruct (Py.span_digits rest') as [fp r] eqn:Hfp.
    apply span_digits_spec in Hfp as (_ & Hfp & _). by exists fp, r. }
  destruct (ip ++ fp) as [|d ds] eqn:Hds; [done|].
  destruct (Py.parse_exponent rest') as [e|]; [|done]. simpl. intros [= <-].
  apply of_decimal_sign, digits_value_nonneg. rewrite <-Hds. by apply Forall_app.
Qed.

(** The code points below 128 of a decoded string are bytes of the
    string. *)
Lemma decode_ascii (bytes : list ascii) (cp : N) :
  cp ∈ Utf8.decode bytes -> (cp < 0x80)%N -> ascii_of_N cp ∈ bytes.
Proof.
  intros Hcp Hlt.
  assert (forall (b0 : ascii) (rest l : list ascii),
            (cp ∈ Utf8.decode rest -> ascii_of_N cp ∈ rest) ->
            (forall x, x ∈ rest -> x ∈ l) ->
            cp ∈ (0x110000 + Utf8.byte b0)%N :: Utf8.decode rest -> ascii_of_N cp ∈ l)
    as Hstray.
  { intros b0 rest l IH Hsub [Heq|Hin]%elem_of_cons; [lia|]. by apply Hsub, IH. }
  assert (forall (cp' : N) (enc : list ascii),
            (2 <= length enc)%nat -> Utf8.encodes cp' enc = true -> cp' <> cp) as Hlong.
  { intros cp' enc Hlen [Henc _]%andb_true_iff -> .
    apply bool_decide_eq_true in Henc. unfold Utf8.encode_cp in Henc.
    apply N.ltb_lt in Hlt. rewrite Hlt in Henc. subst enc. simpl in Hlen. lia. }
  remember (length bytes) as n eqn:Hn.
  assert (length bytes <= n)%nat as Hle by lia. clear Hn.
  revert bytes Hcp Hle. induction n as [|n IH]; intros bytes Hcp Hle.
  { destruct bytes; [by apply elem_of_nil in Hcp|simpl in Hle; lia]. }
  destruct bytes as [|b0 s1]; [by apply elem_of_nil in Hcp|].
  simpl in Hle. cbn [Utf8.decode] in Hcp.
  assert (forall rest, (length rest <= n)%nat -> (forall x, x ∈ rest -> x ∈ b0 :: s1) ->
            cp ∈ Utf8.decode rest -> ascii_of_N cp ∈ b0 :: s1) as Hrec.
  { intros rest Hlen Hsub Hin. apply Hsub, IH; [done|lia]. }
  destruct (Utf8.byte b0 <? 0x80)%N.
  { apply elem_of_cons in Hcp as [Heq|Hin].
    - rewrite Heq. unfold Utf8.byte. rewrite ascii_N_embedding. by left.
    - apply (Hrec s1); [lia|by right|done]. }
  assert (forall rest, (length rest <= n)%nat -> (forall x, x ∈ rest -> x ∈ b0 :: s1) ->
            forall cp' enc, (2 <= length enc)%nat -> Utf8.encodes cp' enc = true ->
            cp ∈ cp' :: Utf8.decode rest -> ascii_of_N cp ∈ b0 :: s1) as Hseq.
  { intros rest Hlen Hsub cp' enc Henc Hacc [Heq|Hin]%elem_of_cons.
    - by destruct (Hlong cp' enc Henc Hacc).
    - by apply (Hrec rest). }
  assert (cp ∈ (0x110000 + Utf8.byte b0)%N :: Utf8.decode s1 -> ascii_of_N cp ∈ b0 :: s1)
    as Hs.
  { apply (Hstray b0 s1); [|by right]. intros Hin. apply (IH s1 Hin). lia. }
  destruct s1 as [|b1 s2]; [by apply Hs|].
  destruct (Utf8.encodes _ [b0; b1]) eqn:E2.
  { apply (fun Hlen Hsub Henc => Hseq s2 Hlen Hsub _ [b0; b1] Henc E2 Hcp);
      [simpl in *; lia| |simpl; lia].
    intros x Hx. by do 2 right. }
  destruct s2 as [|b2 s3]; [by apply Hs|].
  destruct (Utf8.encodes _ [b0; b1; b2]) eqn:E3.
  { apply (fun Hlen Hsub Henc => Hseq s3 Hlen Hsub _ [b0; b1; b2] Henc E3 Hcp);
      [simpl in *; lia| |simpl; lia].
    intros x Hx. by do 3 right. }
  destruct s3 as [|b3 s4]; [by apply Hs|].
  destruct (Utf8.encodes _ [b0; b1; b2; b3]) eqn:E4; [|by apply Hs].
  apply (fun Hlen Hsub Henc => Hseq s4 Hlen Hsub _ [b0; b1; b2; b3] Henc E4 Hcp);
    [simpl in *; lia| |simpl; lia].
  intros x Hx. by do 4 right.
Qed.

Lemma decimal_range (cp d : N) : Unicode.decimal cp = Some d -> (d <= 9)%N.
Proof.
  unfold Unicode.decimal.
  destruct (head _) as [z|] eqn:Hz; [|done]. simpl. intros [= <-].
  apply head_Some_elem_of, list_elem_of_filter in Hz as [Hz _].
  unfold Unicode.between in Hz.
  apply Is_true_true, andb_true_iff in Hz as [?%N.leb_le ?%N.leb_le]. lia.
Qed.

Lemma to_ascii_minus (cps : list N) : "-"%char ∈ Py.to_ascii cps -> 45%N ∈ cps.
Proof.
  induction cps as [|cp cps IH]; [by intros ?%elem_of_nil|]. simpl.
  destruct (cp <? 127)%N eqn:Hlt.
  - intros [Heq|Hin]%elem_of_cons; apply elem_of_cons; [left|right; by apply IH].
    apply N.ltb_lt in Hlt.
    apply (f_equal N_of_ascii) in Heq. rewrite N_ascii_embedding in Heq by lia.
    by rewrite <-Heq.
  - destruct (Unicode.is_space cp).
    { intros [Heq|Hin]%elem_of_cons; [done|right; by apply IH]. }
    destruct (Unicode.decimal cp) as [d|] eqn:Hd.
    + intros [Heq|Hin]%elem_of_cons; [|right; by apply IH].
      apply decimal_range in Hd.
      apply (f_equal N_of_ascii) in Heq. rewrite N_ascii_embedding in Heq by lia.
      simpl in Heq. lia.
    + by intros [Heq|?%elem_of_nil]%elem_of_cons.
Qed.

Lemma float_text_minus (s : string) :
  "-"%char ∈ Py.float_text s -> has_char "-" s = true.
Proof.
  unfold Py.float_text. rewrite has_char_elem.
  destruct (Py.is_ascii _); [done|].
  intros Hin%to_ascii_minus. by apply decode_ascii in Hin.
Qed.

(** A float that a string without a minus sign spells is not negative. *)
Lemma parse_float_sign (s : string) (f : float) :
  has_char "-" s = false -> Py.parse_float s = Some f -> has_sign false f.
Proof.
  intros Hminus. unfold Py.parse_float.
  destruct (Py.drop_underscores "a" _) as [body|] eqn:Hbody; [|done]. simpl.
  assert (Py.parse_sign body = (false, body)
          \/ exists rest, Py.parse_sign body = (false, rest)) as Hsign.
  { destruct (parse_sign_cases body) as [(rest & -> & _)|[(rest & _ & ->)| ->]];
      [|right; by eexists|by left].
    assert (has_char "-" s = true); [|congruence].
    apply float_text_minus, (elem_trim Py.is_c_space).
    eapply elem_drop_underscores; [exact Hbody|by left]. }
  assert (exists rest, Py.parse_sign body = (false, rest)) as [rest ->]
    by (destruct Hsign as [?|[? ?]]; by eexists).
  destruct (_ || _); [by intros [= <-]|].
  destruct (String.eqb _ "nan"); [by intros [= <-]|].
  apply parse_decimal_sign.
Qed.

(** *** Numerals *)

Lemma digit_not (c d : ascii) :
  Py.is_digit c = true -> Py.is_digit d = false -> Ascii.eqb c d = false.
Proof. intros Hc Hd. destruct (Ascii.eqb_spec c d) as [->|]; [congruence|done]. Qed.

Lemma digits_has_char (c : ascii) (ds : list ascii) :
  Py.is_digit c = false -> Forall (fun d => Py.is_digit d = true) ds ->
  has_char c (string_of_list_ascii ds) = false.
Proof.
  intros Hc. induction 1 as [|d ds Hd _ IH]; [done|]. simpl.
  by rewrite (digit_not d c), IH.
Qed.

Lemma digit_not_space (d : ascii) : Py.is_digit d = true -> Py.is_c_space d = false.
Proof.
  intros Hd. destruct (Py.is_c_space d) eqn:Hs; [|done].
  unfold Py.is_digit, Py.is_c_space in *.
  apply andb_true_iff in Hd as [?%N.leb_le ?%N.leb_le].
  apply orb_true_iff in Hs as [[?%N.leb_le ?%N.leb_le]%andb_true_iff|?%N.eqb_eq]; lia.
Qed.

Lemma digits_ascii (ds : list ascii) :
  Forall (fun d => Py.is_digit d = true) ds -> Py.is_ascii ds = true.
Proof.
  intros Hds. unfold Py.is_ascii. apply forallb_forall. intros d Hd%list_elem_of_In.
  rewrite Forall_forall in Hds. apply Hds in Hd. unfold Py.is_digit in Hd.
  apply andb_true_iff in Hd as [_ ?%N.leb_le]. apply N.ltb_lt. lia.
Qed.

Lemma digits_drop_underscores (prev : ascii) (ds : list ascii) :
  Ascii.eqb prev "_" = false ->
  Forall (fun d => Py.is_digit d = true) ds ->
  Py.drop_underscores prev ds = Some ds.
Proof.
  intros Hprev Hds. revert prev Hprev.
  induction Hds as [|d ds Hd _ IH]; intros prev Hprev; simpl.
  - by rewrite Hprev.
  - rewrite (digit_not d "_" Hd eq_refl), Hd, Hprev. simpl.
    by rewrite (IH d (digit_not d "_" Hd eq_refl)).
Qed.

Lemma digits_span (ds : list ascii) :
  Forall (fun d => Py.is_digit d = true) ds -> Py.span_digits ds = (ds, []).
Proof. induction 1 as [|d ds Hd _ IH]; [done|]. simpl. by rewrite Hd, IH. Qed.

Lemma digit_lower (d : ascii) : Py.is_digit d = true -> Py.lower_char d = d.
Proof.
  unfold Py.is_digit, Py.lower_char.
  intros [?%N.leb_le ?%N.leb_le]%andb_true_iff.
  destruct (65 <=? Py.code d)%N eqn:E; [|done]. apply N.leb_le in E. lia.
Qed.

Lemma of_decimal_whole (neg : bool) (v : Z) :
  0 < v -> Float.of_decimal neg v 0 = Float.of_Z (cond_Zopp neg v).
Proof.
  intros Hv. unfold Float.of_decimal, Float.of_Z.
  destruct v as [|p|p]; [lia| |lia].
  by rewrite Z.pow_0_r, Z.mul_1_r.
Qed.

(** A numeral of digits, after its sign. *)
Lemma digits_numeral (neg : bool) (ds : list ascii) :
  ds <> [] -> Forall (fun d => Py.is_digit d = true) ds ->
  (let word := Py.lower (string_of_list_ascii ds) in
   if String.eqb word "inf" || String.eqb word "infinity" then Some (S754_infinity neg)
   else if String.eqb word "nan" then Some Float.nan
   else Py.parse_decimal neg ds)
  = Some (Float.of_decimal neg (Py.digits_value ds) 0).
Proof.
  intros Hne Hds. destruct Hds as [|d ds Hd Hds]; [done|].
  cbn [string_of_list_ascii Py.lower Py.map_chars String.eqb].
  rewrite (digit_lower d Hd), (digit_not d "i" Hd eq_refl), (digit_not d "n" Hd eq_refl).
  cbn [orb].
  unfold Py.parse_decimal.
  rewrite (digits_span (d :: ds)) by (by constructor).
  cbn [app Py.parse_exponent]. by rewrite app_nil_r.
Qed.

Lemma digits_parse_float (ds : list ascii) :
  ds <> [] -> Forall (fun d => Py.is_digit d = true) ds ->
  Py.parse_float (string_of_list_ascii ds) = Some (Float.of_Z (Py.digits_value ds)).
Proof.
  intros Hne Hds. unfold Py.parse_float, Py.float_text.
  rewrite list_ascii_of_string_of_list_ascii, digits_ascii by done.
  rewrite trim_none
    by (eapply Forall_impl; [exact Hds|]; intros d; apply digit_not_space).
  rewrite digits_drop_underscores by done. cbn [mbind option_bind].
  assert (Py.parse_sign ds = (false, ds)) as ->.
  { destruct Hds as [|d ds Hd _]; [done|]. unfold Py.parse_sign.
    by rewrite (digit_not d "-" Hd eq_refl), (digit_not d "+" Hd eq_refl). }
  rewrite (digits_numeral false) by done. f_equal.
  pose proof (digits_value_nonneg ds Hds) as Hv.
  destruct (decide (Py.digits_value ds = 0)) as [->|]; [done|].
  apply (of_decimal_whole false). lia.
Qed.

Lemma minus_digits_parse_float (ds : list ascii) :
  Forall (fun d => Py.is_digit d = true) ds -> 0 < Py.digits_value ds ->
  Py.parse_float (String "-" (string_of_list_ascii ds))
  = Some (Float.of_Z (- Py.digits_value ds)).
Proof.
  intros Hds Hv.
  assert (ds <> []) as Hne by (by intros ->).
  unfold Py.parse_float, Py.float_text.
  change (list_ascii_of_string (String "-" (string_of_list_ascii ds)))
    with ("-"%char :: list_ascii_of_string (string_of_list_ascii ds)).
  rewrite list_ascii_of_string_of_list_ascii.
  assert (Py.is_ascii ("-"%char :: ds) = true) as ->
    by (unfold Py.is_ascii; simpl; by apply digits_ascii).
  rewrite trim_none.
  2: { constructor; [done|]. eapply Forall_impl; [exact Hds|].
       intros d. apply digit_not_space. }
  cbn [Py.drop_underscores]. change (Ascii.eqb "-" "_") with false.
  change (Ascii.eqb "a" "_" && negb (Py.is_digit "-")) with false. cbv iota.
  rewrite digits_drop_underscores by done. cbn [fmap option_fmap option_map mbind option_bind].
  change (Py.parse_sign ("-"%char :: ds)) with (true, ds).
  etrans; [exact (digits_numeral true ds Hne Hds)|]. f_equal.
  by apply (of_decimal_whole true).
Qed.

(** *** What [float] does not read *)

Lemma float_char_false (c : ascii) :
  float_char c = false ->
  Py.is_digit c = false /\ Py.is_c_space c = false
  /\ Forall (fun w => Ascii.eqb c w = false) (list_ascii_of_string "+-._eEiInNfFtTyYaA").
Proof.
  unfold float_char. intros [[Hd Hs]%orb_false_iff Hw]%orb_false_iff.
  split; [done|]. split; [done|].
  apply Forall_forall. intros w Hw'.
  destruct (Ascii.eqb c w) eqn:E; [|done].
  assert (existsb (Ascii.eqb c) (list_ascii_of_string "+-._eEiInNfFtTyYaA") = true);
    [|congruence].
  apply existsb_exists. exists w. split; [by apply list_elem_of_In|done].
Qed.

Lemma lower_char_letter (c : ascii) :
  Py.lower_char c ∈ list_ascii_of_string "einfty" ++ ["a"%char] ->
  c ∈ list_ascii_of_string "eEiInNfFtTyYaA".
Proof.
  destruct c as [b0 b1 b2 b3 b4 b5 b6 b7].
  destruct b0, b1, b2, b3, b4, b5, b6, b7; vm_compute;
    intros Hin; repeat (apply elem_of_cons in Hin as [Hin|Hin]; [discriminate Hin|]);
    try (by apply elem_of_nil in Hin);
    revert Hin; clear; intros _.
  all: repeat first [by left|right].
Qed.

Lemma lower_chars (s : string) :
  list_ascii_of_string (Py.lower s) = Py.lower_char <$> list_ascii_of_string s.
Proof.
  unfold Py.lower. induction s as [|c s IH]; [done|].
  cbn [Py.map_chars list_ascii_of_string]. by rewrite fmap_cons, IH.
Qed.

Section Rejected.
Context (x : ascii).
Hypothesis not_float_char : float_char x = false.

Lemma rejected_char (w : ascii) :
  w ∈ list_ascii_of_string "+-._eEiInNfFtTyYaA" -> Ascii.eqb x w = false.
Proof.
  destruct (float_char_false x not_float_char) as (_ & _ & Hw).
  rewrite Forall_forall in Hw. apply Hw.
Qed.

Lemma rejected_word (rest : list ascii) (w : string) :
  x ∈ rest ->
  (forall c, c ∈ list_ascii_of_string w -> c ∈ list_ascii_of_string "einfty" ++ ["a"%char]) ->
  String.eqb (Py.lower (string_of_list_ascii rest)) w = false.
Proof.
  intros Hx Hw. destruct (String.eqb_spec (Py.lower (string_of_list_ascii rest)) w)
    as [Heq|]; [|done].
  apply (f_equal list_ascii_of_string) in Heq.
  rewrite lower_chars, list_ascii_of_string_of_list_ascii in Heq.
  assert (Py.lower_char x ∈ list_ascii_of_string w) as Hin
    by (rewrite <-Heq; by apply list_elem_of_fmap_2).
  apply Hw, lower_char_letter in Hin.
  assert (Ascii.eqb x x = false) as Hxx; [|by rewrite Ascii.eqb_refl in Hxx].
  apply rejected_char.
  change (list_ascii_of_string "+-._eEiInNfFtTyYaA")
    with (list_ascii_of_string "+-._" ++ list_ascii_of_string "eEiInNfFtTyYaA").
  apply elem_of_app. by right.
Qed.

Lemma rejected_span (s ds rest : list ascii) :
  Py.span_digits s = (ds, rest) -> x ∈ s -> x ∈ rest.
Proof.
  intros (-> & Hds & _)%span_digits_spec [Hin|Hin]%elem_of_app; [|done].
  rewrite Forall_forall in Hds. apply Hds in Hin.
  destruct (float_char_false x not_float_char) as (Hd & _). congruence.
Qed.

Lemma rejected_sign (l rest : list ascii) (neg : bool) :
  Py.parse_sign l = (neg, rest) -> x ∈ l -> x ∈ rest.
Proof.
  destruct (parse_sign_cases l) as [(r & -> & ->)|[(r & -> & ->)| ->]].
  - intros [= <- <-] [Heq|?]%elem_of_cons; [|done].
    assert (Ascii.eqb x "-" = false) as E by (apply rejected_char; compute_done).
    by rewrite Heq in E.
  - intros [= <- <-] [Heq|?]%elem_of_cons; [|done].
    assert (Ascii.eqb x "+" = false) as E by (apply rejected_char; compute_done).
    by rewrite Heq in E.
  - by intros [= <- <-].
Qed.

Lemma rejected_exponent (s : list ascii) : x ∈ s -> Py.parse_exponent s = None.
Proof.
  intros Hx. destruct s as [|c s]; [by apply elem_of_nil in Hx|]. simpl.
  destruct (Ascii.eqb (Py.lower_char c) "e") eqn:Hc; [|done].
  destruct (Py.parse_sign s) as [neg s'] eqn:Hs.
  apply elem_of_cons in Hx as [Heq|Hx].
  - apply Ascii.eqb_eq in Hc. rewrite <-Heq in Hc.
    assert (x ∈ list_ascii_of_string "eEiInNfFtTyYaA") as Hin
      by (apply lower_char_letter; rewrite Hc; compute_done).
    assert (Ascii.eqb x x = false) as Hxx; [|by rewrite Ascii.eqb_refl in Hxx].
    apply rejected_char.
    change (list_ascii_of_string "+-._eEiInNfFtTyYaA")
      with (list_ascii_of_string "+-._" ++ list_ascii_of_string "eEiInNfFtTyYaA").
    apply elem_of_app. by right.
  - apply (rejected_sign _ _ _ Hs) in Hx.
    destruct (Py.span_digits s') as [ds rest] eqn:Hspan.
    apply (rejected_span _ _ _ Hspan) in Hx.
    destruct ds; [done|]. destruct rest; [by apply elem_of_nil in Hx|done].
Qed.

Lemma rejected_decimal (neg : bool) (s : list ascii) :
  x ∈ s -> Py.parse_decimal neg s = None.
Proof.
  intros Hx. unfold Py.parse_decimal.
  destruct (Py.span_digits s) as [ip rest] eqn:Hip.
  apply (rejected_span _ _ _ Hip) in Hx.
  assert (exists fp rest',
            match rest with
            | c :: rest' => if Ascii.eqb c "." then Py.span_digits rest' else ([], rest)
            | [] => ([], [])
            end = (fp, rest') /\ x ∈ rest') as (fp & rest' & -> & Hx').
  { destruct rest as [|c rest']; [by apply elem_of_nil in Hx|].
    destruct (Ascii.eqb c ".") eqn:Hc; [|by eexists [], _].
    destruct (Py.span_digits rest') as [fp r] eqn:Hfp. exists fp, r. split; [done|].
    apply (rejected_span _ _ _ Hfp).
    apply elem_of_cons in Hx as [Heq|Hx]; [|done].
    rewrite <-Heq, rejected_char in Hc; [done|compute_done]. }
  destruct (ip ++ fp); [done|]. by rewrite rejected_exponent.
Qed.

(** An ASCII string with a character that no numeral has spells no
    float. *)
Lemma rejected_float (s : string) :
  Py.is_ascii (list_ascii_of_string s) = true -> has_char x s = true ->
  Py.parse_float s = None.
Proof.
  intros Hascii Hx%has_char_elem. unfold Py.parse_float, Py.float_text. rewrite Hascii.
  destruct (float_char_false x not_float_char) as (_ & Hspace & _).
  apply (trim_elem Py.is_c_space) in Hx; [|done].
  destruct (Py.drop_underscores "a" _) as [body|] eqn:Hbody; [|done]. simpl.
  apply (drop_underscores_elem _ _ _ _ Hbody) in Hx; [|apply rejected_char; compute_done].
  destruct (Py.parse_sign body) as [neg rest] eqn:Hsign.
  apply (rejected_sign _ _ _ Hsign) in Hx.
  assert (forall w : string,
            Forall (fun c => c ∈ list_ascii_of_string "einfty" ++ ["a"%char])
              (list_ascii_of_string w) ->
            String.eqb (Py.lower (string_of_list_ascii rest)) w = false) as Hword.
  { intros w Hw. apply rejected_word; [done|]. by apply Forall_forall. }
  rewrite (Hword "inf"), (Hword "infinity"), (Hword "nan");
    [by apply rejected_decimal|..]; repeat constructor; compute_done.
Qed.

End Rejected.



(** ** The source loader: deduplication *)

Section Dedup.
Context {A : Type} (key : A -> cell).

Lemma drop_duplicates_from_sublist (seen : gset cell) (df : list A) :
  drop_duplicates_from key seen df `sublist_of` df.
Proof.
  revert seen. induction df as [|r df IH]; intros seen; simpl; [done|].
  case_decide.
  - by apply sublist_cons.
  - by apply sublist_skip.
Qed.

Lemma drop_duplicates_from_unseen (seen : gset cell) (df : list A) (r : A) :
  r ∈ drop_duplicates_from key seen df -> key r ∉ seen.
Proof.
  revert seen. induction df as [|r' df IH]; intros seen; simpl.
  - by intros ?%elem_of_nil.
  - case_decide as Hin.
    + apply IH.
    + intros [->|Hr]%elem_of_cons; [done|].
      apply IH in Hr. set_solver.
Qed.

Lemma drop_duplicates_from_NoDup (seen : gset cell) (df : list A) :
  NoDup (key <$> drop_duplicates_from key seen df).
Proof.
  revert seen. induction df as [|r df IH]; intros seen; simpl.
  - constructor.
  - case_decide as Hin; [apply IH|].
    rewrite fmap_cons. constructor; [|apply IH].
    intros (r' & Heq & Hr')%list_elem_of_fmap.
    apply drop_duplicates_from_unseen in Hr'. set_solver.
Qed.

Lemma drop_duplicates_from_filter (seen : gset cell) (df : list A) (k : cell) :
  filter (fun r => key r = k) (drop_duplicates_from key seen df)
  = if decide (k ∈ seen) then [] else take 1 (filter (fun r => key r = k) df).
Proof.
  revert seen. induction df as [|r df IH]; intros seen; simpl.
  - by case_decide.
  - destruct (decide (key r ∈ seen)) as [Hin|Hin].
    + rewrite IH. case_decide; [done|].
      rewrite filter_cons_False; [done|]. congruence.
    + destruct (decide (key r = k)) as [Heq|Hne].
      * rewrite !filter_cons_True by done. rewrite IH.
        rewrite decide_True by set_solver.
        rewrite decide_False by congruence. done.
      * rewrite !filter_cons_False by done. rewrite IH.
        destruct (decide (k ∈ seen)).
        -- rewrite decide_True by set_solver. done.
        -- rewrite decide_False; [done|].
           intros [?%elem_of_singleton|?]%elem_of_union; congruence.
Qed.

Lemma drop_duplicates_from_idemp (seen : gset cell) (df : list A) :
  drop_duplicates_from key seen (drop_duplicates_from key seen df)
  = drop_duplicates_from key seen df.
Proof.
  revert seen. induction df as [|r df IH]; intros seen; simpl; [done|].
  destruct (decide (key r ∈ seen)) as [Hin|Hin]; [apply IH|].
  simpl. rewrite decide_False by done. by rewrite IH.
Qed.

Lemma drop_duplicates_NoDup (df : list A) : NoDup (key <$> drop_duplicates key df).
Proof. apply drop_duplicates_from_NoDup. Qed.

Lemma drop_duplicates_filter (df : list A) (k : cell) :
  filter (fun r => key r = k) (drop_duplicates key df)
  = take 1 (filter (fun r => key r = k) df).
Proof.
  unfold drop_duplicates. rewrite drop_duplicates_from_filter.
  by rewrite decide_False by set_solver.
Qed.

End Dedup.

(** C7: [drop_duplicates] keeps rows in file order, leaves one row per key,
    namely the first row of the source that carries the key, and applying it
    to its own output changes nothing. *)
Theorem drop_duplicates_keeps_first_idempotent {A : Type} (key : A -> cell) (df : list A) :
  drop_duplicates key df `sublist_of` df
  /\ NoDup (key <$> drop_duplicates key df)
  /\ (forall k, filter (fun r => key r = k) (drop_duplicates key df)
                = take 1 (filter (fun r => key r = k) df))
  /\ drop_duplicates key (drop_duplicates key df) = drop_duplicates key df.
Proof.
  repeat split.
  - apply drop_duplicates_from_sublist.
  - apply drop_duplicates_NoDup.
  - apply drop_duplicates_filter.
  - apply drop_duplicates_from_idemp.
Qed.

Example drop_duplicates_awards :
  Awards.value_amount <$>
    drop_duplicates Awards._link_main
      [ {| Awards._link_main := Str "c1"; Awards.value_amount := Str "10" |};
        {| Awards._link_main := Str "c2"; Awards.value_amount := Str "20" |};
        {| Awards._link_main := Str "c1"; Awards.value_amount := Str "30" |};
        {| Awards._link_main := NaN; Awards.value_amount := Str "40" |};
        {| Awards._link_main := NaN; Awards.value_amount := Str "50" |} ]
  = [Str "10"; Str "20"; Str "40"].
Proof. vm_compute. reflexivity. Qed.

(** ** The linkage engine *)

Section Merge.
Context {L R O : Type} (left_on : L -> cell) (right_on : R -> cell).

Lemma merge_inner_elem (join : L -> R -> O) (left : list L) (right : list R) (o : O) :
  o ∈ merge_inner left_on right_on join left right
  <-> exists l r, l ∈ left /\ r ∈ right /\ right_on r = left_on l /\ o = join l r.
Proof.
  unfold merge_inner, matches. rewrite list_elem_of_bind. split.
  - intros (l & (r & -> & [Hk Hr]%list_elem_of_filter)%list_elem_of_fmap & Hl).
    by exists l, r.
  - intros (l & r & Hl & Hr & Hk & ->). exists l. split; [|done].
    apply list_elem_of_fmap. exists r. split; [done|].
    by apply list_elem_of_filter.
Qed.

Lemma matches_unique (l : L) (right : list R) :
  NoDup (right_on <$> right) ->
  matches left_on right_on l right = option_list (first_by right_on (left_on l) right).
Proof.
  unfold matches, first_by. generalize (left_on l) as k. intros k.
  induction right as [|r right IH]; [done|].
  rewrite fmap_cons. intros [Hnotin Hnd]%list.NoDup_cons.
  destruct (decide (right_on r = k)) as [Heq|Hne].
  - rewrite filter_cons_True by done. simpl. f_equal.
    destruct (filter _ right) as [|r' rest] eqn:Hf; [done|].
    assert (r' ∈ filter (fun r0 => right_on r0 = k) right) as [Hk Hr']%list_elem_of_filter
      by (rewrite Hf; left).
    destruct Hnotin. apply list_elem_of_fmap. exists r'. split; [congruence|done].
  - rewrite filter_cons_False by done. by apply IH.
Qed.

(** Against a right table with distinct keys, a left join keeps every left
    row exactly once. *)
Lemma merge_left_unique (join : L -> option R -> O) (left : list L) (right : list R) :
  NoDup (right_on <$> right) ->
  merge_left left_on right_on join left right
  = (fun l => join l (first_by right_on (left_on l) right)) <$> left.
Proof.
  intros Hnd. unfold merge_left.
  induction left as [|l left IH]; [done|].
  rewrite bind_cons, IH, fmap_cons, (matches_unique _ _ Hnd).
  by destruct (first_by right_on (left_on l) right).
Qed.

End Merge.

Lemma merge_left_elem {L R O} (left_on : L -> cell) (right_on : R -> cell)
    (join : L -> option R -> O) (left : list L) (right : list R) (o : O) :
  o ∈ merge_left left_on right_on join left right
  <-> exists l, l ∈ left
        /\ (((forall r, r ∈ right -> right_on r <> left_on l) /\ o = join l None)
            \/ (exists r, r ∈ right /\ right_on r = left_on l /\ o = join l (Some r))).
Proof.
  unfold merge_left. rewrite list_elem_of_bind. split.
  - intros (l & Ho & Hl). exists l. split; [done|].
    destruct (matches left_on right_on l right) as [|r rs] eqn:Hm.
    + left. apply list_elem_of_singleton in Ho. split; [|done].
      intros r Hr Hk.
      assert (r ∈ matches left_on right_on l right) as Hin
        by (by apply list_elem_of_filter).
      rewrite Hm in Hin. by apply elem_of_nil in Hin.
    + right. apply list_elem_of_fmap in Ho as (r' & -> & Hr').
      rewrite <-Hm in Hr'. apply list_elem_of_filter in Hr' as [Hk Hr'].
      by exists r'.
  - intros (l & Hl & [[Hnone ->]|(r & Hr & Hk & ->)]); exists l; (split; [|done]).
    + destruct (matches left_on right_on l right) as [|r rs] eqn:Hm;
        [by apply list_elem_of_singleton|].
      assert (r ∈ matches left_on right_on l right) as [Hk Hr]%list_elem_of_filter
        by (rewrite Hm; left).
      by destruct (Hnone r Hr).
    + assert (r ∈ matches left_on right_on l right) as Hin
        by (by apply list_elem_of_filter).
      destruct (matches left_on right_on l right) as [|r0 rs] eqn:Hm;
        [by apply elem_of_nil in Hin|].
      apply list_elem_of_fmap. by exists r.
Qed.

Lemma merge_left_covers {L R O} (left_on : L -> cell) (right_on : R -> cell)
    (join : L -> option R -> O) (left : list L) (right : list R) (l : L) :
  l ∈ left ->
  exists p, join l p ∈ merge_left left_on right_on join left right.
Proof.
  intros Hl.
  destruct (matches left_on right_on l right) as [|r rs] eqn:Hm.
  - exists None. apply merge_left_elem. exists l. split; [done|]. left. split; [|done].
    intros r Hr Hk.
    assert (r ∈ matches left_on right_on l right) as Hin by (by apply list_elem_of_filter).
    rewrite Hm in Hin. by apply elem_of_nil in Hin.
  - assert (r ∈ matches left_on right_on l right) as [Hk Hr]%list_elem_of_filter
      by (rewrite Hm; left).
    exists (Some r). apply merge_left_elem. exists l. split; [done|]. right. by exists r.
Qed.

Lemma merge_left_length {L R O} (left_on : L -> cell) (right_on : R -> cell)
    (join : L -> option R -> O) (left : list L) (right : list R) :
  (length left <= length (merge_left left_on right_on join left right))%nat.
Proof.
  unfold merge_left. induction left as [|l left IH]; [done|].
  rewrite bind_cons, length_app. cbn [length].
  destruct (matches left_on right_on l right) as [|r rs];
    rewrite ?length_fmap; cbn [length]; lia.
Qed.

Lemma first_by_drop_duplicates {A} (key : A -> cell) (k : cell) (df : list A) :
  first_by key k (drop_duplicates key df) = first_by key k df.
Proof.
  unfold first_by. rewrite drop_duplicates_filter.
  by destruct (filter _ df).
Qed.

Lemma elem_of_drop_duplicates_keys {A} (key : A -> cell) (df : list A) (k : cell) :
  k ∈ key <$> drop_duplicates key df <-> k ∈ key <$> df.
Proof.
  split.
  - intros (r & -> & Hr)%list_elem_of_fmap. apply list_elem_of_fmap. exists r.
    split; [done|]. eapply elem_of_sublist; [done|].
    apply drop_duplicates_from_sublist.
  - intros (r & -> & Hr)%list_elem_of_fmap.
    destruct (first_by key (key r) (drop_duplicates key df)) as [r'|] eqn:Hf.
    + unfold first_by in Hf. apply head_Some_elem_of in Hf.
      apply list_elem_of_filter in Hf as [Hk Hr'].
      apply list_elem_of_fmap. by exists r'.
    + rewrite first_by_drop_duplicates in Hf. unfold first_by in Hf.
      apply head_None in Hf.
      assert (r ∈ filter (fun r0 => key r0 = key r) df) as Hin
        by (by apply list_elem_of_filter).
      rewrite Hf in Hin. by apply elem_of_nil in Hin.
Qed.

(** *** Reading the files *)

Lemma read_csv_Ok {A} (fs : filesystem) path usecols (row : (string -> cell) -> A) t :
  read_csv fs path usecols row = Ok t ->
  loadable fs path usecols.
Proof.
  unfold read_csv, loadable. destruct (fs !! path) as [f|]; [|done].
  destruct (forallb _ usecols) eqn:Hall; [|done].
  intros _. exists f. split; [done|]. intros c Hc.
  rewrite forallb_forall in Hall. apply list_elem_of_In, Hall in Hc.
  by apply bool_decide_eq_true in Hc.
Qed.

Lemma read_csv_loadable {A} (fs : filesystem) path usecols (row : (string -> cell) -> A) :
  loadable fs path usecols -> returns (read_csv fs path usecols row).
Proof.
  intros (f & Hf & Hcols). unfold read_csv, returns. rewrite Hf.
  assert (forallb (fun c => bool_decide (c ∈ header f)) usecols = true) as ->; [|by eexists].
  apply forallb_forall. intros c Hc. apply bool_decide_eq_true, Hcols.
  by apply list_elem_of_In.
Qed.

Lemma read_csv_not_loadable {A} (fs : filesystem) path usecols (row : (string -> cell) -> A) :
  ~ loadable fs path usecols -> exists e, read_csv fs path usecols row = Raise e.
Proof.
  intros Hno. destruct (read_csv fs path usecols row) as [t|e] eqn:Hread; [|by eexists].
  destruct Hno. by eapply read_csv_Ok.
Qed.

(** *** Columns as they are read *)

Lemma dtype_of_Int64 (col : list cell) (x : cell) :
  dtype_of col = Int64 -> x ∈ col -> exists z, x = Num (PyInt z).
Proof.
  unfold dtype_of. destruct (existsb is_str col); [done|].
  destruct col as [|y col]; [done|].
  destruct (forallb is_int_cell (y :: col)) eqn:Hall; [|done].
  intros _ Hx. rewrite forallb_forall in Hall.
  apply list_elem_of_In, Hall in Hx. destruct x as [[z|f]|s]; try done. by exists z.
Qed.

Lemma dtype_of_Float64 (col : list cell) (x : cell) :
  dtype_of col = Float64 -> x ∈ col -> exists n, x = Num n.
Proof.
  unfold dtype_of. destruct (existsb is_str col) eqn:Hs; [done|]. intros _ Hx.
  destruct x as [n|s]; [by exists n|].
  assert (existsb is_str col = true) as Hs'; [|congruence].
  apply existsb_exists. exists (Str s). split; [by apply list_elem_of_In|done].
Qed.

Lemma dtype_of_as_dtype (col : list cell) :
  dtype_of (as_dtype (dtype_of col) <$> col) = dtype_of col.
Proof.
  destruct (dtype_of col) eqn:Hd.
  - by rewrite (list_fmap_ext (as_dtype _) id col), list_fmap_id.
  - assert (existsb is_str (as_dtype Float64 <$> col) = false) as Hs.
    { apply not_true_iff_false. intros (x & Hx & Hstr)%existsb_exists.
      apply list_elem_of_In, list_elem_of_fmap in Hx as (y & -> & Hy).
      by destruct (dtype_of_Float64 _ _ Hd Hy) as [n ->]. }
    unfold dtype_of. rewrite Hs.
    destruct col as [|y col]; [done|].
    destruct (dtype_of_Float64 _ y Hd) as [n ->]; [left|]. done.
  - by rewrite (list_fmap_ext (as_dtype _) id col), list_fmap_id.
Qed.

Lemma as_dtype_idemp (d : dtype) (x : cell) : as_dtype d (as_dtype d x) = as_dtype d x.
Proof. by destruct d, x as [[z|f]|s]. Qed.

Lemma as_read_held (col : list cell) : held_in_dtype (as_dtype (dtype_of col) <$> col).
Proof.
  unfold held_in_dtype. rewrite dtype_of_as_dtype, <-list_fmap_compose.
  apply list_fmap_ext. intros _ x _. apply as_dtype_idemp.
Qed.

Lemma held_Float64 (col : list cell) (x : cell) :
  held_in_dtype col -> dtype_of col = Float64 -> x ∈ col -> exists f, x = Num (PyFloat f).
Proof.
  intros Hh Hd Hx. rewrite <-Hh, Hd in Hx.
  apply list_elem_of_fmap in Hx as (y & -> & Hy).
  destruct (dtype_of_Float64 _ _ Hd Hy) as [n ->]. by eexists.
Qed.

(** The column [c] of a frame that [read_csv] returns. *)
Lemma read_csv_column {A} (fs : filesystem) path usecols (row : (string -> cell) -> A)
    (t : list A) (col : A -> cell) (c : string) :
  (forall get, col (row get) = get c) ->
  read_csv fs path usecols row = Ok t ->
  exists f, fs !! path = Some f
    /\ col <$> t = as_dtype (dtype_of (file_column f c)) <$> file_column f c.
Proof.
  intros Hcol. unfold read_csv. destruct (fs !! path) as [f|]; [|done].
  destruct (forallb _ usecols); [|done]. intros [= <-]. exists f. split; [done|].
  unfold file_column. rewrite <-!list_fmap_compose.
  apply list_fmap_ext. intros _ line _. simpl. by rewrite Hcol.
Qed.

Lemma read_csv_held {A} (fs : filesystem) path usecols (row : (string -> cell) -> A)
    (t : list A) (col : A -> cell) (c : string) :
  (forall get, col (row get) = get c) ->
  read_csv fs path usecols row = Ok t ->
  held_in_dtype (col <$> t).
Proof.
  intros Hcol Hread.
  destruct (read_csv_column fs path usecols row t col c Hcol Hread) as (f & _ & ->).
  apply as_read_held.
Qed.

Lemma read_csv_key_dtype {A} (fs : filesystem) path usecols (row : (string -> cell) -> A)
    (t : list A) (col : A -> cell) :
  (forall get, col (row get) = get "_link_main") ->
  read_csv fs path usecols row = Ok t ->
  dtype_of (col <$> t) = key_dtype fs path.
Proof.
  intros Hcol Hread.
  destruct (read_csv_column fs path usecols row t col _ Hcol Hread) as (f & Hf & ->).
  unfold key_dtype. rewrite Hf. apply dtype_of_as_dtype.
Qed.

(** *** Keys, as pandas compares them *)

Lemma int_of_float_key (f : float) : int_of_float (float_key f) = int_of_float f.
Proof. by destruct f. Qed.

Lemma py_key_int_inj (z1 z2 : Z) : py_key (PyInt z1) = py_key (PyInt z2) -> z1 = z2.
Proof.
  unfold py_key. repeat case_bool_decide; intros [= Heq]; try done.
  apply (f_equal int_of_float) in Heq. rewrite !int_of_float_key in Heq. congruence.
Qed.

(** Keys that their own column tells apart, or not, and the join: rows
    that [drop_duplicates] takes for one key are one key for the join; *)
Lemma own_key_join_key (dl : dtype) (col : list cell) (x y : cell) :
  held_in_dtype col -> x ∈ col -> y ∈ col ->
  key_of (dtype_of col) x = key_of (dtype_of col) y ->
  key_of (common_dtype dl (dtype_of col)) x = key_of (common_dtype dl (dtype_of col)) y.
Proof.
  intros Hh Hx Hy. destruct (dtype_of col) eqn:Hd.
  - simpl. by intros ->.
  - destruct (held_Float64 _ _ Hh Hd Hx) as [f ->], (held_Float64 _ _ Hh Hd Hy) as [g ->].
    by destruct dl.
  - by destruct dl.
Qed.

(** and rows that it tells apart are distinct keys for the join, unless the
    join rounds them. *)
Lemma join_key_own_key (dl : dtype) (col : list cell) (x y : cell) :
  exact_join dl (dtype_of col) ->
  held_in_dtype col -> x ∈ col -> y ∈ col ->
  key_of (common_dtype dl (dtype_of col)) x = key_of (common_dtype dl (dtype_of col)) y ->
  key_of (dtype_of col) x = key_of (dtype_of col) y.
Proof.
  intros Hex Hh Hx Hy. destruct (dtype_of col) eqn:Hd.
  - destruct (dtype_of_Int64 _ _ Hd Hx) as [z1 ->], (dtype_of_Int64 _ _ Hd Hy) as [z2 ->].
    destruct dl; simpl.
    + done.
    + by destruct Hex.
    + intros [= Heq%py_key_int_inj]. by rewrite Heq.
  - destruct (held_Float64 _ _ Hh Hd Hx) as [f ->], (held_Float64 _ _ Hh Hd Hy) as [g ->].
    by destruct dl.
  - by destruct dl.
Qed.

Lemma NoDup_fmap_eq {A B} (f : A -> B) (l : list A) (x y : A) :
  NoDup (f <$> l) -> x ∈ l -> y ∈ l -> f x = f y -> x = y.
Proof.
  induction l as [|a l IH]; [by intros _ ?%elem_of_nil|].
  rewrite fmap_cons. intros [Hnotin Hnd]%list.NoDup_cons.
  intros [->|Hx]%elem_of_cons [->|Hy]%elem_of_cons Heq; [done| | |by apply IH].
  - destruct Hnotin. rewrite Heq. by apply list_elem_of_fmap_2.
  - destruct Hnotin. rewrite <-Heq. by apply list_elem_of_fmap_2.
Qed.

Lemma pd_drop_duplicates_sublist {A} (key : A -> cell) (df : list A) :
  pd_drop_duplicates key df `sublist_of` df.
Proof. apply drop_duplicates_from_sublist. Qed.

Lemma pd_drop_duplicates_elem {A} (key : A -> cell) (df : list A) (r : A) :
  r ∈ pd_drop_duplicates key df -> r ∈ df.
Proof. intros Hr. eapply elem_of_sublist; [done|]. apply pd_drop_duplicates_sublist. Qed.

(** A deduplicated table has one row per key of the join, unless the join
    rounds its keys. *)
Lemma join_keys_NoDup {A} (key : A -> cell) (dl : dtype) (df : list A) :
  held_in_dtype (key <$> df) ->
  exact_join dl (dtype_of (key <$> df)) ->
  NoDup ((fun r => key_of (common_dtype dl (dtype_of (key <$> df))) (key r))
           <$> pd_drop_duplicates key df).
Proof.
  intros Hh Hex.
  pose proof (drop_duplicates_NoDup (fun r => key_of (dtype_of (key <$> df)) (key r)) df) as Hnd.
  fold (pd_drop_duplicates key df) in Hnd.
  apply NoDup_fmap_2_strong; [|by eapply NoDup_fmap_1].
  intros x y Hx Hy Heq.
  apply (NoDup_fmap_eq _ _ x y Hnd Hx Hy).
  apply (join_key_own_key dl (key <$> df)); try done.
  - apply list_elem_of_fmap_2. by apply pd_drop_duplicates_elem in Hx.
  - apply list_elem_of_fmap_2. by apply pd_drop_duplicates_elem in Hy.
Qed.

Lemma drop_duplicates_from_fmap {A B} (f : B -> cell) (g : A -> B) (seen : gset cell)
    (df : list A) :
  drop_duplicates_from f seen (g <$> df)
  = g <$> drop_duplicates_from (fun r => f (g r)) seen df.
Proof.
  revert seen. induction df as [|r df IH]; intros seen; simpl; [done|].
  case_decide; [apply IH|]. by rewrite fmap_cons, IH.
Qed.

(** The key column of a deduplicated frame is the key column,
    deduplicated. *)
Lemma pd_drop_duplicates_keys {A} (key : A -> cell) (df : list A) :
  key <$> pd_drop_duplicates key df = pd_drop_duplicates id (key <$> df).
Proof.
  unfold pd_drop_duplicates, drop_duplicates.
  rewrite list_fmap_id. symmetry. apply drop_duplicates_from_fmap.
Qed.

Lemma pd_drop_duplicates_fmap {A} (key : A -> cell) (g : A -> A) (df : list A) :
  (forall r, key (g r) = key r) ->
  pd_drop_duplicates key (g <$> df) = g <$> pd_drop_duplicates key df.
Proof.
  intros Hg. unfold pd_drop_duplicates, drop_duplicates.
  rewrite drop_duplicates_from_fmap, <-list_fmap_compose.
  assert (key ∘ g <$> df = key <$> df) as -> by (apply list_fmap_ext; intros; apply Hg).
  f_equal. revert Hg. generalize (dtype_of (key <$> df)) as d. intros d Hg.
  generalize (∅ : gset cell) as seen.
  induction df as [|r df IH]; intros seen; simpl; [done|].
  rewrite Hg. case_decide; [apply IH|]. by rewrite IH.
Qed.

(** *** Joins *)

Lemma filter_fmap {A B} (f : A -> B) (P : B -> Prop) `{forall y, Decision (P y)}
    (l : list A) :
  filter P (f <$> l) = f <$> filter (fun x => P (f x)) l.
Proof.
  induction l as [|x l IH]; [done|]. rewrite fmap_cons.
  destruct (decide (P (f x))).
  - by rewrite !filter_cons_True, fmap_cons, IH.
  - by rewrite !filter_cons_False.
Qed.

Lemma matches_length {L R} (left_on : L -> cell) (right_on : R -> cell) (l : L)
    (right : list R) :
  length (matches left_on right_on l right)
  = length (filter (fun k => k = left_on l) (right_on <$> right)).
Proof. unfold matches. by rewrite filter_fmap, length_fmap. Qed.

Lemma merge_inner_pairs {L R O} (left_on : L -> cell) (right_on : R -> cell)
    (join : L -> R -> O) (left : list L) (right : list R) :
  length (merge_inner left_on right_on join left right)
  = length (filter (fun p => right_on p.2 = left_on p.1) (pairs left right)).
Proof.
  unfold merge_inner, pairs. induction left as [|l left IH]; [done|].
  rewrite !bind_cons, list.filter_app, !length_app, IH. f_equal.
  unfold matches. by rewrite filter_fmap, !length_fmap.
Qed.

(** The left rows of a left join: each is kept, as often as it finds a
    match and once when it finds none; so two left joins of one left table
    with right tables of the same keys keep the same left rows. *)
Lemma merge_left_base {L R R' O O'} (left_on : L -> cell)
    (right_on : R -> cell) (right_on' : R' -> cell)
    (join : L -> option R -> O) (join' : L -> option R' -> O')
    (base : O -> L) (base' : O' -> L) (left : list L) (right : list R) (right' : list R') :
  (forall l x, base (join l x) = l) ->
  (forall l x, base' (join' l x) = l) ->
  right_on <$> right = right_on' <$> right' ->
  base <$> merge_left left_on right_on join left right
  = base' <$> merge_left left_on right_on' join' left right'.
Proof.
  intros Hb Hb' Hkeys. unfold merge_left.
  induction left as [|l left IH]; [done|].
  rewrite !bind_cons, !fmap_app, IH. f_equal.
  pose proof (matches_length left_on right_on l right) as H1.
  pose proof (matches_length left_on right_on' l right') as H2.
  rewrite Hkeys, <-H2 in H1.
  destruct (matches left_on right_on l right) as [|r rs],
    (matches left_on right_on' l right') as [|r' rs']; try done.
  - by rewrite !fmap_cons, !fmap_nil, Hb, Hb'.
  - rewrite <-!list_fmap_compose.
    rewrite (const_fmap (base ∘ (fun r0 => join l (Some r0))) (r :: rs) l) by (intros; apply Hb).
    rewrite (const_fmap (base' ∘ (fun r0 => join' l (Some r0))) (r' :: rs') l)
      by (intros; apply Hb').
    by rewrite H1.
Qed.

Section Joins.
Context {L R O : Type} (d : dtype) (left_on : L -> cell) (right_on : R -> cell).

Lemma inner_join_elem (join : L -> R -> O) (left : list L) (right : list R) (o : O) :
  o ∈ inner_join d left_on right_on join left right
  <-> exists l r, l ∈ left /\ r ∈ right /\ same_key d (right_on r) (left_on l) /\ o = join l r.
Proof. apply merge_inner_elem. Qed.

Lemma inner_join_length (join : L -> R -> O) (left : list L) (right : list R) :
  length (inner_join d left_on right_on join left right)
  = length (filter (fun p => same_key d (right_on p.2) (left_on p.1)) (pairs left right)).
Proof.
  unfold inner_join. rewrite merge_inner_pairs.
  apply (f_equal length), list_filter_iff. done.
Qed.

(** The right table of a left join, its columns promoted or not. *)
Lemma left_join_right (join : L -> option R -> O) (promote : R -> R)
    (left : list L) (right : list R) :
  exists right',
    left_join d left_on right_on join promote left right
    = merge_left (fun l => key_of d (left_on l)) (fun r => key_of d (right_on r))
        join left right'
    /\ (right' = right \/ right' = promote <$> right).
Proof. unfold left_join. destruct (forallb _ left); eexists; eauto. Qed.

Context (join : L -> option R -> O) (promote : R -> R).
Hypothesis promote_key : forall r, right_on (promote r) = right_on r.

Lemma left_join_right_keys (right' right : list R) :
  right' = right \/ right' = promote <$> right ->
  (fun r => key_of d (right_on r)) <$> right' = (fun r => key_of d (right_on r)) <$> right.
Proof.
  intros [->| ->]; [done|]. rewrite <-list_fmap_compose.
  apply list_fmap_ext. intros _ r _. simpl. by rewrite promote_key.
Qed.

Lemma left_join_elem (left : list L) (right : list R) (o : O) :
  o ∈ left_join d left_on right_on join promote left right ->
  exists l, l ∈ left
    /\ (((forall r, r ∈ right -> ~ same_key d (right_on r) (left_on l)) /\ o = join l None)
        \/ (exists r, r ∈ right /\ same_key d (right_on r) (left_on l)
              /\ (o = join l (Some r) \/ o = join l (Some (promote r))))).
Proof.
  destruct (left_join_right join promote left right) as (right' & -> & Hright).
  intros (l & Hl & Ho)%merge_left_elem. exists l. split; [done|].
  destruct Hright as [->| ->].
  - destruct Ho as [[Hnone ->]|(r & Hr & Hk & ->)].
    + left. split; [|done]. intros r Hr Hk. by apply (Hnone r).
    + right. exists r. eauto.
  - destruct Ho as [[Hnone ->]|(r' & Hr' & Hk & ->)].
    + left. split; [|done]. intros r Hr Hk. apply (Hnone (promote r)).
      * by apply list_elem_of_fmap_2.
      * by rewrite promote_key.
    + apply list_elem_of_fmap in Hr' as (r & -> & Hr). rewrite promote_key in Hk.
      right. exists r. eauto.
Qed.

Context (base : O -> L).
Hypothesis base_join : forall l x, base (join l x) = l.

Lemma left_join_covers (left : list L) (right : list R) (l : L) :
  l ∈ left ->
  exists o, o ∈ left_join d left_on right_on join promote left right /\ base o = l.
Proof.
  intros Hl. destruct (left_join_right join promote left right) as (right' & -> & _).
  destruct (merge_left_covers (fun l => key_of d (left_on l)) (fun r => key_of d (right_on r))
              join left right' l Hl) as [p Hp].
  exists (join l p). by rewrite base_join.
Qed.

Lemma left_join_length (left : list L) (right : list R) :
  (length left <= length (left_join d left_on right_on join promote left right))%nat.
Proof.
  destruct (left_join_right join promote left right) as (right' & -> & _).
  apply merge_left_length.
Qed.

(** Against a right table with one row per key, a left join keeps every
    left row exactly once. *)
Lemma left_join_unique (left : list L) (right : list R) :
  NoDup ((fun r => key_of d (right_on r)) <$> right) ->
  base <$> left_join d left_on right_on join promote left right = left.
Proof.
  intros Hnd. destruct (left_join_right join promote left right) as (right' & -> & Hright).
  rewrite merge_left_unique by (by rewrite (left_join_right_keys right' right)).
  rewrite <-list_fmap_compose. rewrite <-(list_fmap_id left) at 2.
  apply list_fmap_ext. intros _ l _. apply base_join.
Qed.

End Joins.

(** Two left joins of one left table with right tables of the same keys
    keep the same left rows. *)
Lemma left_join_same_base {L R R' O O'} (d : dtype) (left_on : L -> cell)
    (right_on : R -> cell) (right_on' : R' -> cell)
    (join : L -> option R -> O) (join' : L -> option R' -> O')
    (promote : R -> R) (promote' : R' -> R')
    (base : O -> L) (base' : O' -> L) (left : list L) (right : list R) (right' : list R') :
  (forall r, right_on (promote r) = right_on r) ->
  (forall r, right_on' (promote' r) = right_on' r) ->
  (forall l x, base (join l x) = l) ->
  (forall l x, base' (join' l x) = l) ->
  right_on <$> right = right_on' <$> right' ->
  base <$> left_join d left_on right_on join promote left right
  = base' <$> left_join d left_on right_on' join' promote' left right'.
Proof.
  intros Hp Hp' Hb Hb' Hkeys.
  destruct (left_join_right d left_on right_on join promote left right) as (r1 & -> & H1).
  destruct (left_join_right d left_on right_on' join' promote' left right') as (r2 & -> & H2).
  apply merge_left_base; [done..|].
  rewrite (left_join_right_keys d right_on promote Hp r1 right H1).
  rewrite (left_join_right_keys d right_on' promote' Hp' r2 right' H2).
  by rewrite (list_fmap_compose right_on (key_of d)), Hkeys, <-list_fmap_compose.
Qed.

Lemma promote_cell_promoted (col : list cell) (x : cell) : promoted x (promote_cell col x).
Proof.
  unfold promoted, promote_cell. destruct (dtype_of col); [|by left..].
  destruct x as [[z|f]|s]; [|by left..]. right. by exists z.
Qed.

Lemma promoted_refl (x : cell) : promoted x x.
Proof. by left. Qed.

(** *** What the three loaders return *)

Lemma str_method_Ok (f : string -> string) (s : list cell) :
  names_are_strings s = true ->
  str_method f s = Ok ((fun x => match x with Str t => Str (f t) | Num _ => NaN end) <$> s).
Proof. unfold str_method, names_are_strings. by intros ->. Qed.

Lemma str_method_Raise (f : string -> string) (s : list cell) :
  names_are_strings s = false -> exists e, str_method f s = Raise e.
Proof. unfold str_method, names_are_strings. intros ->. by eexists. Qed.

Lemma names_are_strings_fmap (f : string -> string) (s : list cell) :
  names_are_strings ((fun x => match x with Str t => Str (f t) | Num _ => NaN end) <$> s)
  = names_are_strings s.
Proof.
  unfold names_are_strings. destruct s as [|x s]; [done|].
  rewrite !bool_decide_eq_false_2 by done. simpl.
  f_equal; [by destruct x|].
  induction s as [|y s IH]; [done|]. simpl. rewrite IH. by destruct y.
Qed.

Lemma zip_with_set_name (suppliers : list V2.Suppliers.row) :
  zip_with V2.Suppliers.set_name suppliers
    ((fun x => match x with Str t => Str (Py.upper t) | Num _ => NaN end) <$>
       ((fun x => match x with Str t => Str (Py.strip t) | Num _ => NaN end) <$>
          (V2.Suppliers.name <$> suppliers)))
  = (fun s => V2.Suppliers.set_name s (normalize_name (V2.Suppliers.name s))) <$> suppliers.
Proof.
  rewrite <-!list_fmap_compose, zip_with_fmap_r, zip_with_diag.
  apply list_fmap_ext. intros _ s _. simpl. by destruct (V2.Suppliers.name s).
Qed.

Lemma V2_suppliers_named (suppliers : list V2.Suppliers.row) :
  V2_suppliers suppliers
  = (fun s => V2.Suppliers.set_name s (normalize_name (V2.Suppliers.name s)))
      <$> pd_drop_duplicates V2.Suppliers._link_main suppliers.
Proof. unfold V2_suppliers. by apply pd_drop_duplicates_fmap. Qed.

Lemma V2_suppliers_keys (suppliers : list V2.Suppliers.row) :
  V2.Suppliers._link_main <$> V2_suppliers suppliers
  = pd_drop_duplicates id (V2.Suppliers._link_main <$> suppliers).
Proof.
  rewrite V2_suppliers_named, <-list_fmap_compose.
  apply (pd_drop_duplicates_keys V2.Suppliers._link_main).
Qed.

Lemma V1_load_and_merge_eq fs main awards :
  read_csv fs MAIN_FILE Main.usecols Main.of_csv = Ok main ->
  read_csv fs AWARDS_FILE Awards.usecols Awards.of_csv = Ok awards ->
  V1.load_and_merge fs
  = if award_keys_accepted main awards then Some (linked_rows main awards) else None.
Proof.
  intros Hm Ha. unfold V1.load_and_merge. rewrite Hm. simpl. rewrite Ha. simpl.
  unfold pd_merge_inner. fold (award_keys awards).
  change (merge_keys_ok _ _ _ _) with (award_keys_accepted main awards).
  by destruct (award_keys_accepted main awards).
Qed.

Lemma V2_load_and_merge_eq fs main awards contracts suppliers :
  read_csv fs MAIN_FILE Main.usecols Main.of_csv = Ok main ->
  read_csv fs AWARDS_FILE Awards.usecols Awards.of_csv = Ok awards ->
  read_csv fs CONTRACTS_FILE Contracts.usecols Contracts.of_csv = Ok contracts ->
  read_csv fs SUPPLIERS_FILE V2.Suppliers.usecols V2.Suppliers.of_csv = Ok suppliers ->
  V2.load_and_merge_v2 fs
  = if V2_accepted main awards contracts suppliers
    then Some (V2_rows main awards contracts suppliers) else None.
Proof.
  intros Hm Ha Hc Hs. unfold V2.load_and_merge_v2, V2_accepted.
  rewrite Hm. simpl. rewrite Ha. simpl. rewrite Hc. simpl. rewrite Hs. simpl.
  destruct (names_are_strings (V2.Suppliers.name <$> suppliers)) eqn:Hn.
  - rewrite (str_method_Ok Py.strip) by done. simpl.
    rewrite (str_method_Ok Py.upper) by (by rewrite names_are_strings_fmap). simpl.
    rewrite zip_with_set_name. fold (V2_suppliers suppliers).
    unfold pd_merge_inner. fold (award_keys awards).
    change (merge_keys_ok _ _ _ _) with (award_keys_accepted main awards).
    destruct (award_keys_accepted main awards); [|done]. simpl.
    fold (link_dtype main awards). fold (linked_rows main awards).
    unfold pd_merge_left.
    change (merge_keys_ok (Linked._link_main <$> _) _ _ _)
      with (contract_keys_accepted main awards contracts).
    destruct (contract_keys_accepted main awards contracts); [|done]. simpl.
    fold (contract_dtype awards contracts). fold (timed_rows main awards contracts).
    rewrite V2_suppliers_keys.
    change (merge_keys_ok _ _ _ _)
      with (supplier_keys_accepted main awards contracts (V2.Suppliers._link_main <$> suppliers)).
    by destruct (supplier_keys_accepted _ _ _ _).
  - destruct (str_method_Raise Py.strip _ Hn) as [e ->]. done.
Qed.

Lemma V3_load_and_merge_eq fs main awards contracts suppliers :
  read_csv fs MAIN_FILE Main.usecols Main.of_csv = Ok main ->
  read_csv fs AWARDS_FILE Awards.usecols Awards.of_csv = Ok awards ->
  read_csv fs CONTRACTS_FILE Contracts.usecols Contracts.of_csv = Ok contracts ->
  read_csv fs SUPPLIERS_FILE V3.Suppliers.usecols V3.Suppliers.of_csv = Ok suppliers ->
  V3.load_and_merge_v3 fs
  = if V3_accepted main awards contracts suppliers
    then Some (V3_rows main awards contracts suppliers) else None.
Proof.
  intros Hm Ha Hc Hs. unfold V3.load_and_merge_v3, V3_accepted.
  rewrite Hm. simpl. rewrite Ha. simpl. rewrite Hc. simpl. rewrite Hs. simpl.
  unfold pd_merge_inner. fold (award_keys awards).
  change (merge_keys_ok _ _ _ _) with (award_keys_accepted main awards).
  destruct (award_keys_accepted main awards); [|done]. simpl.
  fold (link_dtype main awards). fold (linked_rows main awards).
  unfold pd_merge_left.
  change (merge_keys_ok (Linked._link_main <$> _) _ _ _)
    with (contract_keys_accepted main awards contracts).
  destruct (contract_keys_accepted main awards contracts); [|done]. simpl.
  fold (contract_dtype awards contracts). fold (timed_rows main awards contracts).
  rewrite (pd_drop_duplicates_keys V3.Suppliers._link_main).
  change (merge_keys_ok _ _ _ _)
    with (supplier_keys_accepted main awards contracts (V3.Suppliers._link_main <$> suppliers)).
  by destruct (supplier_keys_accepted _ _ _ _).
Qed.

Lemma V1_load_and_merge_Some fs df :
  V1.load_and_merge fs = Some df ->
  exists main awards,
    read_csv fs MAIN_FILE Main.usecols Main.of_csv = Ok main
    /\ read_csv fs AWARDS_FILE Awards.usecols Awards.of_csv = Ok awards
    /\ award_keys_accepted main awards = true
    /\ df = linked_rows main awards.
Proof.
  intros Hload.
  destruct (read_csv fs MAIN_FILE Main.usecols Main.of_csv) as [main|e] eqn:Hm;
    [|by (unfold V1.load_and_merge in Hload; rewrite Hm in Hload; simpl in Hload; destruct e)].
  destruct (read_csv fs AWARDS_FILE Awards.usecols Awards.of_csv) as [awards|e] eqn:Ha;
    [|by (unfold V1.load_and_merge in Hload; rewrite Hm in Hload; simpl in Hload;
         rewrite Ha in Hload; simpl in Hload; destruct e)].
  rewrite (V1_load_and_merge_eq fs main awards Hm Ha) in Hload.
  destruct (award_keys_accepted main awards) eqn:Hacc; [|done].
  injection Hload as <-. by exists main, awards.
Qed.

Lemma V2_load_and_merge_Some fs df :
  V2.load_and_merge_v2 fs = Some df ->
  exists main awards contracts suppliers,
    read_csv fs MAIN_FILE Main.usecols Main.of_csv = Ok main
    /\ read_csv fs AWARDS_FILE Awards.usecols Awards.of_csv = Ok awards
    /\ read_csv fs CONTRACTS_FILE Contracts.usecols Contracts.of_csv = Ok contracts
    /\ read_csv fs SUPPLIERS_FILE V2.Suppliers.usecols V2.Suppliers.of_csv = Ok suppliers
    /\ V2_accepted main awards contracts suppliers = true
    /\ df = V2_rows main awards contracts suppliers.
Proof.
  intros Hload.
  destruct (read_csv fs MAIN_FILE Main.usecols Main.of_csv) as [main|e] eqn:Hm;
    [|by (unfold V2.load_and_merge_v2 in Hload; rewrite Hm in Hload)].
  destruct (read_csv fs AWARDS_FILE Awards.usecols Awards.of_csv) as [awards|e] eqn:Ha;
    [|by (unfold V2.load_and_merge_v2 in Hload; rewrite Hm in Hload; simpl in Hload;
         rewrite Ha in Hload)].
  destruct (read_csv fs CONTRACTS_FILE Contracts.usecols Contracts.of_csv)
    as [contracts|e] eqn:Hc;
    [|by (unfold V2.load_and_merge_v2 in Hload; rewrite Hm in Hload; simpl in Hload;
         rewrite Ha in Hload; simpl in Hload; rewrite Hc in Hload)].
  destruct (read_csv fs SUPPLIERS_FILE V2.Suppliers.usecols V2.Suppliers.of_csv)
    as [suppliers|e] eqn:Hs;
    [|by (unfold V2.load_and_merge_v2 in Hload; rewrite Hm in Hload; simpl in Hload;
         rewrite Ha in Hload; simpl in Hload; rewrite Hc in Hload; simpl in Hload;
         rewrite Hs in Hload)].
  rewrite (V2_load_and_merge_eq fs main awards contracts suppliers Hm Ha Hc Hs) in Hload.
  destruct (V2_accepted main awards contracts suppliers) eqn:Hacc; [|done].
  injection Hload as <-. by exists main, awards, contracts, suppliers.
Qed.

Lemma V3_load_and_merge_Some fs df :
  V3.load_and_merge_v3 fs = Some df ->
  exists main awards contracts suppliers,
    read_csv fs MAIN_FILE Main.usecols Main.of_csv = Ok main
    /\ read_csv fs AWARDS_FILE Awards.usecols Awards.of_csv = Ok awards
    /\ read_csv fs CONTRACTS_FILE Contracts.usecols Contracts.of_csv = Ok contracts
    /\ read_csv fs SUPPLIERS_FILE V3.Suppliers.usecols V3.Suppliers.of_csv = Ok suppliers
    /\ V3_accepted main awards contracts suppliers = true
    /\ df = V3_rows main awards contracts suppliers.
Proof.
  intros Hload.
  destruct (read_csv fs MAIN_FILE Main.usecols Main.of_csv) as [main|e] eqn:Hm;
    [|by (unfold V3.load_and_merge_v3 in Hload; rewrite Hm in Hload)].
  destruct (read_csv fs AWARDS_FILE Awards.usecols Awards.of_csv) as [awards|e] eqn:Ha;
    [|by (unfold V3.load_and_merge_v3 in Hload; rewrite Hm in Hload; simpl in Hload;
         rewrite Ha in Hload)].
  destruct (read_csv fs CONTRACTS_FILE Contracts.usecols Contracts.of_csv)
    as [contracts|e] eqn:Hc;
    [|by (unfold V3.load_and_merge_v3 in Hload; rewrite Hm in Hload; simpl in Hload;
         rewrite Ha in Hload; simpl in Hload; rewrite Hc in Hload)].
  destruct (read_csv fs SUPPLIERS_FILE V3.Suppliers.usecols V3.Suppliers.of_csv)
    as [suppliers|e] eqn:Hs;
    [|by (unfold V3.load_and_merge_v3 in Hload; rewrite Hm in Hload; simpl in Hload;
         rewrite Ha in Hload; simpl in Hload; rewrite Hc in Hload; simpl in Hload;
         rewrite Hs in Hload)].
  rewrite (V3_load_and_merge_eq fs main awards contracts suppliers Hm Ha Hc Hs) in Hload.
  destruct (V3_accepted main awards contracts suppliers) eqn:Hacc; [|done].
  injection Hload as <-. by exists main, awards, contracts, suppliers.
Qed.

(** *** The linked records *)

Lemma inner_joined_linked_rows (main : list Main.row) (awards : list Awards.row) :
  inner_joined main awards (linked_rows main awards).
Proof.
  split; [|split].
  - intros r. apply inner_join_elem.
  - intros r (m & a & Hm & Ha & Hk & ->)%inner_join_elem.
    exists a. split; [by eapply pd_drop_duplicates_elem|done].
  - apply inner_join_length.
Qed.

Lemma Contracts_promote_key (df : list Contracts.row) (c : Contracts.row) :
  Contracts._link_main (Contracts.promote df c) = Contracts._link_main c.
Proof. done. Qed.

Lemma V3_Suppliers_promote_key (df : list V3.Suppliers.row) (s : V3.Suppliers.row) :
  V3.Suppliers._link_main (V3.Suppliers.promote df s) = V3.Suppliers._link_main s.
Proof. done. Qed.

(** The rows that the join with the contracts makes of the linked rows. *)
Lemma timed_rows_elem main awards contracts (t : Timed.row) :
  t ∈ timed_rows main awards contracts ->
  Timed.linked t ∈ linked_rows main awards
  /\ timing_attached (contract_dtype awards contracts)
       (pd_drop_duplicates Contracts._link_main contracts)
       (Timed._link_main t) (Timed.dateSigned t) (Timed.period_startDate t).
Proof.
  intros (l & Hl & Ht)%(left_join_elem _ _ _ _ _ (Contracts_promote_key contracts)).
  destruct Ht as [[Hnone ->]|(c & Hc & Hk & [->| ->])].
  - split; [done|]. by left.
  - split; [done|]. right. exists c. repeat split; try done; apply promoted_refl.
  - split; [done|]. right. exists c. repeat split; try done; apply promote_cell_promoted.
Qed.

Lemma timed_rows_covers main awards contracts (l : Linked.row) :
  l ∈ linked_rows main awards ->
  exists t, t ∈ timed_rows main awards contracts /\ Timed.linked t = l.
Proof. by apply left_join_covers. Qed.

Lemma timed_rows_length main awards contracts :
  (length (linked_rows main awards) <= length (timed_rows main awards contracts))%nat.
Proof. apply left_join_length. Qed.

Lemma timed_rows_exact main awards contracts :
  held_in_dtype (Contracts._link_main <$> contracts) ->
  exact_join (award_keys awards) (dtype_of (Contracts._link_main <$> contracts)) ->
  Timed.linked <$> timed_rows main awards contracts = linked_rows main awards.
Proof.
  intros Hh Hex. apply left_join_unique; [done..|].
  by apply (join_keys_NoDup Contracts._link_main).
Qed.

Lemma V2_rows_elem main awards contracts suppliers (r : V2.Merged.row) :
  r ∈ V2_rows main awards contracts suppliers ->
  V2.Merged.timed r ∈ timed_rows main awards contracts
  /\ V2_supplier_attached (V2_supplier_dtype awards suppliers)
       (pd_drop_duplicates V2.Suppliers._link_main suppliers)
       (V2.Merged._link_main r) (V2.Merged.name r).
Proof.
  intros (t & Ht & Hr)%(left_join_elem _ _ _ _ id (fun _ => eq_refl)).
  rewrite V2_suppliers_named in Hr.
  destruct Hr as [[Hnone ->]|(s' & Hs' & Hk & Hr)].
  - split; [done|]. left. split; [|done]. intros s Hs.
    apply (Hnone (V2.Suppliers.set_name s (normalize_name (V2.Suppliers.name s)))).
    by apply (list_elem_of_fmap_2
                (fun s => V2.Suppliers.set_name s (normalize_name (V2.Suppliers.name s)))).
  - assert (r = V2.Merged.join t (Some s')) as -> by (by destruct Hr).
    apply list_elem_of_fmap in Hs' as (s & -> & Hs).
    split; [done|]. right. by exists s.
Qed.

Lemma V3_rows_elem main awards contracts suppliers (r : V3.Merged.row) :
  r ∈ V3_rows main awards contracts suppliers ->
  V3.Merged.timed r ∈ timed_rows main awards contracts
  /\ V3_supplier_attached (V3_supplier_dtype awards suppliers)
       (pd_drop_duplicates V3.Suppliers._link_main suppliers)
       (V3.Merged._link_main r) (V3.Merged.supplier_id r) (V3.Merged.name r).
Proof.
  intros (t & Ht & Hr)%(left_join_elem _ _ _ _ _ (V3_Suppliers_promote_key suppliers)).
  destruct Hr as [[Hnone ->]|(s & Hs & Hk & [->| ->])].
  - split; [done|]. by left.
  - split; [done|]. right. exists s. repeat split; try done; apply promoted_refl.
  - split; [done|]. right. exists s. repeat split; try done; apply promote_cell_promoted.
Qed.

Lemma V2_rows_covers main awards contracts suppliers (l : Linked.row) :
  l ∈ linked_rows main awards ->
  exists r, r ∈ V2_rows main awards contracts suppliers
            /\ Timed.linked (V2.Merged.timed r) = l.
Proof.
  intros (t & Ht & <-)%(timed_rows_covers main awards contracts).
  destruct (left_join_covers (V2_supplier_dtype awards suppliers) Timed._link_main
              V2.Suppliers._link_main V2.Merged.join id V2.Merged.timed (fun _ _ => eq_refl)
              (timed_rows main awards contracts) (V2_suppliers suppliers) t Ht)
    as (r & Hr & <-).
  by exists r.
Qed.

Lemma V3_rows_covers main awards contracts suppliers (l : Linked.row) :
  l ∈ linked_rows main awards ->
  exists r, r ∈ V3_rows main awards contracts suppliers
            /\ Timed.linked (V3.Merged.timed r) = l.
Proof.
  intros (t & Ht & <-)%(timed_rows_covers main awards contracts).
  destruct (left_join_covers (V3_supplier_dtype awards suppliers) Timed._link_main
              V3.Suppliers._link_main V3.Merged.join (V3.Suppliers.promote suppliers)
              V3.Merged.timed (fun _ _ => eq_refl)
              (timed_rows main awards contracts)
              (pd_drop_duplicates V3.Suppliers._link_main suppliers) t Ht)
    as (r & Hr & <-).
  by exists r.
Qed.

Lemma V2_rows_length main awards contracts suppliers :
  (length (linked_rows main awards) <= length (V2_rows main awards contracts suppliers))%nat.
Proof.
  etrans; [apply (timed_rows_length main awards contracts)|]. apply left_join_length.
Qed.

Lemma V3_rows_length main awards contracts suppliers :
  (length (linked_rows main awards) <= length (V3_rows main awards contracts suppliers))%nat.
Proof.
  etrans; [apply (timed_rows_length main awards contracts)|]. apply left_join_length.
Qed.

Lemma V2_rows_timed_exact main awards contracts suppliers :
  held_in_dtype (V2.Suppliers._link_main <$> suppliers) ->
  exact_join (award_keys awards) (dtype_of (V2.Suppliers._link_main <$> suppliers)) ->
  V2.Merged.timed <$> V2_rows main awards contracts suppliers
  = timed_rows main awards contracts.
Proof.
  intros Hh Hex. apply left_join_unique; [done..|].
  rewrite V2_suppliers_named, <-list_fmap_compose.
  by apply (join_keys_NoDup V2.Suppliers._link_main).
Qed.

Lemma V3_rows_timed_exact main awards contracts suppliers :
  held_in_dtype (V3.Suppliers._link_main <$> suppliers) ->
  exact_join (award_keys awards) (dtype_of (V3.Suppliers._link_main <$> suppliers)) ->
  V3.Merged.timed <$> V3_rows main awards contracts suppliers
  = timed_rows main awards contracts.
Proof.
  intros Hh Hex. apply left_join_unique; [done..|].
  by apply (join_keys_NoDup V3.Suppliers._link_main).
Qed.

Lemma V2_rows_exact main awards contracts suppliers :
  held_in_dtype (Contracts._link_main <$> contracts) ->
  held_in_dtype (V2.Suppliers._link_main <$> suppliers) ->
  exact_join (award_keys awards) (dtype_of (Contracts._link_main <$> contracts)) ->
  exact_join (award_keys awards) (dtype_of (V2.Suppliers._link_main <$> suppliers)) ->
  (fun r => Timed.linked (V2.Merged.timed r)) <$> V2_rows main awards contracts suppliers
  = linked_rows main awards.
Proof.
  intros Hc Hs Hexc Hexs.
  rewrite (list_fmap_compose V2.Merged.timed Timed.linked).
  rewrite V2_rows_timed_exact by done. by apply timed_rows_exact.
Qed.

Lemma V3_rows_exact main awards contracts suppliers :
  held_in_dtype (Contracts._link_main <$> contracts) ->
  held_in_dtype (V3.Suppliers._link_main <$> suppliers) ->
  exact_join (award_keys awards) (dtype_of (Contracts._link_main <$> contracts)) ->
  exact_join (award_keys awards) (dtype_of (V3.Suppliers._link_main <$> suppliers)) ->
  (fun r => Timed.linked (V3.Merged.timed r)) <$> V3_rows main awards contracts suppliers
  = linked_rows main awards.
Proof.
  intros Hc Hs Hexc Hexs.
  rewrite (list_fmap_compose V3.Merged.timed Timed.linked).
  rewrite V3_rows_timed_exact by done. by apply timed_rows_exact.
Qed.

(** The key columns of the frames that the loaders read are as their dtype
    holds them. *)
Lemma contracts_held fs contracts :
  read_csv fs CONTRACTS_FILE Contracts.usecols Contracts.of_csv = Ok contracts ->
  held_in_dtype (Contracts._link_main <$> contracts).
Proof. by apply (read_csv_held _ _ _ _ _ _ "_link_main"). Qed.

Lemma V2_suppliers_held fs suppliers :
  read_csv fs SUPPLIERS_FILE V2.Suppliers.usecols V2.Suppliers.of_csv = Ok suppliers ->
  held_in_dtype (V2.Suppliers._link_main <$> suppliers).
Proof. by apply (read_csv_held _ _ _ _ _ _ "_link_main"). Qed.

Lemma V3_suppliers_held fs suppliers :
  read_csv fs SUPPLIERS_FILE V3.Suppliers.usecols V3.Suppliers.of_csv = Ok suppliers ->
  held_in_dtype (V3.Suppliers._link_main <$> suppliers).
Proof. by apply (read_csv_held _ _ _ _ _ _ "_link_main"). Qed.



(** ** Series, index by index *)

Lemma int_of_bool_flag (b : bool) : is_flag (int_of_bool b).
Proof. destruct b; [by right|by left]. Qed.

Lemma direct_flag_flag (x : cell) : is_flag (direct_flag x).
Proof. destruct x as [n|s]; simpl; [by left|]. destruct (String.eqb _ _); [by right|by left]. Qed.

Lemma round_flag_flag (x : num) : is_flag (round_flag x).
Proof. unfold round_flag. destruct (_ && _); [by right|by left]. Qed.

Lemma suspicious_timing_flags a b : Forall is_flag (suspicious_timing_of a b).
Proof.
  apply Forall_lookup. intros i x (s & d & -> & _ & _)%lookup_zip_with_Some.
  apply int_of_bool_flag.
Qed.

Lemma new_supplier_direct_deal_flags a b : Forall is_flag (new_supplier_direct_deal_of a b).
Proof.
  apply Forall_lookup. intros i x (c & d & -> & _ & _)%lookup_zip_with_Some.
  apply int_of_bool_flag.
Qed.

Lemma numeric_series_length (l : list num) : length (numeric_series l) = length l.
Proof. unfold numeric_series. destruct (forallb is_int l); [done|apply length_fmap]. Qed.

Lemma risk_score_v1_lookup ds rs cs i d r c :
  ds !! i = Some d -> rs !! i = Some r -> cs !! i = Some c ->
  risk_score_v1 ds rs cs !! i = Some (score_v1 d r c).
Proof.
  intros Hd Hr Hc.
  unfold risk_score_v1, float_plus_int, int_plus_float, int_times_float.
  rewrite !lookup_zip_with, !list_lookup_fmap, Hd, Hr, Hc. done.
Qed.

Lemma risk_score_v2_lookup ds rs ts ns i d r t n :
  ds !! i = Some d -> rs !! i = Some r -> ts !! i = Some t -> ns !! i = Some n ->
  risk_score_v2 ds rs ts ns !! i = Some (score_v2 d r t n).
Proof.
  intros Hd Hr Ht Hn.
  unfold risk_score_v2, float_plus_float, int_times_float.
  rewrite !lookup_zip_with, !list_lookup_fmap, Hd, Hr, Ht, Hn. done.
Qed.

Lemma risk_score_v1_length ds rs cs n :
  length ds = n -> length rs = n -> length cs = n -> length (risk_score_v1 ds rs cs) = n.
Proof.
  intros Hd Hr Hc.
  unfold risk_score_v1, float_plus_int, int_plus_float, int_times_float.
  rewrite !length_zip_with, !length_fmap. lia.
Qed.

Lemma risk_score_v2_length ds rs ts ns n :
  length ds = n -> length rs = n -> length ts = n -> length ns = n ->
  length (risk_score_v2 ds rs ts ns) = n.
Proof.
  intros Hd Hr Ht Hn.
  unfold risk_score_v2, float_plus_float, int_times_float.
  rewrite !length_zip_with, !length_fmap. lia.
Qed.

(** The scores are exact: the floats involved are small multiples of one
    half. *)
Lemma score_v1_exact d r c :
  is_flag d -> is_flag r ->
  exists q, Float.to_Q (score_v1 d r c) = Some q
    /\ (q == 2 * inject_Z d + (3 # 2) * inject_Z r + 1 * inject_Z (int_of_bool (1 <=? c)))%Q
    /\ Float.leb f1_5 (score_v1 d r c) = Qle_bool (3 # 2) q.
Proof.
  unfold score_v1.
  intros [->| ->] [->| ->]; destruct (1 <=? c); eexists;
    (split; [vm_compute; reflexivity|split; vm_compute; reflexivity]).
Qed.

Lemma score_v2_exact d r t n :
  is_flag d -> is_flag r -> is_flag t -> is_flag n ->
  exists q, Float.to_Q (score_v2 d r t n) = Some q
    /\ (q == (3 # 2) * inject_Z d + 1 * inject_Z r + 2 * inject_Z t + (5 # 2) * inject_Z n)%Q
    /\ Float.leb f2_0 (score_v2 d r t n) = Qle_bool 2 q.
Proof.
  unfold score_v2.
  intros [->| ->] [->| ->] [->| ->] [->| ->]; eexists;
    (split; [vm_compute; reflexivity|split; vm_compute; reflexivity]).
Qed.

(** ** [value_counts] *)

Lemma value_counts_lookup (s : list cell) (x : cell) :
  value_counts s !! x
  = if decide (pd_isna x = false /\ x ∈ s)
    then Some (Z.of_nat (length (filter (fun y => y = x) s)))
    else None.
Proof.
  induction s as [|y s IH]; simpl.
  - rewrite lookup_empty. case_decide as H; [|done]. by destruct H as [_ ?%elem_of_nil].
  - destruct (pd_isna y) eqn:Hy.
    + rewrite IH. destruct (decide (y = x)) as [->|Hne].
      * rewrite !decide_False; [done|..]; intros [? _]; congruence.
      * rewrite filter_cons_False by done.
        apply decide_ext. rewrite elem_of_cons. intuition congruence.
    + destruct (decide (y = x)) as [->|Hne].
      * rewrite lookup_insert_eq, filter_cons_True by done.
        rewrite decide_True by (split; [done|left]).
        rewrite IH. simpl. case_decide as Hin; simpl; f_equal; [lia|].
        destruct (filter _ s) as [|z l] eqn:Hf; [done|].
        destruct Hin. split; [done|].
        assert (z ∈ filter (fun y => y = x) s) as [-> ?]%list_elem_of_filter
          by (rewrite Hf; left).
        done.
      * rewrite lookup_insert_ne, filter_cons_False by done.
        rewrite IH. apply decide_ext. rewrite elem_of_cons. intuition congruence.
Qed.

Lemma map_counts_lookup (s : list cell) (i : nat) (x : cell) :
  s !! i = Some x ->
  map_counts (value_counts s) s !! i
  = Some (if pd_isna x then 1 else Z.of_nat (length (filter (fun y => y = x) s))).
Proof.
  intros Hx. unfold map_counts. rewrite list_lookup_fmap, Hx. simpl. f_equal.
  rewrite value_counts_lookup.
  destruct (pd_isna x) eqn:Hna.
  - rewrite decide_False; [done|]. by intros [? _].
  - rewrite decide_True; [done|]. split; [done|]. by eapply list_elem_of_lookup_2.
Qed.

(** ** The feature tables, row by row *)

Lemma amount_lookup (raw : list num) (n i : nat) :
  length raw = n -> (i < n)%nat -> is_Some (numeric_series raw !! i).
Proof.
  intros Hlen Hi. apply lookup_lt_is_Some. rewrite numeric_series_length. lia.
Qed.

Lemma V1_engineer_features_rows (df : list Linked.row) :
  exists m, V1.engineer_features df = Ok m
    /\ length (V1.amount m) = length df
    /\ length (V1.is_direct_procurement m) = length df
    /\ length (V1.is_round_amount m) = length df
    /\ length (V1.missing_data_count m) = length df
    /\ length (V1.risk_label m) = length df
    /\ forall i r, df !! i = Some r ->
         exists a, V1.amount m !! i = Some a
           /\ V1.is_direct_procurement m !! i
              = Some (direct_flag (Linked.tender_procurementMethod r))
           /\ V1.is_round_amount m !! i = Some (round_flag a)
           /\ V1.missing_data_count m !! i = Some (V1.isnull_sum r).
Proof.
  destruct (mapM_returns clean_currency (Linked.value_amount <$> df) clean_currency_returns)
    as (raw & Hraw & Hlen).
  rewrite length_fmap in Hlen.
  eexists. unfold V1.engineer_features. rewrite Hraw. simpl. split; [done|]. simpl.
  rewrite ?length_fmap, ?numeric_series_length.
  do 4 (split; [done|]). split.
  - unfold at_least. rewrite length_fmap.
    apply risk_score_v1_length; by rewrite ?length_fmap, ?numeric_series_length.
  - intros i r Hr.
    destruct (amount_lookup raw (length df) i Hlen) as [a Ha];
      [by eapply lookup_lt_Some|].
    exists a. rewrite !list_lookup_fmap, Ha, Hr. done.
Qed.

Lemma V1_risk_label_lookup (df : list Linked.row) m i d r c :
  V1.engineer_features df = Ok m ->
  V1.is_direct_procurement m !! i = Some d ->
  V1.is_round_amount m !! i = Some r ->
  V1.missing_data_count m !! i = Some c ->
  is_flag d /\ is_flag r
  /\ V1.risk_score m !! i = Some (score_v1 d r c)
  /\ V1.risk_label m !! i = Some (int_of_bool (Float.leb f1_5 (score_v1 d r c))).
Proof.
  intros Hm Hd Hr Hc.
  assert (V1.risk_label m = at_least (V1.risk_score m) f1_5
          /\ Forall is_flag (V1.is_direct_procurement m)
          /\ Forall is_flag (V1.is_round_amount m)) as (Hlabel & Hfd & Hfr).
  { unfold V1.engineer_features in Hm.
    destruct (mapM clean_currency _) as [raw|e]; simpl in Hm; [|done].
    injection Hm as <-. simpl. split; [done|]. split.
    - apply Forall_fmap, Forall_true. intros x. apply direct_flag_flag.
    - apply Forall_fmap, Forall_true. intros x. apply round_flag_flag. }
  split; [by eapply Forall_lookup_1 in Hfd|].
  split; [by eapply Forall_lookup_1 in Hfr|].
  pose proof (risk_score_v1_lookup _ _ _ _ _ _ _ Hd Hr Hc) as Hs.
  split; [done|].
  rewrite Hlabel. unfold at_least. rewrite list_lookup_fmap.
  unfold V1.risk_score. by rewrite Hs.
Qed.

Section WithParser.
Context `{DatetimeParser}.

Lemma suspicious_timing_lookup {A} (start signed : A -> cell) (df : list A) i r :
  df !! i = Some r ->
  suspicious_timing_of (to_datetime (start <$> df)) (to_datetime (signed <$> df)) !! i
  = Some (int_of_bool
            (datetime_lt (parse_datetime (start <$> df) (start r))
                         (parse_datetime (signed <$> df) (signed r)))).
Proof.
  intros Hr. unfold suspicious_timing_of, to_datetime.
  rewrite lookup_zip_with, !list_lookup_fmap, Hr. done.
Qed.

Lemma V2_engineer_features_rows (df : list V2.Merged.row) :
  exists m, V2.engineer_features_v2 df = Ok m
    /\ length (V2.amount m) = length df
    /\ length (V2.is_direct_procurement m) = length df
    /\ length (V2.is_round_amount m) = length df
    /\ length (V2.suspicious_timing m) = length df
    /\ length (V2.supplier_award_count m) = length df
    /\ length (V2.new_supplier_direct_deal m) = length df
    /\ length (V2.risk_label m) = length df
    /\ forall i r, df !! i = Some r ->
         let count := if pd_isna (V2.Merged.name r) then 1
                      else Z.of_nat (length (filter (fun x => x = V2.Merged.name r)
                                               (V2.Merged.name <$> df))) in
         let direct := direct_flag (V2.Merged.tender_procurementMethod r) in
         exists a, V2.amount m !! i = Some a
           /\ V2.is_direct_procurement m !! i = Some direct
           /\ V2.is_round_amount m !! i = Some (round_flag a)
           /\ V2.suspicious_timing m !! i
              = Some (int_of_bool
                   (datetime_lt
                      (parse_datetime (V2.Merged.period_startDate <$> df)
                         (V2.Merged.period_startDate r))
                      (parse_datetime (V2.Merged.dateSigned <$> df)
                         (V2.Merged.dateSigned r))))
           /\ V2.supplier_award_count m !! i = Some count
           /\ V2.new_supplier_direct_deal m !! i
              = Some (int_of_bool ((count <=? 3) && (direct =? 1))).
Proof.
  destruct (mapM_returns clean_currency (V2.Merged.value_amount <$> df) clean_currency_returns)
    as (raw & Hraw & Hlen).
  rewrite length_fmap in Hlen.
  eexists. unfold V2.engineer_features_v2. rewrite Hraw. simpl. split; [done|]. simpl.
  assert (length (suspicious_timing_of (to_datetime (V2.Merged.period_startDate <$> df))
            (to_datetime (V2.Merged.dateSigned <$> df))) = length df) as Hlt.
  { unfold suspicious_timing_of, to_datetime. rewrite length_zip_with, !length_fmap. lia. }
  assert (length (new_supplier_direct_deal_of
                    (map_counts (value_counts (V2.Merged.name <$> df)) (V2.Merged.name <$> df))
                    (direct_flag <$> (V2.Merged.tender_procurementMethod <$> df)))
          = length df) as Hln.
  { unfold new_supplier_direct_deal_of, map_counts. rewrite length_zip_with, !length_fmap. lia. }
  unfold map_counts at 1.
  rewrite ?length_fmap, ?numeric_series_length.
  do 6 (split; [done|]). split.
  - unfold at_least. rewrite length_fmap.
    apply risk_score_v2_length; by rewrite ?length_fmap, ?numeric_series_length.
  - intros i r Hr.
    destruct (amount_lookup raw (length df) i Hlen) as [a Ha];
      [by eapply lookup_lt_Some|].
    exists a. rewrite (suspicious_timing_lookup _ _ _ _ _ Hr).
    unfold new_supplier_direct_deal_of.
    rewrite lookup_zip_with.
    rewrite (map_counts_lookup _ i (V2.Merged.name r))
      by (by rewrite list_lookup_fmap, Hr).
    rewrite !list_lookup_fmap, Ha, Hr. done.
Qed.

Lemma V3_engineer_features_rows (df : list V3.Merged.row) :
  exists m, V3.engineer_features_v3 df = Ok m
    /\ length (V3.amount m) = length df
    /\ length (V3.is_direct_procurement m) = length df
    /\ length (V3.is_round_amount m) = length df
    /\ length (V3.suspicious_timing m) = length df
    /\ length (V3.supplier_award_count m) = length df
    /\ length (V3.new_supplier_direct_deal m) = length df
    /\ length (V3.risk_label m) = length df
    /\ V3.supplier_id m = V3.Merged.supplier_id <$> df
    /\ V3.supplier_name m = V3.Merged.name <$> df
    /\ forall i r, df !! i = Some r ->
         let count := if pd_isna (V3.Merged.supplier_id r) then 1
                      else Z.of_nat (length (filter (fun x => x = V3.Merged.supplier_id r)
                                               (V3.Merged.supplier_id <$> df))) in
         let direct := direct_flag (V3.Merged.tender_procurementMethod r) in
         exists a, V3.amount m !! i = Some a
           /\ V3.is_direct_procurement m !! i = Some direct
           /\ V3.is_round_amount m !! i = Some (round_flag a)
           /\ V3.suspicious_timing m !! i
              = Some (int_of_bool
                   (datetime_lt
                      (parse_datetime (V3.Merged.period_startDate <$> df)
                         (V3.Merged.period_startDate r))
                      (parse_datetime (V3.Merged.dateSigned <$> df)
                         (V3.Merged.dateSigned r))))
           /\ V3.supplier_award_count m !! i = Some count
           /\ V3.new_supplier_direct_deal m !! i
              = Some (int_of_bool ((count <=? 3) && (direct =? 1))).
Proof.
  destruct (mapM_returns clean_currency (V3.Merged.value_amount <$> df) clean_currency_returns)
    as (raw & Hraw & Hlen).
  rewrite length_fmap in Hlen.
  eexists. unfold V3.engineer_features_v3. rewrite Hraw. simpl. split; [done|]. simpl.
  assert (length (suspicious_timing_of (to_datetime (V3.Merged.period_startDate <$> df))
            (to_datetime (V3.Merged.dateSigned <$> df))) = length df) as Hlt.
  { unfold suspicious_timing_of, to_datetime. rewrite length_zip_with, !length_fmap. lia. }
  assert (length (new_supplier_direct_deal_of
                    (map_counts (value_counts (V3.Merged.supplier_id <$> df))
                       (V3.Merged.supplier_id <$> df))
                    (direct_flag <$> (V3.Merged.tender_procurementMethod <$> df)))
          = length df) as Hln.
  { unfold new_supplier_direct_deal_of, map_counts. rewrite length_zip_with, !length_fmap. lia. }
  unfold map_counts at 1.
  rewrite ?length_fmap, ?numeric_series_length.
  do 6 (split; [done|]). split; [|do 2 (split; [done|])].
  - unfold at_least. rewrite length_fmap.
    apply risk_score_v2_length; by rewrite ?length_fmap, ?numeric_series_length.
  - intros i r Hr.
    destruct (amount_lookup raw (length df) i Hlen) as [a Ha];
      [by eapply lookup_lt_Some|].
    exists a. rewrite (suspicious_timing_lookup _ _ _ _ _ Hr).
    unfold new_supplier_direct_deal_of.
    rewrite lookup_zip_with.
    rewrite (map_counts_lookup _ i (V3.Merged.supplier_id r))
      by (by rewrite list_lookup_fmap, Hr).
    rewrite !list_lookup_fmap, Ha, Hr. done.
Qed.

Lemma V2_risk_label_lookup (df : list V2.Merged.row) m i d r t n :
  V2.engineer_features_v2 df = Ok m ->
  V2.is_direct_procurement m !! i = Some d ->
  V2.is_round_amount m !! i = Some r ->
  V2.suspicious_timing m !! i = Some t ->
  V2.new_supplier_direct_deal m !! i = Some n ->
  is_flag d /\ is_flag r /\ is_flag t /\ is_flag n
  /\ V2.risk_score m !! i = Some (score_v2 d r t n)
  /\ V2.risk_label m !! i = Some (int_of_bool (Float.leb f2_0 (score_v2 d r t n))).
Proof.
  intros Hm Hd Hr Ht Hn.
  assert (V2.risk_label m = at_least (V2.risk_score m) f2_0
          /\ Forall is_flag (V2.is_direct_procurement m)
          /\ Forall is_flag (V2.is_round_amount m)
          /\ Forall is_flag (V2.suspicious_timing m)
          /\ Forall is_flag (V2.new_supplier_direct_deal m)) as (Hlabel & Hfd & Hfr & Hft & Hfn).
  { unfold V2.engineer_features_v2 in Hm.
    destruct (mapM clean_currency _) as [raw|e]; simpl in Hm; [|done].
    injection Hm as <-. simpl. split; [done|]. repeat split.
    - apply Forall_fmap, Forall_true. intros x. apply direct_flag_flag.
    - apply Forall_fmap, Forall_true. intros x. apply round_flag_flag.
    - apply suspicious_timing_flags.
    - apply new_supplier_direct_deal_flags. }
  split; [by eapply Forall_lookup_1 in Hfd|].
  split; [by eapply Forall_lookup_1 in Hfr|].
  split; [by eapply Forall_lookup_1 in Hft|].
  split; [by eapply Forall_lookup_1 in Hfn|].
  pose proof (risk_score_v2_lookup _ _ _ _ _ _ _ _ _ Hd Hr Ht Hn) as Hs.
  split; [done|].
  rewrite Hlabel. unfold at_least. rewrite list_lookup_fmap.
  unfold V2.risk_score. by rewrite Hs.
Qed.

Lemma V3_risk_label_lookup (df : list V3.Merged.row) m i d r t n :
  V3.engineer_features_v3 df = Ok m ->
  V3.is_direct_procurement m !! i = Some d ->
  V3.is_round_amount m !! i = Some r ->
  V3.suspicious_timing m !! i = Some t ->
  V3.new_supplier_direct_deal m !! i = Some n ->
  is_flag d /\ is_flag r /\ is_flag t /\ is_flag n
  /\ V3.risk_score m !! i = Some (score_v2 d r t n)
  /\ V3.risk_label m !! i = Some (int_of_bool (Float.leb f2_0 (score_v2 d r t n))).
Proof.
  intros Hm Hd Hr Ht Hn.
  assert (V3.risk_label m = at_least (V3.risk_score m) f2_0
          /\ Forall is_flag (V3.is_direct_procurement m)
          /\ Forall is_flag (V3.is_round_amount m)
          /\ Forall is_flag (V3.suspicious_timing m)
          /\ Forall is_flag (V3.new_supplier_direct_deal m)) as (Hlabel & Hfd & Hfr & Hft & Hfn).
  { unfold V3.engineer_features_v3 in Hm.
    destruct (mapM clean_currency _) as [raw|e]; simpl in Hm; [|done].
    injection Hm as <-. simpl. split; [done|]. repeat split.
    - apply Forall_fmap, Forall_true. intros x. apply direct_flag_flag.
    - apply Forall_fmap, Forall_true. intros x. apply round_flag_flag.
    - apply suspicious_timing_flags.
    - apply new_supplier_direct_deal_flags. }
  split; [by eapply Forall_lookup_1 in Hfd|].
  split; [by eapply Forall_lookup_1 in Hfr|].
  split; [by eapply Forall_lookup_1 in Hft|].
  split; [by eapply Forall_lookup_1 in Hfn|].
  pose proof (risk_score_v2_lookup _ _ _ _ _ _ _ _ _ Hd Hr Ht Hn) as Hs.
  split; [done|].
  rewrite Hlabel. unfold at_least. rewrite list_lookup_fmap.
  unfold V3.risk_score. by rewrite Hs.
Qed.

End WithParser.

(** ** The risk scorer *)

(** C1: in every feature row the risk score is the weighted sum of the
    indicators, with the weights of the version (v1: 2, 1.5 and 1 on direct,
    round and any-missing; v2 and v3: 1.5, 1, 2 and 2.5 on direct, round,
    timing and new-supplier-direct), and the label is 1 exactly when the score
    reaches the threshold of the version (1.5, resp. 2). *)
Theorem risk_score_is_weighted_sum :
  (forall df : list Linked.row,
     exists m, V1.engineer_features df = Ok m /\
       forall i d r c,
         V1.is_direct_procurement m !! i = Some d ->
         V1.is_round_amount m !! i = Some r ->
         V1.missing_data_count m !! i = Some c ->
         exists s q,
           V1.risk_score m !! i = Some s /\ Float.to_Q s = Some q
           /\ (q == 2 * inject_Z d + (3 # 2) * inject_Z r
                    + 1 * inject_Z (if 1 <=? c then 1 else 0))%Q
           /\ V1.risk_label m !! i = Some (if Qle_bool (3 # 2) q then 1 else 0))
  /\ (forall (H : DatetimeParser) (df : list V2.Merged.row),
     exists m, V2.engineer_features_v2 df = Ok m /\
       forall i d r t n,
         V2.is_direct_procurement m !! i = Some d ->
         V2.is_round_amount m !! i = Some r ->
         V2.suspicious_timing m !! i = Some t ->
         V2.new_supplier_direct_deal m !! i = Some n ->
         exists s q,
           V2.risk_score m !! i = Some s /\ Float.to_Q s = Some q
           /\ (q == (3 # 2) * inject_Z d + 1 * inject_Z r + 2 * inject_Z t
                    + (5 # 2) * inject_Z n)%Q
           /\ V2.risk_label m !! i = Some (if Qle_bool 2 q then 1 else 0))
  /\ (forall (H : DatetimeParser) (df : list V3.Merged.row),
     exists m, V3.engineer_features_v3 df = Ok m /\
       forall i d r t n,
         V3.is_direct_procurement m !! i = Some d ->
         V3.is_round_amount m !! i = Some r ->
         V3.suspicious_timing m !! i = Some t ->
         V3.new_supplier_direct_deal m !! i = Some n ->
         exists s q,
           V3.risk_score m !! i = Some s /\ Float.to_Q s = Some q
           /\ (q == (3 # 2) * inject_Z d + 1 * inject_Z r + 2 * inject_Z t
                    + (5 # 2) * inject_Z n)%Q
           /\ V3.risk_label m !! i = Some (if Qle_bool 2 q then 1 else 0)).
Proof.
  split; [|split].
  - intros df. destruct (V1_engineer_features_rows df) as (m & Hm & _).
    exists m. split; [done|]. intros i d r c Hd Hr Hc.
    destruct (V1_risk_label_lookup df m i d r c Hm Hd Hr Hc) as (Fd & Fr & Hs & Hl).
    destruct (score_v1_exact d r c Fd Fr) as (q & Hq & Hsum & Hle).
    exists (score_v1 d r c), q. rewrite Hl, Hle. done.
  - intros H df. destruct (V2_engineer_features_rows df) as (m & Hm & _).
    exists m. split; [done|]. intros i d r t n Hd Hr Ht Hn.
    destruct (V2_risk_label_lookup df m i d r t n Hm Hd Hr Ht Hn)
      as (Fd & Fr & Ft & Fn & Hs & Hl).
    destruct (score_v2_exact d r t n Fd Fr Ft Fn) as (q & Hq & Hsum & Hle).
    exists (score_v2 d r t n), q. rewrite Hl, Hle. done.
  - intros H df. destruct (V3_engineer_features_rows df) as (m & Hm & _).
    exists m. split; [done|]. intros i d r t n Hd Hr Ht Hn.
    destruct (V3_risk_label_lookup df m i d r t n Hm Hd Hr Ht Hn)
      as (Fd & Fr & Ft & Fn & Hs & Hl).
    destruct (score_v2_exact d r t n Fd Fr Ft Fn) as (q & Hq & Hsum & Hle).
    exists (score_v2 d r t n), q. rewrite Hl, Hle. done.
Qed.

Lemma score_v1_saturates d r c :
  is_flag d -> is_flag r -> d = 1 \/ r = 1 -> Float.leb f1_5 (score_v1 d r c) = true.
Proof.
  unfold score_v1.
  intros [->| ->] [->| ->] [?|?]; try done; destruct (1 <=? c); vm_compute; reflexivity.
Qed.

Lemma score_v2_saturates d r t n :
  is_flag d -> is_flag r -> is_flag t -> is_flag n ->
  t = 1 \/ (n = 1 /\ d = 1) -> Float.leb f2_0 (score_v2 d r t n) = true.
Proof.
  unfold score_v2.
  intros [->| ->] [->| ->] [->| ->] [->| ->] [?|[??]]; try done; vm_compute; reflexivity.
Qed.

Lemma new_supplier_direct_deal_direct (count direct : Z) :
  int_of_bool ((count <=? 3) && (direct =? 1)) = 1 -> direct = 1.
Proof.
  destruct (count <=? 3); simpl; [|done].
  destruct (direct =? 1) eqn:Hd; [|done]. intros _. lia.
Qed.

(** C10: one flag is enough. In v1 a direct procurement, or a round amount,
    alone gives the label 1; in v2 and v3 a suspicious timing alone gives the
    label 1, and a new-supplier direct deal comes with a direct procurement
    and the label 1. *)
Theorem single_flag_saturates_label :
  (forall df : list Linked.row,
     exists m, V1.engineer_features df = Ok m /\
       forall i,
         (V1.is_direct_procurement m !! i = Some 1 -> V1.risk_label m !! i = Some 1)
         /\ (V1.is_round_amount m !! i = Some 1 -> V1.risk_label m !! i = Some 1))
  /\ (forall (H : DatetimeParser) (df : list V2.Merged.row),
     exists m, V2.engineer_features_v2 df = Ok m /\
       forall i,
         (V2.suspicious_timing m !! i = Some 1 -> V2.risk_label m !! i = Some 1)
         /\ (V2.new_supplier_direct_deal m !! i = Some 1 ->
               V2.is_direct_procurement m !! i = Some 1 /\ V2.risk_label m !! i = Some 1))
  /\ (forall (H : DatetimeParser) (df : list V3.Merged.row),
     exists m, V3.engineer_features_v3 df = Ok m /\
       forall i,
         (V3.suspicious_timing m !! i = Some 1 -> V3.risk_label m !! i = Some 1)
         /\ (V3.new_supplier_direct_deal m !! i = Some 1 ->
               V3.is_direct_procurement m !! i = Some 1 /\ V3.risk_label m !! i = Some 1)).
Proof.
  split; [|split].
  - intros df.
    destruct (V1_engineer_features_rows df) as (m & Hm & La & Ld & Lr & Lc & Ll & Hrows).
    exists m. split; [done|]. intros i.
    assert (forall x, (V1.is_direct_procurement m !! i = Some x
                       \/ V1.is_round_amount m !! i = Some x) ->
              exists d r c, V1.is_direct_procurement m !! i = Some d
                /\ V1.is_round_amount m !! i = Some r
                /\ V1.missing_data_count m !! i = Some c) as Hall.
    { intros x Hx.
      assert (i < length df)%nat as Hi
        by (destruct Hx as [Hx|Hx]; apply lookup_lt_Some in Hx; lia).
      destruct (lookup_lt_is_Some_2 (V1.is_direct_procurement m) i) as [d Hd]; [lia|].
      destruct (lookup_lt_is_Some_2 (V1.is_round_amount m) i) as [r Hr]; [lia|].
      destruct (lookup_lt_is_Some_2 (V1.missing_data_count m) i) as [c Hc]; [lia|].
      by exists d, r, c. }
    split; intros Hx.
    + destruct (Hall 1) as (d & r & c & Hd & Hr & Hc); [by left|].
      destruct (V1_risk_label_lookup df m i d r c Hm Hd Hr Hc) as (Fd & Fr & _ & Hl).
      rewrite Hl, score_v1_saturates; [done..|]. left. congruence.
    + destruct (Hall 1) as (d & r & c & Hd & Hr & Hc); [by right|].
      destruct (V1_risk_label_lookup df m i d r c Hm Hd Hr Hc) as (Fd & Fr & _ & Hl).
      rewrite Hl, score_v1_saturates; [done..|]. right. congruence.
  - intros H df.
    destruct (V2_engineer_features_rows df)
      as (m & Hm & La & Ld & Lr & Lt & Lc & Ln & Ll & Hrows).
    exists m. split; [done|]. intros i.
    assert (forall x, (V2.suspicious_timing m !! i = Some x
                       \/ V2.new_supplier_direct_deal m !! i = Some x) ->
              exists row d r t n, df !! i = Some row
                /\ V2.is_direct_procurement m !! i = Some d
                /\ V2.is_round_amount m !! i = Some r
                /\ V2.suspicious_timing m !! i = Some t
                /\ V2.new_supplier_direct_deal m !! i = Some n) as Hall.
    { intros x Hx.
      assert (i < length df)%nat as Hi
        by (destruct Hx as [Hx|Hx]; apply lookup_lt_Some in Hx; lia).
      destruct (lookup_lt_is_Some_2 df i) as [row Hrow]; [lia|].
      destruct (lookup_lt_is_Some_2 (V2.is_direct_procurement m) i) as [d Hd]; [lia|].
      destruct (lookup_lt_is_Some_2 (V2.is_round_amount m) i) as [r Hr]; [lia|].
      destruct (lookup_lt_is_Some_2 (V2.suspicious_timing m) i) as [t Ht]; [lia|].
      destruct (lookup_lt_is_Some_2 (V2.new_supplier_direct_deal m) i) as [n Hn]; [lia|].
      by exists row, d, r, t, n. }
    split; intros Hx.
    + destruct (Hall 1) as (row & d & r & t & n & Hrow & Hd & Hr & Ht & Hn); [by left|].
      destruct (V2_risk_label_lookup df m i d r t n Hm Hd Hr Ht Hn)
        as (Fd & Fr & Ft & Fn & _ & Hl).
      rewrite Hl, score_v2_saturates; [done..|]. left. congruence.
    + destruct (Hall 1) as (row & d & r & t & n & Hrow & Hd & Hr & Ht & Hn); [by right|].
      destruct (V2_risk_label_lookup df m i d r t n Hm Hd Hr Ht Hn)
        as (Fd & Fr & Ft & Fn & _ & Hl).
      destruct (Hrows i row Hrow) as (a & _ & Hd' & _ & _ & _ & Hn').
      assert (d = 1) as ->.
      { rewrite Hd' in Hd. injection Hd as <-. rewrite Hn' in Hx. injection Hx as Hx.
        by apply new_supplier_direct_deal_direct in Hx. }
      split; [done|].
      rewrite Hl, score_v2_saturates; [done..|]. right. split; congruence.
  - intros H df.
    destruct (V3_engineer_features_rows df)
      as (m & Hm & La & Ld & Lr & Lt & Lc & Ln & Ll & _ & _ & Hrows).
    exists m. split; [done|]. intros i.
    assert (forall x, (V3.suspicious_timing m !! i = Some x
                       \/ V3.new_supplier_direct_deal m !! i = Some x) ->
              exists row d r t n, df !! i = Some row
                /\ V3.is_direct_procurement m !! i = Some d
                /\ V3.is_round_amount m !! i = Some r
                /\ V3.suspicious_timing m !! i = Some t
                /\ V3.new_supplier_direct_deal m !! i = Some n) as Hall.
    { intros x Hx.
      assert (i < length df)%nat as Hi
        by (destruct Hx as [Hx|Hx]; apply lookup_lt_Some in Hx; lia).
      destruct (lookup_lt_is_Some_2 df i) as [row Hrow]; [lia|].
      destruct (lookup_lt_is_Some_2 (V3.is_direct_procurement m) i) as [d Hd]; [lia|].
      destruct (lookup_lt_is_Some_2 (V3.is_round_amount m) i) as [r Hr]; [lia|].
      destruct (lookup_lt_is_Some_2 (V3.suspicious_timing m) i) as [t Ht]; [lia|].
      destruct (lookup_lt_is_Some_2 (V3.new_supplier_direct_deal m) i) as [n Hn]; [lia|].
      by exists row, d, r, t, n. }
    split; intros Hx.
    + destruct (Hall 1) as (row & d & r & t & n & Hrow & Hd & Hr & Ht & Hn); [by left|].
      destruct (V3_risk_label_lookup df m i d r t n Hm Hd Hr Ht Hn)
        as (Fd & Fr & Ft & Fn & _ & Hl).
      rewrite Hl, score_v2_saturates; [done..|]. left. congruence.
    + destruct (Hall 1) as (row & d & r & t & n & Hrow & Hd & Hr & Ht & Hn); [by right|].
      destruct (V3_risk_label_lookup df m i d r t n Hm Hd Hr Ht Hn)
        as (Fd & Fr & Ft & Fn & _ & Hl).
      destruct (Hrows i row Hrow) as (a & _ & Hd' & _ & _ & _ & Hn').
      assert (d = 1) as ->.
      { rewrite Hd' in Hd. injection Hd as <-. rewrite Hn' in Hx. injection Hx as Hx.
        by apply new_supplier_direct_deal_direct in Hx. }
      split; [done|].
      rewrite Hl, score_v2_saturates; [done..|]. right. split; congruence.
Qed.

(** ** The feature derivation engine *)

Lemma filter_fmap_length {A} (f : A -> cell) (k : cell) (df : list A) :
  length (filter (fun x => x = k) (f <$> df)) = length (filter (fun r => f r = k) df).
Proof.
  induction df as [|r df IH]; [done|].
  rewrite fmap_cons. destruct (decide (f r = k)).
  - rewrite !filter_cons_True by done. simpl. by rewrite IH.
  - by rewrite !filter_cons_False by done.
Qed.

Lemma filter_all_length {A} (P : A -> Prop) `{forall x, Decision (P x)} (l : list A) :
  (forall x, x ∈ l -> P x) -> length (filter P l) = length l.
Proof.
  induction l as [|x l IH]; intros Hall; [done|].
  rewrite filter_cons_True by (apply Hall; left). simpl.
  rewrite IH; [done|]. intros y Hy. apply Hall. by right.
Qed.

(** C2: the award count of a row is the number of rows of the whole merged
    frame with the same supplier identity (the normalized name in v2, the
    supplier id in v3), and 1 when the row has no identity; when all [N] rows
    share one identity, each reports [N]. *)
Theorem supplier_award_count_is_population_count :
  (forall (H : DatetimeParser) (df : list V2.Merged.row),
     exists m, V2.engineer_features_v2 df = Ok m
       /\ (forall i r, df !! i = Some r ->
             V2.supplier_award_count m !! i
             = Some (if pd_isna (V2.Merged.name r) then 1
                     else Z.of_nat (length (filter
                            (fun r' => V2.Merged.name r' = V2.Merged.name r) df))))
       /\ (forall k, pd_isna k = false -> (forall r, r ∈ df -> V2.Merged.name r = k) ->
             forall i, (i < length df)%nat ->
               V2.supplier_award_count m !! i = Some (Z.of_nat (length df))))
  /\ (forall (H : DatetimeParser) (df : list V3.Merged.row),
     exists m, V3.engineer_features_v3 df = Ok m
       /\ (forall i r, df !! i = Some r ->
             V3.supplier_award_count m !! i
             = Some (if pd_isna (V3.Merged.supplier_id r) then 1
                     else Z.of_nat (length (filter
                            (fun r' => V3.Merged.supplier_id r' = V3.Merged.supplier_id r) df))))
       /\ (forall k, pd_isna k = false -> (forall r, r ∈ df -> V3.Merged.supplier_id r = k) ->
             forall i, (i < length df)%nat ->
               V3.supplier_award_count m !! i = Some (Z.of_nat (length df)))).
Proof.
  split.
  - intros H df.
    destruct (V2_engineer_features_rows df) as (m & Hm & _ & _ & _ & _ & _ & _ & _ & Hrows).
    exists m. split; [done|].
    assert (forall i r, df !! i = Some r ->
             V2.supplier_award_count m !! i
             = Some (if pd_isna (V2.Merged.name r) then 1
                     else Z.of_nat (length (filter
                            (fun r' => V2.Merged.name r' = V2.Merged.name r) df)))) as Hcount.
    { intros i r Hr. destruct (Hrows i r Hr) as (a & _ & _ & _ & _ & Hc & _).
      rewrite Hc. by rewrite filter_fmap_length. }
    split; [done|]. intros k Hk Hall i Hi.
    destruct (lookup_lt_is_Some_2 df i Hi) as [r Hr].
    rewrite (Hcount i r Hr).
    assert (V2.Merged.name r = k) as Hrk by (by eapply Hall, list_elem_of_lookup_2).
    rewrite Hrk, Hk. do 2 f_equal. by apply filter_all_length.
  - intros H df.
    destruct (V3_engineer_features_rows df)
      as (m & Hm & _ & _ & _ & _ & _ & _ & _ & _ & _ & Hrows).
    exists m. split; [done|].
    assert (forall i r, df !! i = Some r ->
             V3.supplier_award_count m !! i
             = Some (if pd_isna (V3.Merged.supplier_id r) then 1
                     else Z.of_nat (length (filter
                            (fun r' => V3.Merged.supplier_id r' = V3.Merged.supplier_id r) df))))
      as Hcount.
    { intros i r Hr. destruct (Hrows i r Hr) as (a & _ & _ & _ & _ & Hc & _).
      rewrite Hc. by rewrite filter_fmap_length. }
    split; [done|]. intros k Hk Hall i Hi.
    destruct (lookup_lt_is_Some_2 df i Hi) as [r Hr].
    rewrite (Hcount i r Hr).
    assert (V3.Merged.supplier_id r = k) as Hrk by (by eapply Hall, list_elem_of_lookup_2).
    rewrite Hrk, Hk. do 2 f_equal. by apply filter_all_length.
Qed.

Lemma timing_flag_cases (start signed : option Z) :
  let t := int_of_bool (datetime_lt start signed) in
  (t = 1 <-> exists a b, signed = Some a /\ start = Some b /\ b < a)
  /\ (signed = None \/ start = None -> t = 0)
  /\ is_flag t.
Proof.
  destruct start as [b|], signed as [a|]; simpl.
  - destruct (b <? a) eqn:Hlt; simpl.
    + apply Z.ltb_lt in Hlt. split; [|split].
      * split; [|done]. intros _. by exists a, b.
      * by intros [?|?].
      * by right.
    + apply Z.ltb_ge in Hlt. split; [|split].
      * split; [done|]. intros (a' & b' & [= <-] & [= <-] & ?). lia.
      * done.
      * by left.
  - split; [|split]; [|done|by left]. split; [done|]. by intros (a' & b' & ? & _).
  - split; [|split]; [|done|by left]. split; [done|]. by intros (a' & b' & _ & ? & _).
  - split; [|split]; [|done|by left]. split; [done|]. by intros (a' & b' & ? & _).
Qed.


(** C9: in v1 the missing-data count of a row is the number of null cells
    among the four columns of the merged row, the frame the features are
    computed from. *)
Theorem missing_data_count_counts_nulls (df : list Linked.row) :
  exists m, V1.engineer_features df = Ok m /\
    forall i r, df !! i = Some r ->
      V1.missing_data_count m !! i
      = Some (int_of_bool (pd_isna (Linked._link r))
              + int_of_bool (pd_isna (Linked.tender_procurementMethod r))
              + int_of_bool (pd_isna (Linked._link_main r))
              + int_of_bool (pd_isna (Linked.value_amount r))).
Proof.
  destruct (V1_engineer_features_rows df) as (m & Hm & _ & _ & _ & _ & _ & Hrows).
  exists m. split; [done|]. intros i r Hr.
  destruct (Hrows i r Hr) as (a & _ & _ & _ & Hc). rewrite Hc. f_equal.
  unfold V1.isnull_sum, Linked.cells. simpl.
  by destruct (pd_isna (Linked._link r)), (pd_isna (Linked.tender_procurementMethod r)),
       (pd_isna (Linked._link_main r)), (pd_isna (Linked.value_amount r)).
Qed.

(** ** The persisted table *)

Lemma to_csv_line (df : DataFrame) (i : nat) :
  (i < nrows df)%nat ->
  lines (to_csv df) !! i = Some ((fun col => default NaN (col.2 !! i)) <$> df).
Proof.
  intros Hi. unfold to_csv. simpl.
  rewrite list_lookup_fmap, lookup_seq_lt by done. done.
Qed.

Lemma to_csv_shape (df : DataFrame) :
  header (to_csv df) = df.*1
  /\ length (lines (to_csv df)) = nrows df
  /\ Forall (fun line => length line = length df) (lines (to_csv df)).
Proof.
  unfold to_csv. simpl. split; [done|]. split.
  - by rewrite length_fmap, length_seq.
  - apply Forall_fmap, Forall_true. intros i. simpl. by rewrite length_fmap.
Qed.

Lemma V1_main_Some fs df m :
  V1.load_and_merge fs = Some df -> V1.engineer_features df = Ok m ->
  V1.main fs = Ok (<[V1.PROCESSED_DATA_PATH := to_csv (V1.frame m)]> fs).
Proof. intros Hload Hm. unfold V1.main. by rewrite Hload, Hm. Qed.

Lemma V2_main_Some `{DatetimeParser} fs df m :
  V2.load_and_merge_v2 fs = Some df -> V2.engineer_features_v2 df = Ok m ->
  V2.main fs = Ok (<[V2.PROCESSED_DATA_PATH := to_csv (V2.frame m)]> fs).
Proof. intros Hload Hm. unfold V2.main. by rewrite Hload, Hm. Qed.

Lemma V3_main_Some `{DatetimeParser} fs df m :
  V3.load_and_merge_v3 fs = Some df -> V3.engineer_features_v3 df = Ok m ->
  V3.main fs = Ok (<[V3.PROCESSED_DATA_PATH := to_csv (V3.frame m)]> fs).
Proof. intros Hload Hm. unfold V3.main. by rewrite Hload, Hm. Qed.

(** C4, as the specification words it, fails: the table that v1 writes for
    the sample files has five columns, the amount, three indicators and the
    label; the scores of its rows (3.5, 0 and 3) are in no column. *)
Lemma persisted_table_has_no_risk_score :
  V1.main Sample.fs
  = Ok (<[V1.PROCESSED_DATA_PATH :=
            {| header := ["amount"; "is_direct_procurement"; "is_round_amount";
                          "missing_data_count"; "risk_label"];
               lines := [ [Num (PyFloat (Float.of_Z 1000000)); Num (PyInt 1); Num (PyInt 1);
                           Num (PyInt 0); Num (PyInt 1)];
                          [Num (PyFloat (Float.of_Z 2500)); Num (PyInt 0); Num (PyInt 0);
                           Num (PyInt 0); Num (PyInt 0)];
                          [Num (PyFloat (Float.of_Z 0)); Num (PyInt 1); Num (PyInt 0);
                           Num (PyInt 1); Num (PyInt 1)] ] |}]> Sample.fs)
  /\ (risk_score_v1 [1; 0; 1] [1; 0; 0] [0; 0; 1]
      = [Float.of_bin 7 (-1); Float.of_Z 0; Float.of_Z 3]).
Proof. split; vm_compute; reflexivity. Qed.

(** C4 (amended): when the sources load, the run writes one table with one
    row per linked contract and exactly these columns: the amount, the
    indicators of the version and the label, a 0 or a 1; v3 adds the supplier
    id and name. The risk score is not a column. *)
Theorem persisted_table_columns :
  (forall fs df, V1.load_and_merge fs = Some df ->
     exists m, V1.engineer_features df = Ok m
       /\ V1.main fs = Ok (<[V1.PROCESSED_DATA_PATH := to_csv (V1.frame m)]> fs)
       /\ header (to_csv (V1.frame m))
          = ["amount"; "is_direct_procurement"; "is_round_amount"; "missing_data_count";
             "risk_label"]
       /\ length (lines (to_csv (V1.frame m))) = length df
       /\ forall i, (i < length df)%nat ->
            exists a d r c l,
              lines (to_csv (V1.frame m)) !! i
              = Some [Num a; Num (PyInt d); Num (PyInt r); Num (PyInt c); Num (PyInt l)]
              /\ V1.amount m !! i = Some a
              /\ V1.is_direct_procurement m !! i = Some d
              /\ V1.is_round_amount m !! i = Some r
              /\ V1.missing_data_count m !! i = Some c
              /\ V1.risk_label m !! i = Some l /\ is_flag l)
  /\ (forall (H : DatetimeParser) fs df, V2.load_and_merge_v2 fs = Some df ->
     exists m, V2.engineer_features_v2 df = Ok m
       /\ V2.main fs = Ok (<[V2.PROCESSED_DATA_PATH := to_csv (V2.frame m)]> fs)
       /\ header (to_csv (V2.frame m))
          = ["amount"; "is_direct_procurement"; "is_round_amount"; "suspicious_timing";
             "supplier_award_count"; "new_supplier_direct_deal"; "risk_label"]
       /\ length (lines (to_csv (V2.frame m))) = length df
       /\ forall i, (i < length df)%nat ->
            exists a d r t c n l,
              lines (to_csv (V2.frame m)) !! i
              = Some [Num a; Num (PyInt d); Num (PyInt r); Num (PyInt t); Num (PyInt c);
                      Num (PyInt n); Num (PyInt l)]
              /\ V2.amount m !! i = Some a
              /\ V2.is_direct_procurement m !! i = Some d
              /\ V2.is_round_amount m !! i = Some r
              /\ V2.suspicious_timing m !! i = Some t
              /\ V2.supplier_award_count m !! i = Some c
              /\ V2.new_supplier_direct_deal m !! i = Some n
              /\ V2.risk_label m !! i = Some l /\ is_flag l)
  /\ (forall (H : DatetimeParser) fs df, V3.load_and_merge_v3 fs = Some df ->
     exists m, V3.engineer_features_v3 df = Ok m
       /\ V3.main fs = Ok (<[V3.PROCESSED_DATA_PATH := to_csv (V3.frame m)]> fs)
       /\ header (to_csv (V3.frame m))
          = ["amount"; "is_direct_procurement"; "is_round_amount"; "suspicious_timing";
             "supplier_award_count"; "new_supplier_direct_deal"; "risk_label";
             "supplier_id"; "supplier_name"]
       /\ length (lines (to_csv (V3.frame m))) = length df
       /\ forall i r0, df !! i = Some r0 ->
            exists a d r t c n l,
              lines (to_csv (V3.frame m)) !! i
              = Some [Num a; Num (PyInt d); Num (PyInt r); Num (PyInt t); Num (PyInt c);
                      Num (PyInt n); Num (PyInt l);
                      V3.Merged.supplier_id r0; V3.Merged.name r0]
              /\ V3.amount m !! i = Some a
              /\ V3.is_direct_procurement m !! i = Some d
              /\ V3.is_round_amount m !! i = Some r
              /\ V3.suspicious_timing m !! i = Some t
              /\ V3.supplier_award_count m !! i = Some c
              /\ V3.new_supplier_direct_deal m !! i = Some n
              /\ V3.risk_label m !! i = Some l /\ is_flag l).
Proof.
  split; [|split].
  - intros fs df Hload.
    destruct (V1_engineer_features_rows df) as (m & Hm & La & Ld & Lr & Lc & Ll & Hrows).
    exists m. split; [done|]. split; [by apply V1_main_Some with df|].
    assert (nrows (V1.frame m) = length df) as Hn
      by (unfold V1.frame; simpl; by rewrite length_fmap).
    split; [done|]. split.
    { destruct (to_csv_shape (V1.frame m)) as (_ & -> & _). done. }
    intros i Hi.
    destruct (lookup_lt_is_Some_2 (V1.amount m) i) as [a Ha]; [lia|].
    destruct (lookup_lt_is_Some_2 (V1.is_direct_procurement m) i) as [d Hd]; [lia|].
    destruct (lookup_lt_is_Some_2 (V1.is_round_amount m) i) as [r Hr]; [lia|].
    destruct (lookup_lt_is_Some_2 (V1.missing_data_count m) i) as [c Hc]; [lia|].
    destruct (lookup_lt_is_Some_2 (V1.risk_label m) i) as [l Hl]; [lia|].
    exists a, d, r, c, l. rewrite to_csv_line by lia.
    unfold V1.frame, int_cells. simpl.
    rewrite !list_lookup_fmap, Ha, Hd, Hr, Hc, Hl. simpl. repeat split; try done.
    destruct (V1_risk_label_lookup df m i d r c Hm Hd Hr Hc) as (_ & _ & _ & Hl').
    rewrite Hl' in Hl. injection Hl as <-. apply int_of_bool_flag.
  - intros H fs df Hload.
    destruct (V2_engineer_features_rows df)
      as (m & Hm & La & Ld & Lr & Lt & Lc & Ln & Ll & Hrows).
    exists m. split; [done|]. split; [by apply V2_main_Some with df|].
    assert (nrows (V2.frame m) = length df) as Hn
      by (unfold V2.frame; simpl; by rewrite length_fmap).
    split; [done|]. split.
    { destruct (to_csv_shape (V2.frame m)) as (_ & -> & _). done. }
    intros i Hi.
    destruct (lookup_lt_is_Some_2 (V2.amount m) i) as [a Ha]; [lia|].
    destruct (lookup_lt_is_Some_2 (V2.is_direct_procurement m) i) as [d Hd]; [lia|].
    destruct (lookup_lt_is_Some_2 (V2.is_round_amount m) i) as [r Hr]; [lia|].
    destruct (lookup_lt_is_Some_2 (V2.suspicious_timing m) i) as [t Ht]; [lia|].
    destruct (lookup_lt_is_Some_2 (V2.supplier_award_count m) i) as [c Hc]; [lia|].
    destruct (lookup_lt_is_Some_2 (V2.new_supplier_direct_deal m) i) as [n Hnn]; [lia|].
    destruct (lookup_lt_is_Some_2 (V2.risk_label m) i) as [l Hl]; [lia|].
    exists a, d, r, t, c, n, l. rewrite to_csv_line by lia.
    unfold V2.frame, int_cells. simpl.
    rewrite !list_lookup_fmap, Ha, Hd, Hr, Ht, Hc, Hnn, Hl. simpl. repeat split; try done.
    destruct (V2_risk_label_lookup df m i d r t n Hm Hd Hr Ht Hnn) as (_ & _ & _ & _ & _ & Hl').
    rewrite Hl' in Hl. injection Hl as <-. apply int_of_bool_flag.
  - intros H fs df Hload.
    destruct (V3_engineer_features_rows df)
      as (m & Hm & La & Ld & Lr & Lt & Lc & Ln & Ll & Hid & Hname & Hrows).
    exists m. split; [done|]. split; [by apply V3_main_Some with df|].
    assert (nrows (V3.frame m) = length df) as Hn
      by (unfold V3.frame; simpl; by rewrite length_fmap).
    split; [done|]. split.
    { destruct (to_csv_shape (V3.frame m)) as (_ & -> & _). done. }
    intros i r0 Hr0.
    assert (i < length df)%nat as Hi by (by eapply lookup_lt_Some).
    destruct (lookup_lt_is_Some_2 (V3.amount m) i) as [a Ha]; [lia|].
    destruct (lookup_lt_is_Some_2 (V3.is_direct_procurement m) i) as [d Hd]; [lia|].
    destruct (lookup_lt_is_Some_2 (V3.is_round_amount m) i) as [r Hr]; [lia|].
    destruct (lookup_lt_is_Some_2 (V3.suspicious_timing m) i) as [t Ht]; [lia|].
    destruct (lookup_lt_is_Some_2 (V3.supplier_award_count m) i) as [c Hc]; [lia|].
    destruct (lookup_lt_is_Some_2 (V3.new_supplier_direct_deal m) i) as [n Hnn]; [lia|].
    destruct (lookup_lt_is_Some_2 (V3.risk_label m) i) as [l Hl]; [lia|].
    exists a, d, r, t, c, n, l. rewrite to_csv_line by lia.
    unfold V3.frame, int_cells. simpl.
    rewrite Hid, Hname, !list_lookup_fmap, Ha, Hd, Hr, Ht, Hc, Hnn, Hl, Hr0. simpl.
    repeat split; try done.
    destruct (V3_risk_label_lookup df m i d r t n Hm Hd Hr Ht Hnn) as (_ & _ & _ & _ & _ & Hl').
    rewrite Hl' in Hl. injection Hl as <-. apply int_of_bool_flag.
Qed.

(** ** Failures *)

Lemma V1_columns (df : list Linked.row) m :
  V1.engineer_features df = Ok m ->
  exists raw, mapM clean_currency (Linked.value_amount <$> df) = Ok raw
    /\ V1.amount m = numeric_series raw
    /\ V1.is_direct_procurement m = direct_flag <$> (Linked.tender_procurementMethod <$> df)
    /\ V1.is_round_amount m = round_flag <$> numeric_series raw.
Proof.
  unfold V1.engineer_features.
  destruct (mapM clean_currency _) as [raw|e]; simpl; [|done].
  intros [= <-]. by exists raw.
Qed.

Lemma V2_columns `{DatetimeParser} (df : list V2.Merged.row) m :
  V2.engineer_features_v2 df = Ok m ->
  exists raw, mapM clean_currency (V2.Merged.value_amount <$> df) = Ok raw
    /\ V2.amount m = numeric_series raw
    /\ V2.is_direct_procurement m
       = direct_flag <$> (V2.Merged.tender_procurementMethod <$> df)
    /\ V2.is_round_amount m = round_flag <$> numeric_series raw
    /\ V2.suspicious_timing m
       = suspicious_timing_of (to_datetime (V2.Merged.period_startDate <$> df))
           (to_datetime (V2.Merged.dateSigned <$> df)).
Proof.
  unfold V2.engineer_features_v2.
  destruct (mapM clean_currency _) as [raw|e]; simpl; [|done].
  intros [= <-]. by exists raw.
Qed.

Lemma V3_columns `{DatetimeParser} (df : list V3.Merged.row) m :
  V3.engineer_features_v3 df = Ok m ->
  exists raw, mapM clean_currency (V3.Merged.value_amount <$> df) = Ok raw
    /\ V3.amount m = numeric_series raw
    /\ V3.is_direct_procurement m
       = direct_flag <$> (V3.Merged.tender_procurementMethod <$> df)
    /\ V3.is_round_amount m = round_flag <$> numeric_series raw
    /\ V3.suspicious_timing m
       = suspicious_timing_of (to_datetime (V3.Merged.period_startDate <$> df))
           (to_datetime (V3.Merged.dateSigned <$> df)).
Proof.
  unfold V3.engineer_features_v3.
  destruct (mapM clean_currency _) as [raw|e]; simpl; [|done].
  intros [= <-]. by exists raw.
Qed.

Lemma mapM_lookup {A B} (f : A -> result B) (l : list A) (ys : list B) (i : nat) (x : A) :
  mapM f l = Ok ys -> l !! i = Some x -> exists y, ys !! i = Some y /\ f x = Ok y.
Proof.
  revert ys i. induction l as [|x' l IH]; intros ys i; [done|]. simpl.
  destruct (f x') as [y'|e] eqn:Hy; simpl; [|done].
  destruct (mapM f l) as [k|e] eqn:Hk; simpl; [|done].
  intros [= <-]. destruct i as [|i]; simpl.
  - intros [= <-]. by exists y'.
  - by apply IH.
Qed.

Lemma clean_currency_unparsed (x : cell) :
  unparsed_amount x -> clean_currency x = Ok (PyInt 0).
Proof.
  unfold clean_currency. intros [Hna|(s & -> & Hs)].
  - by rewrite Hna.
  - simpl. unfold Py.float_of_str. by rewrite Hs.
Qed.

Lemma numeric_series_zero (raw : list num) (i : nat) (a : num) :
  raw !! i = Some (PyInt 0) -> numeric_series raw !! i = Some a -> is_zero a.
Proof.
  unfold numeric_series. destruct (forallb is_int raw).
  - intros -> [= <-]. by left.
  - rewrite list_lookup_fmap. intros ->. simpl. intros [= <-]. by right.
Qed.

(** The amount of a row in whose cell [clean_currency] finds none. *)
Lemma amount_unparsed (cells : list cell) (raw : list num) (i : nat) (x : cell) (a : num) :
  mapM clean_currency cells = Ok raw -> cells !! i = Some x ->
  numeric_series raw !! i = Some a ->
  unparsed_amount x -> is_zero a.
Proof.
  intros Hraw Hx Ha Hun.
  destruct (mapM_lookup _ _ _ _ _ Hraw Hx) as (v & Hv & Hcc).
  rewrite (clean_currency_unparsed _ Hun) in Hcc. injection Hcc as <-.
  by eapply numeric_series_zero.
Qed.

Lemma datetime_lt_NaT (start signed : option Z) :
  start = None \/ signed = None -> int_of_bool (datetime_lt start signed) = 0.
Proof. intros [-> | ->]; [done|by destruct start]. Qed.

(** The record that a run writes for a linked row. *)
Lemma V1_written_line (df : list Linked.row) m i r :
  V1.engineer_features df = Ok m -> df !! i = Some r ->
  exists a d rf c l,
    lines (to_csv (V1.frame m)) !! i
    = Some [Num a; Num (PyInt d); Num (PyInt rf); Num (PyInt c); Num (PyInt l)]
    /\ (unparsed_amount (Linked.value_amount r) -> is_zero a).
Proof.
  intros Hm Hr.
  destruct (V1_engineer_features_rows df) as (m' & Hm' & La & Ld & Lr & Lc & Ll & _).
  rewrite Hm in Hm'. injection Hm' as <-.
  assert (i < length df)%nat as Hi by (by eapply lookup_lt_Some).
  assert (nrows (V1.frame m) = length df) as Hn
    by (unfold V1.frame; simpl; by rewrite length_fmap).
  destruct (lookup_lt_is_Some_2 (V1.amount m) i) as [a Ha]; [lia|].
  destruct (lookup_lt_is_Some_2 (V1.is_direct_procurement m) i) as [d Hd]; [lia|].
  destruct (lookup_lt_is_Some_2 (V1.is_round_amount m) i) as [rf Hrf]; [lia|].
  destruct (lookup_lt_is_Some_2 (V1.missing_data_count m) i) as [c Hc]; [lia|].
  destruct (lookup_lt_is_Some_2 (V1.risk_label m) i) as [l Hl]; [lia|].
  exists a, d, rf, c, l. split.
  - rewrite to_csv_line by lia. unfold V1.frame, int_cells. simpl.
    by rewrite !list_lookup_fmap, Ha, Hd, Hrf, Hc, Hl.
  - destruct (V1_columns df m Hm) as (raw & Hraw & Hamount & _).
    rewrite Hamount in Ha.
    apply (amount_unparsed _ _ i _ _ Hraw); [by rewrite list_lookup_fmap, Hr|done].
Qed.

Lemma V2_written_line `{DatetimeParser} (df : list V2.Merged.row) m i r :
  V2.engineer_features_v2 df = Ok m -> df !! i = Some r ->
  exists a d rf t c n l,
    lines (to_csv (V2.frame m)) !! i
    = Some [Num a; Num (PyInt d); Num (PyInt rf); Num (PyInt t); Num (PyInt c);
            Num (PyInt n); Num (PyInt l)]
    /\ (unparsed_amount (V2.Merged.value_amount r) -> is_zero a)
    /\ (parse_datetime (V2.Merged.period_startDate <$> df) (V2.Merged.period_startDate r)
        = None
        \/ parse_datetime (V2.Merged.dateSigned <$> df) (V2.Merged.dateSigned r) = None ->
        t = 0).
Proof.
  intros Hm Hr.
  destruct (V2_engineer_features_rows df)
    as (m' & Hm' & La & Ld & Lr & Lt & Lc & Ln & Ll & Hrows).
  rewrite Hm in Hm'. injection Hm' as <-.
  assert (i < length df)%nat as Hi by (by eapply lookup_lt_Some).
  assert (nrows (V2.frame m) = length df) as Hn
    by (unfold V2.frame; simpl; by rewrite length_fmap).
  destruct (lookup_lt_is_Some_2 (V2.amount m) i) as [a Ha]; [lia|].
  destruct (lookup_lt_is_Some_2 (V2.is_direct_procurement m) i) as [d Hd]; [lia|].
  destruct (lookup_lt_is_Some_2 (V2.is_round_amount m) i) as [rf Hrf]; [lia|].
  destruct (lookup_lt_is_Some_2 (V2.suspicious_timing m) i) as [t Ht]; [lia|].
  destruct (lookup_lt_is_Some_2 (V2.supplier_award_count m) i) as [c Hc]; [lia|].
  destruct (lookup_lt_is_Some_2 (V2.new_supplier_direct_deal m) i) as [n Hnn]; [lia|].
  destruct (lookup_lt_is_Some_2 (V2.risk_label m) i) as [l Hl]; [lia|].
  exists a, d, rf, t, c, n, l. split; [|split].
  - rewrite to_csv_line by lia. unfold V2.frame, int_cells. simpl.
    by rewrite !list_lookup_fmap, Ha, Hd, Hrf, Ht, Hc, Hnn, Hl.
  - destruct (V2_columns df m Hm) as (raw & Hraw & Hamount & _).
    rewrite Hamount in Ha.
    apply (amount_unparsed _ _ i _ _ Hraw); [by rewrite list_lookup_fmap, Hr|done].
  - intros Hnat. destruct (Hrows i r Hr) as (a' & _ & _ & _ & Ht' & _).
    rewrite Ht in Ht'. injection Ht' as ->. by apply datetime_lt_NaT.
Qed.

Lemma V3_written_line `{DatetimeParser} (df : list V3.Merged.row) m i r :
  V3.engineer_features_v3 df = Ok m -> df !! i = Some r ->
  exists a d rf t c n l,
    lines (to_csv (V3.frame m)) !! i
    = Some [Num a; Num (PyInt d); Num (PyInt rf); Num (PyInt t); Num (PyInt c);
            Num (PyInt n); Num (PyInt l); V3.Merged.supplier_id r; V3.Merged.name r]
    /\ (unparsed_amount (V3.Merged.value_amount r) -> is_zero a)
    /\ (parse_datetime (V3.Merged.period_startDate <$> df) (V3.Merged.period_startDate r)
        = None
        \/ parse_datetime (V3.Merged.dateSigned <$> df) (V3.Merged.dateSigned r) = None ->
        t = 0).
Proof.
  intros Hm Hr.
  destruct (V3_engineer_features_rows df)
    as (m' & Hm' & La & Ld & Lr & Lt & Lc & Ln & Ll & Hid & Hname & Hrows).
  rewrite Hm in Hm'. injection Hm' as <-.
  assert (i < length df)%nat as Hi by (by eapply lookup_lt_Some).
  assert (nrows (V3.frame m) = length df) as Hn
    by (unfold V3.frame; simpl; by rewrite length_fmap).
  destruct (lookup_lt_is_Some_2 (V3.amount m) i) as [a Ha]; [lia|].
  destruct (lookup_lt_is_Some_2 (V3.is_direct_procurement m) i) as [d Hd]; [lia|].
  destruct (lookup_lt_is_Some_2 (V3.is_round_amount m) i) as [rf Hrf]; [lia|].
  destruct (lookup_lt_is_Some_2 (V3.suspicious_timing m) i) as [t Ht]; [lia|].
  destruct (lookup_lt_is_Some_2 (V3.supplier_award_count m) i) as [c Hc]; [lia|].
  destruct (lookup_lt_is_Some_2 (V3.new_supplier_direct_deal m) i) as [n Hnn]; [lia|].
  destruct (lookup_lt_is_Some_2 (V3.risk_label m) i) as [l Hl]; [lia|].
  exists a, d, rf, t, c, n, l. split; [|split].
  - rewrite to_csv_line by lia. unfold V3.frame, int_cells. simpl.
    by rewrite Hid, Hname, !list_lookup_fmap, Ha, Hd, Hrf, Ht, Hc, Hnn, Hl, Hr.
  - destruct (V3_columns df m Hm) as (raw & Hraw & Hamount & _).
    rewrite Hamount in Ha.
    apply (amount_unparsed _ _ i _ _ Hraw); [by rewrite list_lookup_fmap, Hr|done].
  - intros Hnat. destruct (Hrows i r Hr) as (a' & _ & _ & _ & Ht' & _).
    rewrite Ht in Ht'. injection Ht' as ->. by apply datetime_lt_NaT.
Qed.

Lemma V1_load_and_merge_None fs :
  ~ loadable fs MAIN_FILE Main.usecols \/ ~ loadable fs AWARDS_FILE Awards.usecols ->
  V1.load_and_merge fs = None.
Proof.
  intros Hno.
  destruct (V1.load_and_merge fs) as [df|] eqn:Hload; [|done].
  apply V1_load_and_merge_Some in Hload as (main & awards & Hm & Ha & _).
  apply read_csv_Ok in Hm, Ha. tauto.
Qed.

Lemma V2_load_and_merge_None fs :
  ~ loadable fs MAIN_FILE Main.usecols \/ ~ loadable fs AWARDS_FILE Awards.usecols
  \/ ~ loadable fs CONTRACTS_FILE Contracts.usecols
  \/ ~ loadable fs SUPPLIERS_FILE V2.Suppliers.usecols ->
  V2.load_and_merge_v2 fs = None.
Proof.
  intros Hno.
  destruct (V2.load_and_merge_v2 fs) as [df|] eqn:Hload; [|done].
  apply V2_load_and_merge_Some in Hload
    as (main & awards & contracts & suppliers & Hm & Ha & Hc & Hs & _).
  apply read_csv_Ok in Hm, Ha, Hc, Hs. tauto.
Qed.

Lemma V3_load_and_merge_None fs :
  ~ loadable fs MAIN_FILE Main.usecols \/ ~ loadable fs AWARDS_FILE Awards.usecols
  \/ ~ loadable fs CONTRACTS_FILE Contracts.usecols
  \/ ~ loadable fs SUPPLIERS_FILE V3.Suppliers.usecols ->
  V3.load_and_merge_v3 fs = None.
Proof.
  intros Hno.
  destruct (V3.load_and_merge_v3 fs) as [df|] eqn:Hload; [|done].
  apply V3_load_and_merge_Some in Hload
    as (main & awards & contracts & suppliers & Hm & Ha & Hc & Hs & _).
  apply read_csv_Ok in Hm, Ha, Hc, Hs. tauto.
Qed.

(** What a run does, by what its loader returns. *)
Lemma V1_run fs :
  (V1.load_and_merge fs = None /\ V1.main fs = Ok fs)
  \/ (exists df m, V1.load_and_merge fs = Some df /\ V1.engineer_features df = Ok m
        /\ V1.main fs = Ok (<[V1.PROCESSED_DATA_PATH := to_csv (V1.frame m)]> fs)
        /\ length (lines (to_csv (V1.frame m))) = length df).
Proof.
  destruct (V1.load_and_merge fs) as [df|] eqn:Hload.
  - right. destruct (V1_engineer_features_rows df) as (m & Hm & La & _).
    exists df, m. do 2 (split; [done|]). split; [by eapply V1_main_Some|].
    destruct (to_csv_shape (V1.frame m)) as (_ & -> & _).
    unfold V1.frame. simpl. by rewrite length_fmap.
  - left. split; [done|]. unfold V1.main. by rewrite Hload.
Qed.

Lemma V2_run `{DatetimeParser} fs :
  (V2.load_and_merge_v2 fs = None /\ V2.main fs = Ok fs)
  \/ (exists df m, V2.load_and_merge_v2 fs = Some df /\ V2.engineer_features_v2 df = Ok m
        /\ V2.main fs = Ok (<[V2.PROCESSED_DATA_PATH := to_csv (V2.frame m)]> fs)
        /\ length (lines (to_csv (V2.frame m))) = length df).
Proof.
  destruct (V2.load_and_merge_v2 fs) as [df|] eqn:Hload.
  - right. destruct (V2_engineer_features_rows df) as (m & Hm & La & _).
    exists df, m. do 2 (split; [done|]). split; [by eapply V2_main_Some|].
    destruct (to_csv_shape (V2.frame m)) as (_ & -> & _).
    unfold V2.frame. simpl. by rewrite length_fmap.
  - left. split; [done|]. unfold V2.main. by rewrite Hload.
Qed.

Lemma V3_run `{DatetimeParser} fs :
  (V3.load_and_merge_v3 fs = None /\ V3.main fs = Ok fs)
  \/ (exists df m, V3.load_and_merge_v3 fs = Some df /\ V3.engineer_features_v3 df = Ok m
        /\ V3.main fs = Ok (<[V3.PROCESSED_DATA_PATH := to_csv (V3.frame m)]> fs)
        /\ length (lines (to_csv (V3.frame m))) = length df).
Proof.
  destruct (V3.load_and_merge_v3 fs) as [df|] eqn:Hload.
  - right. destruct (V3_engineer_features_rows df) as (m & Hm & La & _).
    exists df, m. do 2 (split; [done|]). split; [by eapply V3_main_Some|].
    destruct (to_csv_shape (V3.frame m)) as (_ & -> & _).
    unfold V3.frame. simpl. by rewrite length_fmap.
  - left. split; [done|]. unfold V3.main. by rewrite Hload.
Qed.


(** ** The sample run *)

Example sample_v2_rows :
  (fun r => (V2.Merged._link r, V2.Merged.dateSigned r, V2.Merged.name r))
    <$> default [] (V2.load_and_merge_v2 Sample.fs)
  = [ (Str "c1", Str "2024-03-01", Str "ACME LTD");
           (Str "c2", Str "2024-03-01", Str "ACME LTD");
           (Str "c3", NaN, NaN) ].
Proof. vm_compute. reflexivity. Qed.

Example sample_v3_features :
  match V3.engineer_features_v3 (H := iso_dates)
          (default [] (V3.load_and_merge_v3 Sample.fs)) with
  | Ok m => Some (V3.suspicious_timing m, V3.supplier_award_count m,
                  V3.new_supplier_direct_deal m, V3.risk_label m)
  | Raise _ => None
  end
  = Some ([1; 0; 0], [2; 2; 1], [1; 0; 1], [1; 0; 1]).
Proof. vm_compute. reflexivity. Qed.

Example sample_without_awards :
  V1.main Sample.fs_without_awards = Ok Sample.fs_without_awards
  /\ V3.main (H := iso_dates) Sample.fs_without_awards = Ok Sample.fs_without_awards.
Proof. split; vm_compute; reflexivity. Qed.

(** Integer keys do not meet string keys: pandas refuses the join, and the
    loader returns nothing. *)
Example sample_numbered :
  V1.load_and_merge Sample.fs_numbered = None
  /\ V2.load_and_merge_v2 Sample.fs_numbered = None
  /\ V3.load_and_merge_v3 Sample.fs_numbered = None.
Proof. repeat split; vm_compute; reflexivity. Qed.

Example round_flag_values :
  round_flag (PyFloat (Float.of_Z 1000000)) = 1
  /\ round_flag (PyFloat (Float.of_Z 1000001)) = 0
  /\ round_flag (PyFloat (Float.of_Z 500)) = 0
  /\ round_flag (PyInt 2000) = 1
  /\ round_flag (PyFloat (Float.of_bin 4001 (-1))) = 0
  /\ round_flag (PyFloat Float.nan) = 0
  /\ round_flag (PyFloat (S754_infinity false)) = 0.
Proof. repeat split; vm_compute; reflexivity. Qed.

(** The theorems above, at the sample files. *)

Lemma persisted_table_sample :
  exists m,
    V3.engineer_features_v3 (H := iso_dates) (default [] (V3.load_and_merge_v3 Sample.fs)) = Ok m
    /\ V3.main (H := iso_dates) Sample.fs
       = Ok (<[V3.PROCESSED_DATA_PATH := to_csv (V3.frame m)]> Sample.fs)
    /\ header (to_csv (V3.frame m))
       = ["amount"; "is_direct_procurement"; "is_round_amount"; "suspicious_timing";
          "supplier_award_count"; "new_supplier_direct_deal"; "risk_label";
          "supplier_id"; "supplier_name"]
    /\ length (lines (to_csv (V3.frame m))) = 3%nat.
Proof.
  destruct persisted_table_columns as (_ & _ & H3).
  destruct (H3 iso_dates Sample.fs (default [] (V3.load_and_merge_v3 Sample.fs)))
    as (m & Hm & Hmain & Hh & Hl & _); [vm_compute; reflexivity|].
  exists m. split; [exact Hm|]. split; [exact Hmain|]. split; [exact Hh|exact Hl].
Defined.


Lemma sample_loadable :
  loadable Sample.fs MAIN_FILE Main.usecols /\ loadable Sample.fs AWARDS_FILE Awards.usecols
  /\ ~ loadable Sample.fs_without_awards AWARDS_FILE Awards.usecols.
Proof.
  split; [|split].
  - exists Sample.main_csv. split; [by vm_compute|].
    intros c [->|[->|?%elem_of_nil]%elem_of_cons]%elem_of_cons; [| |done];
      simpl; repeat first [by left|right].
  - exists Sample.awards_csv. split; [by vm_compute|].
    intros c [->|[->|?%elem_of_nil]%elem_of_cons]%elem_of_cons; [| |done];
      simpl; repeat first [by left|right].
  - intros (f & Hf & _). vm_compute in Hf. discriminate.
Qed.


Lemma supplier_award_count_sample :
  exists m,
    V3.engineer_features_v3 (H := iso_dates)
      (take 2 (default [] (V3.load_and_merge_v3 Sample.fs))) = Ok m
    /\ V3.supplier_award_count m !! 0%nat = Some 2
    /\ V3.supplier_award_count m !! 1%nat = Some 2.
Proof.
  destruct supplier_award_count_is_population_count as (_ & H3).
  destruct (H3 iso_dates (take 2 (default [] (V3.load_and_merge_v3 Sample.fs))))
    as (m & Hm & _ & Hall).
  exists m. split; [exact Hm|].
  assert (forall r, r ∈ take 2 (default [] (V3.load_and_merge_v3 Sample.fs)) ->
            V3.Merged.supplier_id r = Str "S1") as Hsame.
  { vm_compute take. intros r Hr.
    repeat (apply elem_of_cons in Hr as [->|Hr]; [reflexivity|]).
    by apply elem_of_nil in Hr. }
  split; apply (Hall (Str "S1") eq_refl Hsame); vm_compute; lia.
Defined.

(* ================================================================== *)
(** * Further properties of the pipelines *)
(* ================================================================== *)

(** ** The label, as a decision table *)

Lemma score_v1_label d r c :
  is_flag d -> is_flag r ->
  Float.leb f1_5 (score_v1 d r c) = true <-> d = 1 \/ r = 1.
Proof.
  unfold score_v1.
  intros [->| ->] [->| ->]; destruct (1 <=? c); vm_compute; intuition congruence.
Qed.

Lemma score_v2_label d r t n :
  is_flag d -> is_flag r -> is_flag t -> is_flag n ->
  Float.leb f2_0 (score_v2 d r t n) = true <-> t = 1 \/ n = 1 \/ (d = 1 /\ r = 1).
Proof.
  unfold score_v2.
  intros [->| ->] [->| ->] [->| ->] [->| ->]; vm_compute; intuition congruence.
Qed.

Lemma int_of_bool_1 (b : bool) : int_of_bool b = 1 <-> b = true.
Proof. by destruct b. Qed.

(** X1: in version 1 a row is labelled high risk exactly when it is a direct
    procurement or has a round amount; missing data, however many fields,
    never decides the label. *)
Theorem v1_label_decision_table (df : list Linked.row) :
  exists m, V1.engineer_features df = Ok m /\
    forall i d r l,
      V1.is_direct_procurement m !! i = Some d ->
      V1.is_round_amount m !! i = Some r ->
      V1.risk_label m !! i = Some l ->
      (l = 1 <-> d = 1 \/ r = 1) /\ (l = 0 <-> d = 0 /\ r = 0).
Proof.
  destruct (V1_engineer_features_rows df) as (m & Hm & La & Ld & Lr & Lc & Ll & _).
  exists m. split; [done|]. intros i d r l Hd Hr Hl.
  assert (i < length df)%nat as Hi by (apply lookup_lt_Some in Hd; lia).
  destruct (lookup_lt_is_Some_2 (V1.missing_data_count m) i) as [c Hc]; [lia|].
  destruct (V1_risk_label_lookup df m i d r c Hm Hd Hr Hc) as (Fd & Fr & _ & Hl').
  rewrite Hl' in Hl. injection Hl as <-.
  pose proof (score_v1_label d r c Fd Fr) as Htab.
  destruct (Float.leb f1_5 (score_v1 d r c)); simpl;
    destruct Fd as [->| ->], Fr as [->| ->]; intuition congruence.
Qed.

(** X2: in versions 2 and 3 a row is labelled high risk exactly when its
    timing is suspicious, or it is a new-supplier direct deal, or it is both
    a direct procurement and a round amount. A direct procurement alone, or a
    round amount alone, is not enough. *)
Theorem v2_v3_label_decision_table :
  (forall (H : DatetimeParser) (df : list V2.Merged.row),
     exists m, V2.engineer_features_v2 df = Ok m /\
       forall i d r t n l,
         V2.is_direct_procurement m !! i = Some d ->
         V2.is_round_amount m !! i = Some r ->
         V2.suspicious_timing m !! i = Some t ->
         V2.new_supplier_direct_deal m !! i = Some n ->
         V2.risk_label m !! i = Some l ->
         (l = 1 <-> t = 1 \/ n = 1 \/ (d = 1 /\ r = 1)) /\ is_flag l)
  /\ (forall (H : DatetimeParser) (df : list V3.Merged.row),
     exists m, V3.engineer_features_v3 df = Ok m /\
       forall i d r t n l,
         V3.is_direct_procurement m !! i = Some d ->
         V3.is_round_amount m !! i = Some r ->
         V3.suspicious_timing m !! i = Some t ->
         V3.new_supplier_direct_deal m !! i = Some n ->
         V3.risk_label m !! i = Some l ->
         (l = 1 <-> t = 1 \/ n = 1 \/ (d = 1 /\ r = 1)) /\ is_flag l).
Proof.
  split.
  - intros H df. destruct (V2_engineer_features_rows df) as (m & Hm & _).
    exists m. split; [done|]. intros i d r t n l Hd Hr Ht Hn Hl.
    destruct (V2_risk_label_lookup df m i d r t n Hm Hd Hr Ht Hn)
      as (Fd & Fr & Ft & Fn & _ & Hl').
    rewrite Hl' in Hl. injection Hl as <-.
    split; [|apply int_of_bool_flag].
    rewrite int_of_bool_1. by apply score_v2_label.
  - intros H df. destruct (V3_engineer_features_rows df) as (m & Hm & _).
    exists m. split; [done|]. intros i d r t n l Hd Hr Ht Hn Hl.
    destruct (V3_risk_label_lookup df m i d r t n Hm Hd Hr Ht Hn)
      as (Fd & Fr & Ft & Fn & _ & Hl').
    rewrite Hl' in Hl. injection Hl as <-.
    split; [|apply int_of_bool_flag].
    rewrite int_of_bool_1. by apply score_v2_label.
Qed.

(** ** Monotone scores *)

Lemma score_v1_monotone d r c d' r' c' :
  is_flag d -> is_flag r -> is_flag d' -> is_flag r' ->
  d <= d' -> r <= r' -> c <= c' ->
  Float.leb (score_v1 d r c) (score_v1 d' r' c') = true.
Proof.
  unfold score_v1.
  intros [->| ->] [->| ->] [->| ->] [->| ->] Hd Hr Hc; try lia;
    destruct (1 <=? c) eqn:E, (1 <=? c') eqn:E'; try (vm_compute; reflexivity);
    apply Z.leb_le in E; apply Z.leb_gt in E'; lia.
Qed.

Lemma score_v2_monotone d r t n d' r' t' n' :
  is_flag d -> is_flag r -> is_flag t -> is_flag n ->
  is_flag d' -> is_flag r' -> is_flag t' -> is_flag n' ->
  d <= d' -> r <= r' -> t <= t' -> n <= n' ->
  Float.leb (score_v2 d r t n) (score_v2 d' r' t' n') = true.
Proof.
  unfold score_v2.
  intros [->| ->] [->| ->] [->| ->] [->| ->] [->| ->] [->| ->] [->| ->] [->| ->] Hd Hr Ht Hn;
    try lia; vm_compute; reflexivity.
Qed.

Lemma label_v1_monotone d r c d' r' c' :
  is_flag d -> is_flag r -> is_flag d' -> is_flag r' ->
  d <= d' -> r <= r' ->
  int_of_bool (Float.leb f1_5 (score_v1 d r c))
  <= int_of_bool (Float.leb f1_5 (score_v1 d' r' c')).
Proof.
  intros Fd Fr Fd' Fr' Hd Hr.
  pose proof (score_v1_label d r c Fd Fr) as H1.
  pose proof (score_v1_label d' r' c' Fd' Fr') as H2.
  destruct (Float.leb f1_5 (score_v1 d r c)), (Float.leb f1_5 (score_v1 d' r' c'));
    simpl; try lia.
  assert (d' = 1 \/ r' = 1) as H3; [|apply H2 in H3; discriminate].
  destruct Fd' as [->| ->], Fr' as [->| ->]; try tauto.
  destruct (proj1 H1 eq_refl); lia.
Qed.

Lemma label_v2_monotone d r t n d' r' t' n' :
  is_flag d -> is_flag r -> is_flag t -> is_flag n ->
  is_flag d' -> is_flag r' -> is_flag t' -> is_flag n' ->
  d <= d' -> r <= r' -> t <= t' -> n <= n' ->
  int_of_bool (Float.leb f2_0 (score_v2 d r t n))
  <= int_of_bool (Float.leb f2_0 (score_v2 d' r' t' n')).
Proof.
  intros Fd Fr Ft Fn Fd' Fr' Ft' Fn' Hd Hr Ht Hn.
  pose proof (score_v2_label d r t n Fd Fr Ft Fn) as H1.
  pose proof (score_v2_label d' r' t' n' Fd' Fr' Ft' Fn') as H2.
  destruct (Float.leb f2_0 (score_v2 d r t n)), (Float.leb f2_0 (score_v2 d' r' t' n'));
    simpl; try lia.
  assert (t' = 1 \/ n' = 1 \/ (d' = 1 /\ r' = 1)) as H3; [|apply H2 in H3; discriminate].
  destruct Fd' as [->| ->], Fr' as [->| ->], Ft' as [->| ->], Fn' as [->| ->]; try tauto;
    destruct (proj1 H1 eq_refl) as [?|[?|[??]]]; lia.
Qed.

(** X3: comparing two tables index by index, the risk score and the label
    never decrease when indicators go from 0 to 1 (in version 1, also when
    the count of missing fields grows), whatever the other indicators are. *)
Theorem risk_score_monotone :
  (forall ds rs cs ds' rs' cs' i d r c d' r' c',
     ds !! i = Some d -> rs !! i = Some r -> cs !! i = Some c ->
     ds' !! i = Some d' -> rs' !! i = Some r' -> cs' !! i = Some c' ->
     is_flag d -> is_flag r -> is_flag d' -> is_flag r' ->
     d <= d' -> r <= r' -> c <= c' ->
     exists s s',
       risk_score_v1 ds rs cs !! i = Some s /\ risk_score_v1 ds' rs' cs' !! i = Some s'
       /\ Float.leb s s' = true
       /\ exists l l',
            at_least (risk_score_v1 ds rs cs) f1_5 !! i = Some l
            /\ at_least (risk_score_v1 ds' rs' cs') f1_5 !! i = Some l' /\ l <= l')
  /\ (forall ds rs ts ns ds' rs' ts' ns' i d r t n d' r' t' n',
     ds !! i = Some d -> rs !! i = Some r -> ts !! i = Some t -> ns !! i = Some n ->
     ds' !! i = Some d' -> rs' !! i = Some r' -> ts' !! i = Some t' -> ns' !! i = Some n' ->
     is_flag d -> is_flag r -> is_flag t -> is_flag n ->
     is_flag d' -> is_flag r' -> is_flag t' -> is_flag n' ->
     d <= d' -> r <= r' -> t <= t' -> n <= n' ->
     exists s s',
       risk_score_v2 ds rs ts ns !! i = Some s /\ risk_score_v2 ds' rs' ts' ns' !! i = Some s'
       /\ Float.leb s s' = true
       /\ exists l l',
            at_least (risk_score_v2 ds rs ts ns) f2_0 !! i = Some l
            /\ at_least (risk_score_v2 ds' rs' ts' ns') f2_0 !! i = Some l' /\ l <= l').
Proof.
  split.
  - intros ds rs cs ds' rs' cs' i d r c d' r' c' Hd Hr Hc Hd' Hr' Hc' Fd Fr Fd' Fr' Ld Lr Lc.
    pose proof (risk_score_v1_lookup _ _ _ _ _ _ _ Hd Hr Hc) as Hs.
    pose proof (risk_score_v1_lookup _ _ _ _ _ _ _ Hd' Hr' Hc') as Hs'.
    exists (score_v1 d r c), (score_v1 d' r' c').
    split; [done|]. split; [done|]. split; [by apply score_v1_monotone|].
    unfold at_least. rewrite !list_lookup_fmap, Hs, Hs'. simpl.
    do 2 eexists. split; [done|]. split; [done|]. by apply label_v1_monotone.
  - intros ds rs ts ns ds' rs' ts' ns' i d r t n d' r' t' n'
      Hd Hr Ht Hn Hd' Hr' Ht' Hn' Fd Fr Ft Fn Fd' Fr' Ft' Fn' Ld Lr Lt Ln.
    pose proof (risk_score_v2_lookup _ _ _ _ _ _ _ _ _ Hd Hr Ht Hn) as Hs.
    pose proof (risk_score_v2_lookup _ _ _ _ _ _ _ _ _ Hd' Hr' Ht' Hn') as Hs'.
    exists (score_v2 d r t n), (score_v2 d' r' t' n').
    split; [done|]. split; [done|]. split; [by apply score_v2_monotone|].
    unfold at_least. rewrite !list_lookup_fmap, Hs, Hs'. simpl.
    do 2 eexists. split; [done|]. split; [done|]. by apply label_v2_monotone.
Qed.

(** ** Bounds on the award count *)

(** X4: the award count of a row is at least 1 (the row itself, or the
    default of a nameless supplier) and at most the number of rows. *)
Theorem supplier_award_count_bounds :
  (forall (H : DatetimeParser) (df : list V2.Merged.row),
     exists m, V2.engineer_features_v2 df = Ok m /\
       forall i c, V2.supplier_award_count m !! i = Some c ->
         1 <= c <= Z.of_nat (length df))
  /\ (forall (H : DatetimeParser) (df : list V3.Merged.row),
     exists m, V3.engineer_features_v3 df = Ok m /\
       forall i c, V3.supplier_award_count m !! i = Some c ->
         1 <= c <= Z.of_nat (length df)).
Proof.
  assert (forall (s : list cell) i x, s !! i = Some x ->
            1 <= (if pd_isna x then 1
                  else Z.of_nat (length (filter (fun y => y = x) s)))
              <= Z.of_nat (length s)) as Hbound.
  { intros s i x Hx.
    assert (1 <= length s)%nat by (apply lookup_lt_Some in Hx; lia).
    destruct (pd_isna x); [lia|].
    pose proof (length_filter (fun y => y = x) s).
    assert (x ∈ filter (fun y => y = x) s) as Hin
      by (apply list_elem_of_filter; split; [done|by eapply list_elem_of_lookup_2]).
    destruct (filter (fun y => y = x) s); [by apply elem_of_nil in Hin|simpl in *; lia]. }
  split.
  - intros H df.
    destruct (V2_engineer_features_rows df) as (m & Hm & _ & _ & _ & _ & Lc & _ & _ & Hrows).
    exists m. split; [done|]. intros i c Hc.
    assert (i < length df)%nat as Hi by (apply lookup_lt_Some in Hc; lia).
    destruct (lookup_lt_is_Some_2 df i Hi) as [r Hr].
    destruct (Hrows i r Hr) as (a & _ & _ & _ & _ & Hc' & _).
    rewrite Hc' in Hc. injection Hc as <-.
    rewrite <-(length_fmap V2.Merged.name df).
    apply (Hbound _ i). by rewrite list_lookup_fmap, Hr.
  - intros H df.
    destruct (V3_engineer_features_rows df)
      as (m & Hm & _ & _ & _ & _ & Lc & _ & _ & _ & _ & Hrows).
    exists m. split; [done|]. intros i c Hc.
    assert (i < length df)%nat as Hi by (apply lookup_lt_Some in Hc; lia).
    destruct (lookup_lt_is_Some_2 df i Hi) as [r Hr].
    destruct (Hrows i r Hr) as (a & _ & _ & _ & _ & Hc' & _).
    rewrite Hc' in Hc. injection Hc as <-.
    rewrite <-(length_fmap V3.Merged.supplier_id df).
    apply (Hbound _ i). by rewrite list_lookup_fmap, Hr.
Qed.

(** ** Tenders are not deduplicated *)

Section Multiplicity.
Context {L R O : Type} (left_on : L -> cell) (right_on : R -> cell) (out_key : O -> cell).

Lemma merge_inner_multiplicity (join : L -> R -> O) (left : list L) (right : list R) k :
  (forall l r, out_key (join l r) = left_on l) ->
  NoDup (right_on <$> right) ->
  length (filter (fun o => out_key o = k) (merge_inner left_on right_on join left right))
  = if decide (k ∈ right_on <$> right)
    then length (filter (fun l => left_on l = k) left)
    else 0%nat.
Proof.
  intros Hkey Hnd. unfold merge_inner.
  induction left as [|l left IH].
  - by case_decide.
  - rewrite bind_cons, list.filter_app, length_app, IH, (matches_unique _ _ _ _ Hnd).
    clear IH. unfold first_by.
    destruct (filter (fun r => right_on r = left_on l) right) as [|r rest] eqn:Hf; simpl.
    + destruct (decide (left_on l = k)) as [Heq|Hne].
      * rewrite !decide_False; [done|..]; rewrite <-Heq;
          intros (r & Hk & Hr)%list_elem_of_fmap;
          (assert (r ∈ filter (fun r0 => right_on r0 = left_on l) right) as Hin
             by (by apply list_elem_of_filter));
          rewrite Hf in Hin; by apply elem_of_nil in Hin.
      * by rewrite (filter_cons_False _ l left) by done.
    + assert (r ∈ filter (fun r0 => right_on r0 = left_on l) right) as [Hk Hr]%list_elem_of_filter
        by (rewrite Hf; left).
      destruct (decide (left_on l = k)) as [Heq|Hne].
      * rewrite (filter_cons_True _ (join l r)) by (by rewrite Hkey).
        rewrite (filter_cons_True _ l left) by done. rewrite filter_nil. simpl.
        rewrite !decide_True; [done|..]; rewrite <-Heq, <-Hk;
          apply list_elem_of_fmap; by exists r.
      * rewrite (filter_cons_False _ (join l r)) by (by rewrite Hkey).
        rewrite (filter_cons_False _ l left) by done. rewrite filter_nil. simpl.
        by case_decide.
Qed.

(** The keys of an inner join against a right table with one row per key
    are keys of the left table, in their order. *)
Lemma merge_inner_keys_sublist (join : L -> R -> O) (left : list L) (right : list R) :
  (forall l r, out_key (join l r) = left_on l) ->
  NoDup (right_on <$> right) ->
  out_key <$> merge_inner left_on right_on join left right `sublist_of` left_on <$> left.
Proof.
  intros Hkey Hnd. unfold merge_inner.
  induction left as [|l left IH]; [done|].
  rewrite bind_cons, fmap_app, fmap_cons, (matches_unique _ _ _ _ Hnd).
  destruct (first_by right_on (left_on l) right) as [r|]; simpl.
  - rewrite Hkey. by apply sublist_skip.
  - by apply sublist_cons.
Qed.

End Multiplicity.

(** A key has a row in a deduplicated table when it has one in the
    table. *)
Lemma join_keys_dedup {A} (key : A -> cell) (dl : dtype) (df : list A) (k : cell) :
  held_in_dtype (key <$> df) ->
  k ∈ (fun r => key_of (common_dtype dl (dtype_of (key <$> df))) (key r))
        <$> pd_drop_duplicates key df
  <-> k ∈ (fun r => key_of (common_dtype dl (dtype_of (key <$> df))) (key r)) <$> df.
Proof.
  intros Hh. split.
  - intros (r & -> & Hr)%list_elem_of_fmap. apply list_elem_of_fmap. exists r.
    split; [done|]. by apply pd_drop_duplicates_elem in Hr.
  - intros (r & -> & Hr)%list_elem_of_fmap.
    assert (key_of (dtype_of (key <$> df)) (key r)
              ∈ (fun r => key_of (dtype_of (key <$> df)) (key r))
                  <$> pd_drop_duplicates key df) as (r' & Heq & Hr')%list_elem_of_fmap.
    { apply (elem_of_drop_duplicates_keys (fun r => key_of (dtype_of (key <$> df)) (key r))).
      by apply (list_elem_of_fmap_2 (fun r => key_of (dtype_of (key <$> df)) (key r))). }
    apply list_elem_of_fmap. exists r'. split; [|done].
    apply (own_key_join_key dl (key <$> df)); try done.
    + by apply list_elem_of_fmap_2.
    + apply list_elem_of_fmap_2. by apply pd_drop_duplicates_elem in Hr'.
Qed.

Lemma awards_held fs awards :
  read_csv fs AWARDS_FILE Awards.usecols Awards.of_csv = Ok awards ->
  held_in_dtype (Awards._link_main <$> awards).
Proof. by apply (read_csv_held _ _ _ _ _ _ "_link_main"). Qed.

Lemma awards_key_dtype fs awards :
  read_csv fs AWARDS_FILE Awards.usecols Awards.of_csv = Ok awards ->
  award_keys awards = key_dtype fs AWARDS_FILE.
Proof. by apply (read_csv_key_dtype fs _ _ Awards.of_csv). Qed.

Lemma contracts_key_dtype fs contracts :
  read_csv fs CONTRACTS_FILE Contracts.usecols Contracts.of_csv = Ok contracts ->
  dtype_of (Contracts._link_main <$> contracts) = key_dtype fs CONTRACTS_FILE.
Proof. by apply (read_csv_key_dtype fs _ _ Contracts.of_csv). Qed.

Lemma V2_suppliers_key_dtype fs suppliers :
  read_csv fs SUPPLIERS_FILE V2.Suppliers.usecols V2.Suppliers.of_csv = Ok suppliers ->
  dtype_of (V2.Suppliers._link_main <$> suppliers) = key_dtype fs SUPPLIERS_FILE.
Proof. by apply (read_csv_key_dtype fs _ _ V2.Suppliers.of_csv). Qed.

Lemma V3_suppliers_key_dtype fs suppliers :
  read_csv fs SUPPLIERS_FILE V3.Suppliers.usecols V3.Suppliers.of_csv = Ok suppliers ->
  dtype_of (V3.Suppliers._link_main <$> suppliers) = key_dtype fs SUPPLIERS_FILE.
Proof. by apply (read_csv_key_dtype fs _ _ V3.Suppliers.of_csv). Qed.

Lemma linked_multiplicity (main : list Main.row) (awards : list Awards.row) (k : cell) :
  held_in_dtype (Awards._link_main <$> awards) ->
  exact_join (dtype_of (Main._link <$> main)) (award_keys awards) ->
  length (filter (fun r => same_key (link_dtype main awards) (Linked._link r) k)
            (linked_rows main awards))
  = if decide (key_of (link_dtype main awards) k
                 ∈ (fun a => key_of (link_dtype main awards) (Awards._link_main a)) <$> awards)
    then length (filter (fun m => same_key (link_dtype main awards) (Main._link m) k) main)
    else 0%nat.
Proof.
  intros Hh Hex. unfold linked_rows, inner_join, link_dtype, award_keys in *.
  pose (d := common_dtype (dtype_of (Main._link <$> main))
               (dtype_of (Awards._link_main <$> awards))).
  pose proof (merge_inner_multiplicity
                (fun m => key_of d (Main._link m))
                (fun a => key_of d (Awards._link_main a))
                (fun r => key_of d (Linked._link r))
                Linked.join main (pd_drop_duplicates Awards._link_main awards)
                (key_of d k) (fun _ _ => eq_refl)
                (join_keys_NoDup Awards._link_main _ awards Hh Hex)) as Hcount.
  unfold d in Hcount. clear d.
  etrans; [|etrans; [exact Hcount|]].
  - apply (f_equal length), list_filter_iff. done.
  - destruct (decide (_ ∈ _ <$> awards)) as [Hin|Hin].
    + rewrite decide_True by (by apply (join_keys_dedup Awards._link_main)).
      apply (f_equal length), list_filter_iff. done.
    + rewrite decide_False; [done|]. by rewrite (join_keys_dedup Awards._link_main).
Qed.

Lemma linked_keys_NoDup (main : list Main.row) (awards : list Awards.row) :
  held_in_dtype (Awards._link_main <$> awards) ->
  exact_join (dtype_of (Main._link <$> main)) (award_keys awards) ->
  NoDup ((fun m => key_of (link_dtype main awards) (Main._link m)) <$> main) ->
  NoDup ((fun r => key_of (link_dtype main awards) (Linked._link r))
           <$> linked_rows main awards).
Proof.
  intros Hh Hex Hnd. eapply sublist_NoDup; [exact Hnd|].
  unfold linked_rows, inner_join, link_dtype, award_keys in *.
  pose (d := common_dtype (dtype_of (Main._link <$> main))
               (dtype_of (Awards._link_main <$> awards))).
  apply (merge_inner_keys_sublist
           (fun m => key_of d (Main._link m))
           (fun a => key_of d (Awards._link_main a))
           (fun r => key_of d (Linked._link r))); [done|].
  by apply (join_keys_NoDup Awards._link_main).
Qed.



(** ** The three versions on the same files *)

Lemma suppliers_same_keys fs (s2 : list V2.Suppliers.row) (s3 : list V3.Suppliers.row) :
  read_csv fs SUPPLIERS_FILE V2.Suppliers.usecols V2.Suppliers.of_csv = Ok s2 ->
  read_csv fs SUPPLIERS_FILE V3.Suppliers.usecols V3.Suppliers.of_csv = Ok s3 ->
  V2.Suppliers._link_main <$> s2 = V3.Suppliers._link_main <$> s3.
Proof.
  intros H2 H3.
  destruct (read_csv_column fs _ _ V2.Suppliers.of_csv s2 V2.Suppliers._link_main
              "_link_main" (fun _ => eq_refl) H2) as (f & Hf & ->).
  destruct (read_csv_column fs _ _ V3.Suppliers.of_csv s3 V3.Suppliers._link_main
              "_link_main" (fun _ => eq_refl) H3) as (f' & Hf' & ->).
  rewrite Hf in Hf'. by injection Hf' as <-.
Qed.

(** Versions 2 and 3 join the same tables with supplier tables of the same
    keys: their frames differ in the supplier columns only. *)
Lemma V2_V3_rows_timed fs main awards contracts
    (s2 : list V2.Suppliers.row) (s3 : list V3.Suppliers.row) :
  read_csv fs SUPPLIERS_FILE V2.Suppliers.usecols V2.Suppliers.of_csv = Ok s2 ->
  read_csv fs SUPPLIERS_FILE V3.Suppliers.usecols V3.Suppliers.of_csv = Ok s3 ->
  V2.Merged.timed <$> V2_rows main awards contracts s2
  = V3.Merged.timed <$> V3_rows main awards contracts s3.
Proof.
  intros H2 H3. pose proof (suppliers_same_keys fs s2 s3 H2 H3) as Hkeys.
  unfold V2_rows, V3_rows, V2_supplier_dtype, V3_supplier_dtype. rewrite Hkeys.
  apply left_join_same_base; try done.
  by rewrite V2_suppliers_keys, (pd_drop_duplicates_keys V3.Suppliers._link_main), Hkeys.
Qed.

(** On keys beyond 2^53 the versions part: version 1 has the one row of
    the inner join, versions 2 and 3 have two. *)
Lemma versions_differ_on_rounded_keys :
  length <$> V1.load_and_merge Rounded.fs = Some 1%nat
  /\ length <$> V2.load_and_merge_v2 Rounded.fs = Some 2%nat
  /\ length <$> V3.load_and_merge_v3 Rounded.fs = Some 2%nat
  /\ ~ exact_join (key_dtype Rounded.fs AWARDS_FILE) (key_dtype Rounded.fs CONTRACTS_FILE).
Proof.
  repeat split; try (vm_compute; reflexivity).
  intros Hex. apply Hex. split; vm_compute; reflexivity.
Qed.



(** ** Runs and reruns *)

Lemma read_csv_same {A} (fs fs' : filesystem) path usecols (row : (string -> cell) -> A) :
  fs !! path = fs' !! path ->
  read_csv fs path usecols row = read_csv fs' path usecols row.
Proof. intros Heq. unfold read_csv. by rewrite Heq. Qed.

Lemma V1_load_same fs fs' :
  same_sources fs fs' -> V1.load_and_merge fs = V1.load_and_merge fs'.
Proof.
  intros Hsame. unfold V1.load_and_merge.
  rewrite (read_csv_same fs fs' MAIN_FILE), (read_csv_same fs fs' AWARDS_FILE); [done|..];
    apply Hsame; set_solver.
Qed.

Lemma V2_load_same fs fs' :
  same_sources fs fs' -> V2.load_and_merge_v2 fs = V2.load_and_merge_v2 fs'.
Proof.
  intros Hsame. unfold V2.load_and_merge_v2.
  rewrite (read_csv_same fs fs' MAIN_FILE), (read_csv_same fs fs' AWARDS_FILE),
    (read_csv_same fs fs' CONTRACTS_FILE), (read_csv_same fs fs' SUPPLIERS_FILE); [done|..];
    apply Hsame; set_solver.
Qed.

Lemma V3_load_same fs fs' :
  same_sources fs fs' -> V3.load_and_merge_v3 fs = V3.load_and_merge_v3 fs'.
Proof.
  intros Hsame. unfold V3.load_and_merge_v3.
  rewrite (read_csv_same fs fs' MAIN_FILE), (read_csv_same fs fs' AWARDS_FILE),
    (read_csv_same fs fs' CONTRACTS_FILE), (read_csv_same fs fs' SUPPLIERS_FILE); [done|..];
    apply Hsame; set_solver.
Qed.

Lemma same_sources_write (path : string) out fs :
  path ∉ [MAIN_FILE; AWARDS_FILE; CONTRACTS_FILE; SUPPLIERS_FILE] ->
  same_sources fs (write_output path out fs).
Proof.
  intros Hpath p Hp. destruct out as [t|]; simpl; [|done].
  rewrite lookup_insert_ne; [done|]. by intros ->.
Qed.

Lemma same_sources_trans fs1 fs2 fs3 :
  same_sources fs1 fs2 -> same_sources fs2 fs3 -> same_sources fs1 fs3.
Proof. intros H12 H23 p Hp. by rewrite H12, H23. Qed.

Lemma output_paths_apart :
  (V1.PROCESSED_DATA_PATH ∉ [MAIN_FILE; AWARDS_FILE; CONTRACTS_FILE; SUPPLIERS_FILE])
  /\ (V2.PROCESSED_DATA_PATH ∉ [MAIN_FILE; AWARDS_FILE; CONTRACTS_FILE; SUPPLIERS_FILE])
  /\ (V3.PROCESSED_DATA_PATH ∉ [MAIN_FILE; AWARDS_FILE; CONTRACTS_FILE; SUPPLIERS_FILE])
  /\ V1.PROCESSED_DATA_PATH ≠ V2.PROCESSED_DATA_PATH
  /\ V1.PROCESSED_DATA_PATH ≠ V3.PROCESSED_DATA_PATH
  /\ V2.PROCESSED_DATA_PATH ≠ V3.PROCESSED_DATA_PATH.
Proof.
  split_and!; try discriminate;
    intros Hin; repeat (apply elem_of_cons in Hin as [Hin|Hin]; [discriminate|]);
    by apply elem_of_nil in Hin.
Qed.

Lemma V1_main_effect fs :
  exists out, forall fs', same_sources fs fs' ->
    V1.main fs' = Ok (write_output V1.PROCESSED_DATA_PATH out fs').
Proof.
  destruct (V1.load_and_merge fs) as [df|] eqn:Hload.
  - destruct (V1_engineer_features_rows df) as (m & Hm & _).
    exists (Some (to_csv (V1.frame m))). intros fs' Hsame.
    apply V1_main_Some with df; [|done]. by rewrite <-(V1_load_same fs fs').
  - exists None. intros fs' Hsame. unfold V1.main.
    by rewrite <-(V1_load_same fs fs'), Hload.
Qed.

Lemma V2_main_effect `{DatetimeParser} fs :
  exists out, forall fs', same_sources fs fs' ->
    V2.main fs' = Ok (write_output V2.PROCESSED_DATA_PATH out fs').
Proof.
  destruct (V2.load_and_merge_v2 fs) as [df|] eqn:Hload.
  - destruct (V2_engineer_features_rows df) as (m & Hm & _).
    exists (Some (to_csv (V2.frame m))). intros fs' Hsame.
    apply V2_main_Some with df; [|done]. by rewrite <-(V2_load_same fs fs').
  - exists None. intros fs' Hsame. unfold V2.main.
    by rewrite <-(V2_load_same fs fs'), Hload.
Qed.

Lemma V3_main_effect `{DatetimeParser} fs :
  exists out, forall fs', same_sources fs fs' ->
    V3.main fs' = Ok (write_output V3.PROCESSED_DATA_PATH out fs').
Proof.
  destruct (V3.load_and_merge_v3 fs) as [df|] eqn:Hload.
  - destruct (V3_engineer_features_rows df) as (m & Hm & _).
    exists (Some (to_csv (V3.frame m))). intros fs' Hsame.
    apply V3_main_Some with df; [|done]. by rewrite <-(V3_load_same fs fs').
  - exists None. intros fs' Hsame. unfold V3.main.
    by rewrite <-(V3_load_same fs fs'), Hload.
Qed.

Lemma write_output_idemp path out (fs : filesystem) :
  write_output path out (write_output path out fs) = write_output path out fs.
Proof. destruct out; simpl; [apply insert_insert_eq|done]. Qed.

Lemma write_output_commute p1 p2 o1 o2 (fs : filesystem) :
  p1 ≠ p2 ->
  write_output p2 o2 (write_output p1 o1 fs) = write_output p1 o1 (write_output p2 o2 fs).
Proof. intros Hne. destruct o1, o2; simpl; try done. by apply insert_insert_ne. Qed.

Lemma same_sources_refl fs : same_sources fs fs.
Proof. by intros p Hp. Qed.

Lemma write_output_elsewhere path out (fs : filesystem) p :
  p ≠ path -> write_output path out fs !! p = fs !! p.
Proof. intros Hne. destruct out; simpl; [by rewrite lookup_insert_ne|done]. Qed.

(** X7: a run reads the four source files and writes at most its own output
    path: every other file is left as it was, running the same version again
    changes nothing more, and two versions run one after the other leave the
    same files in either order. *)
Theorem runs_touch_only_their_output :
  (forall fs fs1, V1.main fs = Ok fs1 ->
     (forall p, p ≠ V1.PROCESSED_DATA_PATH -> fs1 !! p = fs !! p)
     /\ V1.main fs1 = Ok fs1)
  /\ (forall (H : DatetimeParser) fs fs1, V2.main fs = Ok fs1 ->
     (forall p, p ≠ V2.PROCESSED_DATA_PATH -> fs1 !! p = fs !! p)
     /\ V2.main fs1 = Ok fs1)
  /\ (forall (H : DatetimeParser) fs fs1, V3.main fs = Ok fs1 ->
     (forall p, p ≠ V3.PROCESSED_DATA_PATH -> fs1 !! p = fs !! p)
     /\ V3.main fs1 = Ok fs1)
  /\ (forall (H : DatetimeParser) fs fa fab fb fba,
     V1.main fs = Ok fa -> V2.main fa = Ok fab ->
     V2.main fs = Ok fb -> V1.main fb = Ok fba -> fab = fba)
  /\ (forall (H : DatetimeParser) fs fa fab fb fba,
     V1.main fs = Ok fa -> V3.main fa = Ok fab ->
     V3.main fs = Ok fb -> V1.main fb = Ok fba -> fab = fba)
  /\ (forall (H : DatetimeParser) fs fa fab fb fba,
     V2.main fs = Ok fa -> V3.main fa = Ok fab ->
     V3.main fs = Ok fb -> V2.main fb = Ok fba -> fab = fba).
Proof.
  destruct output_paths_apart as (P1 & P2 & P3 & N12 & N13 & N23).
  split_and!.
  - intros fs fs1 Hrun. destruct (V1_main_effect fs) as [out Heff].
    rewrite (Heff fs (same_sources_refl fs)) in Hrun. injection Hrun as <-.
    split; [intros p Hp; by apply write_output_elsewhere|].
    rewrite (Heff _ (same_sources_write _ out fs P1)). by rewrite write_output_idemp.
  - intros H fs fs1 Hrun. destruct (V2_main_effect fs) as [out Heff].
    rewrite (Heff fs (same_sources_refl fs)) in Hrun. injection Hrun as <-.
    split; [intros p Hp; by apply write_output_elsewhere|].
    rewrite (Heff _ (same_sources_write _ out fs P2)). by rewrite write_output_idemp.
  - intros H fs fs1 Hrun. destruct (V3_main_effect fs) as [out Heff].
    rewrite (Heff fs (same_sources_refl fs)) in Hrun. injection Hrun as <-.
    split; [intros p Hp; by apply write_output_elsewhere|].
    rewrite (Heff _ (same_sources_write _ out fs P3)). by rewrite write_output_idemp.
  - intros H fs fa fab fb fba Ha Hab Hb Hba.
    destruct (V1_main_effect fs) as [o1 E1]. destruct (V2_main_effect fs) as [o2 E2].
    rewrite (E1 fs (same_sources_refl fs)) in Ha. injection Ha as <-.
    rewrite (E2 fs (same_sources_refl fs)) in Hb. injection Hb as <-.
    rewrite (E2 _ (same_sources_write _ o1 fs P1)) in Hab. injection Hab as <-.
    rewrite (E1 _ (same_sources_write _ o2 fs P2)) in Hba. injection Hba as <-.
    by apply write_output_commute.
  - intros H fs fa fab fb fba Ha Hab Hb Hba.
    destruct (V1_main_effect fs) as [o1 E1]. destruct (V3_main_effect fs) as [o2 E2].
    rewrite (E1 fs (same_sources_refl fs)) in Ha. injection Ha as <-.
    rewrite (E2 fs (same_sources_refl fs)) in Hb. injection Hb as <-.
    rewrite (E2 _ (same_sources_write _ o1 fs P1)) in Hab. injection Hab as <-.
    rewrite (E1 _ (same_sources_write _ o2 fs P3)) in Hba. injection Hba as <-.
    by apply write_output_commute.
  - intros H fs fa fab fb fba Ha Hab Hb Hba.
    destruct (V2_main_effect fs) as [o1 E1]. destruct (V3_main_effect fs) as [o2 E2].
    rewrite (E1 fs (same_sources_refl fs)) in Ha. injection Ha as <-.
    rewrite (E2 fs (same_sources_refl fs)) in Hb. injection Hb as <-.
    rewrite (E2 _ (same_sources_write _ o1 fs P2)) in Hab. injection Hab as <-.
    rewrite (E1 _ (same_sources_write _ o2 fs P3)) in Hba. injection Hba as <-.
    by apply write_output_commute.
Qed.

(** ** The value normalizer and its separators *)

Lemma remove_char_cons (c x : ascii) (s : string) :
  Py.remove (String c EmptyString) (String x s)
  = if Ascii.eqb x c then Py.remove (String c EmptyString) s
    else String x (Py.remove (String c EmptyString) s).
Proof.
  unfold Py.remove. cbn [Py.remove_from String.prefix String.length Nat.pred].
  destruct (Ascii.eqb_spec x c) as [->|Hne].
  - destruct (ascii_dec c c); [|congruence]. by destruct s.
  - destruct (ascii_dec c x); [congruence|done].
Qed.

Lemma remove_char_app (c : ascii) (s1 s2 : string) :
  Py.remove (String c EmptyString) (s1 ++ s2)
  = (Py.remove (String c EmptyString) s1 ++ Py.remove (String c EmptyString) s2)%string.
Proof.
  induction s1 as [|x s1 IH]; [done|].
  change (String x s1 ++ s2)%string with (String x (s1 ++ s2)).
  rewrite !remove_char_cons, IH. by destruct (Ascii.eqb x c).
Qed.

Lemma remove_char_absent (c : ascii) (s : string) :
  has_char c s = false -> Py.remove (String c EmptyString) s = s.
Proof.
  induction s as [|x s IH]; [done|]. simpl.
  intros [Hx Hs]%orb_false_iff. rewrite remove_char_cons, Hx, IH; done.
Qed.

Lemma has_char_remove_same (c : ascii) (s : string) :
  has_char c (Py.remove (String c EmptyString) s) = false.
Proof.
  induction s as [|x s IH]; [done|].
  rewrite remove_char_cons. destruct (Ascii.eqb x c) eqn:Hx; [done|].
  simpl. by rewrite Hx, IH.
Qed.

Lemma has_char_remove_other (c d : ascii) (s : string) :
  has_char c s = false -> has_char c (Py.remove (String d EmptyString) s) = false.
Proof.
  induction s as [|x s IH]; [done|]. simpl.
  intros [Hx Hs]%orb_false_iff. rewrite remove_char_cons.
  destruct (Ascii.eqb x d); [by apply IH|]. simpl. by rewrite Hx, IH.
Qed.

Lemma has_char_app (c : ascii) (s1 s2 : string) :
  has_char c (s1 ++ s2) = has_char c s1 || has_char c s2.
Proof.
  induction s1 as [|x s1 IH]; [done|]. simpl. by rewrite IH, orb_assoc.
Qed.

Lemma remove_KES_absent (s : string) :
  has_char "K" s = false -> Py.remove "KES" s = s.
Proof.
  unfold Py.remove. induction s as [|x s IH]; [done|].
  cbn [has_char Py.remove_from String.prefix].
  intros [Hx Hs]%orb_false_iff.
  destruct (ascii_dec "K" x) as [<-|Hne]; [by vm_compute in Hx|]. by rewrite (IH Hs).
Qed.

Lemma remove_KES_prefix (s : string) :
  Py.remove "KES" ("KES" ++ s) = Py.remove "KES" s.
Proof. unfold Py.remove. simpl. by destruct s. Qed.

Example clean_str_split_label :
  clean_currency (Str "K,ES 5") = Ok (PyInt 0)
  /\ clean_currency (Str "KES 5") = Ok (PyFloat (Float.of_Z 5)).
Proof. split; vm_compute; reflexivity. Qed.

(** X8: what [clean_currency] reads never contains a space or a comma; a
    leading [KES] is ignored; and in a string without the letter [K] a comma
    or a space may be inserted anywhere without changing the result. *)
Theorem clean_currency_ignores_separators :
  (forall s, has_char " " (clean_str s) = false /\ has_char "," (clean_str s) = false)
  /\ (forall s, clean_currency (Str ("KES" ++ s)) = clean_currency (Str s))
  /\ (forall s1 s2, has_char "K" s1 = false -> has_char "K" s2 = false ->
        clean_currency (Str (s1 ++ "," ++ s2)) = clean_currency (Str (s1 ++ s2))
        /\ clean_currency (Str (s1 ++ " " ++ s2)) = clean_currency (Str (s1 ++ s2))).
Proof.
  split; [|split].
  - intros s. unfold clean_str. split.
    + apply has_char_remove_same.
    + apply has_char_remove_other, has_char_remove_same.
  - intros s. unfold clean_currency, clean_str. simpl. by rewrite remove_KES_prefix.
  - intros s1 s2 H1 H2.
    assert (forall sep : string, has_char "K" sep = false ->
              clean_str (s1 ++ sep ++ s2)
              = (clean_str s1 ++ clean_str sep ++ clean_str s2)%string) as Hsplit.
    { intros sep Hsep. unfold clean_str.
      rewrite !remove_KES_absent by (by rewrite ?has_char_app, ?H1, ?H2, ?Hsep).
      by rewrite !remove_char_app. }
    assert (clean_str (s1 ++ s2) = (clean_str s1 ++ clean_str s2)%string) as Hjoin.
    { unfold clean_str.
      rewrite !remove_KES_absent by (by rewrite ?has_char_app, ?H1, ?H2).
      by rewrite !remove_char_app. }
    unfold clean_currency. simpl.
    rewrite (Hsplit "," eq_refl), (Hsplit " " eq_refl), Hjoin. done.
Qed.

(** ** Whole numbers *)

(** X9: a non-empty string of decimal digits is read as the float of the
    number it spells. *)
Theorem clean_currency_whole_number (ds : list ascii) :
  ds <> [] -> Forall (fun d => Py.is_digit d = true) ds ->
  clean_currency (Str (string_of_list_ascii ds))
  = Ok (PyFloat (Float.of_Z (Py.digits_value ds))).
Proof.
  intros Hne Hds. unfold clean_currency, clean_str, Py.float_of_str. simpl.
  rewrite remove_KES_absent by (by apply digits_has_char).
  rewrite (remove_char_absent ",") by (by apply digits_has_char).
  rewrite (remove_char_absent " ") by (by apply digits_has_char).
  by rewrite digits_parse_float.
Qed.

Lemma clean_currency_whole_number_sample :
  clean_currency (Str "1000000") = Ok (PyFloat (Float.of_Z 1000000)).
Proof.
  apply (clean_currency_whole_number (list_ascii_of_string "1000000")).
  - discriminate.
  - repeat constructor.
Defined.

(** ** The trainers read what the pipelines write *)

Lemma column_of_lookups (l : list cell) :
  (fun i => default NaN (l !! i)) <$> seq 0 (length l) = l.
Proof.
  apply list_eq. intros i. rewrite list_lookup_fmap.
  destruct (decide (i < length l)%nat) as [Hi|Hi].
  - rewrite lookup_seq_lt by done. simpl.
    destruct (lookup_lt_is_Some_2 l i Hi) as [x Hx]. by rewrite Hx.
  - rewrite lookup_seq_ge by lia. simpl. symmetry. apply lookup_ge_None. lia.
Qed.

Lemma field_to_csv (df : list (string * list cell)) (i j : nat) (c : string) (col : list cell) :
  list_find (fun h => h = c) df.*1 = Some (j, c) ->
  df !! j = Some (c, col) ->
  field (to_csv df) ((fun col => default NaN (col.2 !! i)) <$> df) c = default NaN (col !! i).
Proof.
  intros Hfind Hcol. unfold field. simpl. rewrite Hfind.
  by rewrite list_lookup_fmap, Hcol.
Qed.

Lemma training_data_written path features target fs (df : list (string * list cell))
    (j : nat) y :
  forallb (fun c => bool_decide (c ∈ df.*1)) features = true ->
  list_find (fun h => h = target) df.*1 = Some (j, target) ->
  df !! j = Some (target, y) ->
  length y = nrows df ->
  exists X,
    training_data_of path features target (<[path := to_csv df]> fs) = Training X y
    /\ header X = features
    /\ length (lines X) = nrows df.
Proof.
  intros Hfeat Hfind Hcol Hlen.
  unfold training_data_of, select_columns, select_column.
  rewrite lookup_insert_eq.
  change (header (to_csv df)) with (df.*1). rewrite Hfeat.
  assert (target ∈ df.*1) as Hin.
  { apply list_find_Some in Hfind as (Hj & _). by eapply list_elem_of_lookup_2. }
  rewrite bool_decide_eq_true_2 by done.
  change (lines (to_csv df))
    with ((fun i => (fun col : string * list cell => default NaN (col.2 !! i)) <$> df)
            <$> seq 0 (nrows df)).
  assert ((fun line => field (to_csv df) line target)
            <$> ((fun i => (fun col : string * list cell => default NaN (col.2 !! i)) <$> df)
                   <$> seq 0 (nrows df)) = y) as ->.
  { transitivity ((fun i => default NaN (y !! i)) <$> seq 0 (length y));
      [|apply column_of_lookups].
    rewrite <-list_fmap_compose, Hlen.
    apply list_fmap_ext. intros k i _. simpl. by apply field_to_csv with j. }
  eexists. split; [done|]. split; [done|].
  simpl. by rewrite !length_fmap, length_seq.
Qed.

(** X10: a run that links its sources leaves a table that its trainer
    reads without a [KeyError]: the features are the columns the trainer
    lists, in that order, with one row per linked contract; the target is
    the label column of the run; and the prediction form of the version
    submits a frame with the same columns in the same order. *)
Theorem trainer_reads_pipeline_output `{DatetimeParser} :
  (forall fs df, V1.load_and_merge fs = Some df ->
     exists fs' m X,
       V1.main fs = Ok fs' /\ V1.engineer_features df = Ok m
       /\ Train.train_model fs' = Training X (int_cells (V1.risk_label m))
       /\ header X = Train.features_v1
       /\ length (lines X) = length df
       /\ forall amount method missing,
            header (App.input_data amount method missing) = header X)
  /\ (forall fs df, V2.load_and_merge_v2 fs = Some df ->
     exists fs' m X,
       V2.main fs = Ok fs' /\ V2.engineer_features_v2 df = Ok m
       /\ Train.train_model_v2 fs' = Training X (int_cells (V2.risk_label m))
       /\ header X = Train.features_v2
       /\ length (lines X) = length df
       /\ forall amount method count timing,
            header (App.input_data_v2 amount method count timing) = header X)
  /\ (forall fs df, V3.load_and_merge_v3 fs = Some df ->
     exists fs' m X,
       V3.main fs = Ok fs' /\ V3.engineer_features_v3 df = Ok m
       /\ Train.train_model_v3 fs' = Training X (int_cells (V3.risk_label m))
       /\ header X = Train.features_v2
       /\ length (lines X) = length df
       /\ forall amount method count timing,
            header (App.input_data_v2 amount method count timing) = header X).
Proof.
  split_and!.
  - intros fs df Hload.
    destruct (V1_engineer_features_rows df) as (m & Hm & Ha & _ & _ & _ & Hl & _).
    destruct (training_data_written V1.PROCESSED_DATA_PATH Train.features_v1 Train.target
                fs (V1.frame m) 4 (int_cells (V1.risk_label m)))
      as (X & HX & Hh & Hn).
    { vm_compute. reflexivity. }
    { vm_compute. reflexivity. }
    { reflexivity. }
    { simpl. unfold int_cells. by rewrite !length_fmap, Hl, Ha. }
    exists (<[V1.PROCESSED_DATA_PATH := to_csv (V1.frame m)]> fs), m, X.
    split; [by apply V1_main_Some with df|]. split; [done|]. split; [exact HX|].
    split; [done|]. split.
    + rewrite Hn. simpl. by rewrite length_fmap.
    + intros. by rewrite Hh.
  - intros fs df Hload.
    destruct (V2_engineer_features_rows df) as (m & Hm & Ha & _ & _ & _ & _ & _ & Hl & _).
    destruct (training_data_written V2.PROCESSED_DATA_PATH Train.features_v2 Train.target
                fs (V2.frame m) 6 (int_cells (V2.risk_label m)))
      as (X & HX & Hh & Hn).
    { vm_compute. reflexivity. }
    { vm_compute. reflexivity. }
    { reflexivity. }
    { simpl. unfold int_cells. by rewrite !length_fmap, Hl, Ha. }
    exists (<[V2.PROCESSED_DATA_PATH := to_csv (V2.frame m)]> fs), m, X.
    split; [by apply V2_main_Some with df|]. split; [done|]. split; [exact HX|].
    split; [done|]. split.
    + rewrite Hn. simpl. by rewrite length_fmap.
    + intros. by rewrite Hh.
  - intros fs df Hload.
    destruct (V3_engineer_features_rows df) as (m & Hm & Ha & _ & _ & _ & _ & _ & Hl & _).
    destruct (training_data_written V3.PROCESSED_DATA_PATH Train.features_v2 Train.target
                fs (V3.frame m) 6 (int_cells (V3.risk_label m)))
      as (X & HX & Hh & Hn).
    { vm_compute. reflexivity. }
    { vm_compute. reflexivity. }
    { reflexivity. }
    { simpl. unfold int_cells. by rewrite !length_fmap, Hl, Ha. }
    exists (<[V3.PROCESSED_DATA_PATH := to_csv (V3.frame m)]> fs), m, X.
    split; [by apply V3_main_Some with df|]. split; [done|]. split; [exact HX|].
    split; [done|]. split.
    + rewrite Hn. simpl. by rewrite length_fmap.
    + intros. by rewrite Hh.
Qed.

(** ** The supplier page *)

Section SupplierPage.
Context `{NumberRepr}.

Lemma load_all_data_Frame fs f parties :
  fs !! Supplier360.PROCESSED_DATA_PATH = Some f ->
  read_csv fs Supplier360.PARTIES_FILE Supplier360.Parties.usecols Supplier360.Parties.of_csv
  = Ok parties ->
  "supplier_id" ∈ header f -> "supplier_name" ∈ header f -> "official_name" ∉ header f ->
  Supplier360.load_all_data fs
  = Supplier360.Returns (Supplier360.Frame
      (merge_left (fun l => Str l.2) Supplier360.Parties.supplier_id
         (fun l p => Supplier360.join (field f l.1 "supplier_name") l p)
         ((fun line => (line, astype_str (field f line "supplier_id"))) <$> lines f)
         ((fun p => {| Supplier360.Parties.supplier_id :=
                         Str (astype_str (Supplier360.Parties.supplier_id p));
                       Supplier360.Parties.official_name :=
                         Supplier360.Parties.official_name p |})
            <$> drop_duplicates Supplier360.Parties.supplier_id parties))).
Proof.
  intros Hf Hp Hid Hname Hoff. unfold Supplier360.load_all_data.
  rewrite Hf, Hp.
  rewrite (bool_decide_eq_true_2 _ Hid), (bool_decide_eq_false_2 _ Hoff),
    (bool_decide_eq_true_2 _ Hname). done.
Qed.


(** X12: when the processed table or the address book cannot be loaded,
    [load_all_data] returns the pair [(None, None)], which is not [None]:
    the page goes on and dies of the missing attribute. The message of its
    [else] branch is never shown. *)
Theorem failed_load_is_not_reported :
  (forall fs,
     fs !! Supplier360.PROCESSED_DATA_PATH = None
     \/ ~ loadable fs Supplier360.PARTIES_FILE Supplier360.Parties.usecols ->
     Supplier360.load_all_data fs
     = Supplier360.Returns (Supplier360.Pair Supplier360.PyNone Supplier360.PyNone)
     /\ Supplier360.page_start fs = Supplier360.Crash (Supplier360.NoAttribute "dropna"))
  /\ (forall fs, Supplier360.page_start fs <> Supplier360.DatabaseNotLoaded).
Proof.
  split.
  - intros fs Hno.
    assert (Supplier360.load_all_data fs
            = Supplier360.Returns (Supplier360.Pair Supplier360.PyNone Supplier360.PyNone))
      as Hload.
    { unfold Supplier360.load_all_data.
      destruct (fs !! Supplier360.PROCESSED_DATA_PATH) as [f|] eqn:Hf; [|done].
      destruct Hno as [?|Hno]; [done|].
      destruct (read_csv_not_loadable fs _ _ Supplier360.Parties.of_csv Hno) as [e ->].
      done. }
    split; [done|]. unfold Supplier360.page_start. by rewrite Hload.
  - intros fs. unfold Supplier360.page_start, Supplier360.load_all_data.
    destruct (fs !! Supplier360.PROCESSED_DATA_PATH) as [f|]; [|done].
    destruct (read_csv _ _ _ _) as [parties|e]; [|done].
    repeat case_bool_decide; done.
Qed.

End SupplierPage.


(** ** From the search box back to the supplier *)

Lemma prefix_get (s1 s2 : string) (n : nat) (x : ascii) :
  String.prefix s1 s2 = true -> String.get n s1 = Some x -> String.get n s2 = Some x.
Proof.
  revert s2 n. induction s1 as [|a s1 IH]; intros s2 n; [by destruct n|].
  destruct s2 as [|b s2]; [done|]. cbn [String.prefix].
  destruct (ascii_dec a b) as [->|]; [|done].
  intros Hpre. destruct n as [|n]; [done|]. cbn [String.get]. by apply IH.
Qed.

Lemma get_has_char (n : nat) (s : string) (x : ascii) :
  String.get n s = Some x -> has_char x s = true.
Proof.
  revert n. induction s as [|c s IH]; intros n; [by destruct n|].
  destruct n as [|n]; cbn [String.get has_char].
  - intros [= ->]. by rewrite Ascii.eqb_refl.
  - intros Hn. rewrite (IH n Hn). apply orb_true_r.
Qed.

Lemma append_empty (s : string) : (s ++ EmptyString)%string = s.
Proof.
  induction s as [|x s IH]; [done|].
  change (String x (s ++ EmptyString)%string = String x s). by rewrite IH.
Qed.

Lemma append_char (cur s : string) (c : ascii) :
  ((cur ++ String c EmptyString) ++ s)%string = (cur ++ String c s)%string.
Proof.
  induction cur as [|x cur IH]; [done|].
  change (String x ((cur ++ String c EmptyString) ++ s)%string
          = String x (cur ++ String c s)%string).
  by rewrite IH.
Qed.

Lemma split_plain (s cur : string) :
  has_char ":" s = false -> split_from " (ID: " 0 cur s = [(cur ++ s)%string].
Proof.
  revert cur. induction s as [|c s IH]; intros cur Hno.
  - simpl. by rewrite append_empty.
  - cbn [split_from].
    destruct (String.prefix " (ID: " (String c s)) eqn:Hpre.
    + pose proof (prefix_get _ _ 4 ":" Hpre eq_refl) as Hget.
      apply get_has_char in Hget. congruence.
    + cbn [has_char] in Hno. apply orb_false_iff in Hno as [_ Hno].
      by rewrite (IH _ Hno), append_char.
Qed.

Lemma no_match_before (c : ascii) (s u : string) :
  has_char ":" (String c s) = false ->
  String.prefix " (ID: " (String c s ++ " (ID: " ++ u) = false.
Proof.
  intros Hno.
  destruct (String.prefix " (ID: " (String c s ++ " (ID: " ++ u)) eqn:Hpre; [|done].
  pose proof (prefix_get _ _ 4 ":" Hpre eq_refl) as Hget.
  destruct s as [|c2 [|c3 [|c4 [|c5 s]]]]; try discriminate Hget.
  injection Hget as ->.
  cbn [has_char] in Hno.
  do 4 (apply orb_false_iff in Hno as [_ Hno]).
  apply orb_false_iff in Hno as [Hno _]. by rewrite Ascii.eqb_refl in Hno.
Qed.

Lemma split_at_separator (cur u : string) :
  split_from " (ID: " 0 cur (" (ID: " ++ u)
  = cur :: split_from " (ID: " 0 EmptyString u.
Proof.
  change (" (ID: " ++ u)%string
    with (String " " (String "(" (String "I" (String "D" (String ":" (String " " u)))))).
  cbn [split_from String.prefix String.length Nat.pred]. simpl.
  by destruct u.
Qed.

Lemma split_name (name cur u : string) :
  has_char ":" name = false ->
  split_from " (ID: " 0 cur (name ++ " (ID: " ++ u)
  = (cur ++ name)%string :: split_from " (ID: " 0 EmptyString u.
Proof.
  revert cur. induction name as [|c name IH]; intros cur Hno.
  - rewrite append_empty. apply split_at_separator.
  - change (String c name ++ " (ID: " ++ u)%string
      with (String c (name ++ " (ID: " ++ u)).
    cbn [split_from].
    change (String c (name ++ " (ID: " ++ u)) with (String c name ++ " (ID: " ++ u)%string.
    rewrite (no_match_before c name u Hno).
    cbn [has_char] in Hno. apply orb_false_iff in Hno as [_ Hno].
    by rewrite (IH _ Hno), append_char.
Qed.

Lemma selected_id_display_name (name id : string) :
  has_char ":" name = false -> has_char ":" id = false -> has_char ")" id = false ->
  Supplier360.selected_id (Supplier360.display_name name id) = id.
Proof.
  intros Hname Hid Hparen.
  unfold Supplier360.selected_id, Supplier360.display_name, split.
  rewrite split_name by done.
  rewrite split_plain by (by rewrite has_char_app, Hid).
  cbn [List.last].
  change (EmptyString ++ (id ++ ")"))%string with (id ++ ")")%string.
  rewrite remove_char_app, remove_char_absent by done.
  change (Py.remove ")" ")") with EmptyString. apply append_empty.
Qed.

(** X13: the supplier chosen in the search box is the supplier whose
    dossier is shown, as long as no colon stands in the name and neither a
    colon nor a closing parenthesis in the identity: the identity read back
    from the entry of a row is that of the row, the rows selected are the
    rows of the database with that identity, the row is among them, and the
    name of the dossier is found (no [IndexError]). *)
Theorem selected_supplier_is_found (df : list Supplier360.row) (r : Supplier360.row)
    (name : string) :
  r ∈ df ->
  Supplier360.official_name r = Str name ->
  has_char ":" name = false ->
  has_char ":" (Supplier360.supplier_id r) = false ->
  has_char ")" (Supplier360.supplier_id r) = false ->
  let id := Supplier360.selected_id
              (Supplier360.display_name name (Supplier360.supplier_id r)) in
  id = Supplier360.supplier_id r
  /\ r ∈ Supplier360.supplier_df df id
  /\ (forall x, x ∈ Supplier360.supplier_df df id
        <-> x ∈ df /\ Supplier360.supplier_id x = Supplier360.supplier_id r)
  /\ exists first,
       Supplier360.supplier_name_of (Supplier360.supplier_df df id)
       = Supplier360.Returns (Supplier360.official_name first)
       /\ first ∈ df
       /\ Supplier360.supplier_id first = Supplier360.supplier_id r.
Proof.
  intros Hr Hname Hn Hi Hp id.
  assert (id = Supplier360.supplier_id r) as Hid
    by (by apply selected_id_display_name).
  split; [done|]. rewrite Hid. unfold Supplier360.supplier_df.
  assert (r ∈ filter (fun x => Supplier360.supplier_id x = Supplier360.supplier_id r) df)
    as Hin by (by apply list_elem_of_filter).
  split; [done|]. split.
  - intros x. rewrite list_elem_of_filter. tauto.
  - destruct (filter _ df) as [|first rest] eqn:Hf; [by apply elem_of_nil in Hin|].
    exists first. split; [done|].
    assert (first ∈ filter (fun x => Supplier360.supplier_id x = Supplier360.supplier_id r)
                      df) as [? ?]%list_elem_of_filter by (rewrite Hf; left).
    done.
Qed.

Lemma selected_supplier_sample :
  Supplier360.selected_id "Acme (K) Ltd (ID: 83297)" = "83297"
  /\ Supplier360.supplier_name_of
       (Supplier360.supplier_df
          [ {| Supplier360.contract := []; Supplier360.supplier_id := "KE-17";
               Supplier360.supplier_name := Str "Beta Traders";
               Supplier360.official_name := Str "Beta Traders" |};
            {| Supplier360.contract := []; Supplier360.supplier_id := "83297";
               Supplier360.supplier_name := Str "ACME LTD";
               Supplier360.official_name := Str "Acme (K) Ltd" |} ]
          (Supplier360.selected_id "Acme (K) Ltd (ID: 83297)"))
     = Supplier360.Returns (Str "Acme (K) Ltd").
Proof.
  destruct (selected_supplier_is_found
              [ {| Supplier360.contract := []; Supplier360.supplier_id := "KE-17";
                   Supplier360.supplier_name := Str "Beta Traders";
                   Supplier360.official_name := Str "Beta Traders" |};
                {| Supplier360.contract := []; Supplier360.supplier_id := "83297";
                   Supplier360.supplier_name := Str "ACME LTD";
                   Supplier360.official_name := Str "Acme (K) Ltd" |} ]
              {| Supplier360.contract := []; Supplier360.supplier_id := "83297";
                 Supplier360.supplier_name := Str "ACME LTD";
                 Supplier360.official_name := Str "Acme (K) Ltd" |}
              "Acme (K) Ltd")
    as (Hid & _ & _ & _).
  - right. left.
  - reflexivity.
  - reflexivity.
  - reflexivity.
  - reflexivity.
  - split; [exact Hid|]. vm_compute. reflexivity.
Defined.

(** The condition on the name is needed: a name that ends like the
    separator is cut at the wrong place, no row carries the identity read
    back, and the page dies of [iloc[0]]. *)
Example selected_id_cut_short :
  Supplier360.selected_id (Supplier360.display_name "Tender (ID:" "7") = "(ID: 7"
  /\ Supplier360.supplier_name_of
       (Supplier360.supplier_df
          [ {| Supplier360.contract := []; Supplier360.supplier_id := "7";
               Supplier360.supplier_name := NaN;
               Supplier360.official_name := Str "Tender (ID:" |} ]
          (Supplier360.selected_id (Supplier360.display_name "Tender (ID:" "7")))
     = Supplier360.Raises Supplier360.IndexError.
Proof. split; vm_compute; reflexivity. Qed.

(** ** From the version 3 run to the supplier page *)

(** X14: a version 3 run that links its sources leaves a table that the
    supplier page loads whenever the address book can be read: no column is
    missing, the search opens on a database with at least one row per
    linked contract, and with exactly one when no two entries of the
    deduplicated address book share an identity once written as strings. *)
Theorem supplier_page_reads_v3_output `{DatetimeParser} `{NumberRepr} fs df parties :
  V3.load_and_merge_v3 fs = Some df ->
  read_csv fs Supplier360.PARTIES_FILE Supplier360.Parties.usecols Supplier360.Parties.of_csv
  = Ok parties ->
  exists fs' db,
    V3.main fs = Ok fs'
    /\ Supplier360.load_all_data fs' = Supplier360.Returns (Supplier360.Frame db)
    /\ Supplier360.page_start fs' = Supplier360.Search db
    /\ (length df <= length db)%nat
    /\ (NoDup ((fun p => astype_str (Supplier360.Parties.supplier_id p))
                 <$> drop_duplicates Supplier360.Parties.supplier_id parties) ->
        length db = length df).
Proof.
  intros Hload Hparties.
  destruct (V3_engineer_features_rows df) as (m & Hm & Ha & _).
  set (fs' := <[V3.PROCESSED_DATA_PATH := to_csv (V3.frame m)]> fs).
  assert (length (lines (to_csv (V3.frame m))) = length df) as Hrows.
  { simpl. by rewrite length_fmap, length_seq, length_fmap. }
  assert (fs' !! Supplier360.PROCESSED_DATA_PATH = Some (to_csv (V3.frame m))) as Hf
    by apply lookup_insert_eq.
  assert (read_csv fs' Supplier360.PARTIES_FILE Supplier360.Parties.usecols
            Supplier360.Parties.of_csv = Ok parties) as Hp.
  { rewrite <-Hparties. apply read_csv_same. by apply lookup_insert_ne. }
  assert ("supplier_id" ∈ header (to_csv (V3.frame m))) as Hid by compute_done.
  assert ("supplier_name" ∈ header (to_csv (V3.frame m))) as Hname by compute_done.
  assert ("official_name" ∉ header (to_csv (V3.frame m))) as Hoff by compute_done.
  pose proof (load_all_data_Frame fs' _ parties Hf Hp Hid Hname Hoff) as Hdb.
  eexists fs', _. split; [by apply V3_main_Some with df|]. split; [exact Hdb|].
  split; [unfold Supplier360.page_start; by rewrite Hdb|]. split.
  - etransitivity; [|apply merge_left_length]. by rewrite length_fmap, Hrows.
  - intros Hnd. rewrite merge_left_unique.
    + by rewrite !length_fmap, Hrows.
    + rewrite <-list_fmap_compose.
      assert (Inj (=) (=) Str) as HStr by (by intros x y [= ->]).
      by apply (NoDup_fmap_2 Str) in Hnd; rewrite <-list_fmap_compose in Hnd.
Qed.

Lemma supplier_page_reads_v3_sample :
  exists fs' db,
    V3.main (H := iso_dates) (<[Supplier360.PARTIES_FILE := Sample360.parties_csv]> Sample.fs)
    = Ok fs'
    /\ Supplier360.page_start (H := Sample360.str_of_id) fs' = Supplier360.Search db
    /\ length db = 3%nat.
Proof.
  destruct (supplier_page_reads_v3_output (H := iso_dates) (H0 := Sample360.str_of_id)
              (<[Supplier360.PARTIES_FILE := Sample360.parties_csv]> Sample.fs)
              (default [] (V3.load_and_merge_v3
                             (<[Supplier360.PARTIES_FILE := Sample360.parties_csv]>
                                Sample.fs)))
              [ {| Supplier360.Parties.supplier_id := Str "83297";
                   Supplier360.Parties.official_name := Str "Acme (K) Ltd" |};
                {| Supplier360.Parties.supplier_id := Str "83297";
                   Supplier360.Parties.official_name := Str "Acme" |};
                {| Supplier360.Parties.supplier_id := Str "KE-99";
                   Supplier360.Parties.official_name := Str "Gamma" |} ])
    as (fs' & db & Hmain & _ & Hstart & _ & Hlen).
  - vm_compute. reflexivity.
  - vm_compute. reflexivity.
  - exists fs', db. split; [exact Hmain|]. split; [exact Hstart|].
    rewrite Hlen; [reflexivity|]. vm_compute. repeat constructor; compute_done.
Defined.
